(** * dashTerm: the resilient metrics-refresh engine

    A shallow embedding of the engine of the terminal dashboard:
    - [SystemInfo] (lib/system-info.js): the per-source collectors and
      their TTL cache;
    - [ErrorHandler] (lib/error-handler.js): classification, the bounded
      error log, statistics and the recovery actions;
    - [CompleteDashboard] (the main script): the refresh cycle, the
      periodic timer and the performance statistics.

    Conventions of the embedding.
    - Mutable objects are records threaded through the functions; the
      dashboard, its [SystemInfo] and its [ErrorHandler] reference each
      other in the source and are flattened into one [Dashboard] record.
    - [Date.now()] and [new Date().toISOString()] are inputs: every function
      that reads the clock takes the value it reads as an argument.
    - The operating-system queries of the [systeminformation] package are
      inputs as well: an [Outcome] per query, fulfilled or rejected.
    - JavaScript numbers are idealised as exact rationals ([Q]);
      [Math.round] rounds half up, and a division by zero, which gives
      [NaN] or an infinity in the source, gives [0] here.
    - Calls to [logger], [console] and the blessed widgets only produce
      output and are taken not to throw; the notices sent to the status bar
      and the modal dialogs, and the two debug lines [loggingEnabled] gates,
      are kept as traces, the rest is left out.
    - The four collectors share one shape and are one function, [collect],
      of the metric source; so are the four [safeGet...Info] wrappers. *)

From Stdlib Require Import ZArith QArith Qround String List Bool Lia Lqa.
From stdpp Require Import gmap strings list fin_maps pretty.

Open Scope string_scope.
Open Scope list_scope.
Open Scope Z_scope.

(** ** JavaScript numbers *)

(** [Math.round(x)]: the nearest integer, ties towards plus infinity. *)
Definition Math_round (x : Q) : Z := Qfloor (x + (1 # 2))%Q.

(** [Math.round(x * 100) / 100], the two-decimal rounding of the collectors. *)
Definition round2 (x : Q) : Q := (inject_Z (Math_round (x * 100)) / 100)%Q.

(** ** Errors (lib/error-handler.js) *)

Inductive ErrorType := SYSTEM | NETWORK | DATA | UI | PERFORMANCE | USER.

Inductive ErrorSeverity := LOW | MEDIUM | HIGH | CRITICAL.

(** The string each enumeration member stands for in the source. *)
Definition typeName (t : ErrorType) : string :=
  match t with
  | SYSTEM => "system" | NETWORK => "network" | DATA => "data"
  | UI => "ui" | PERFORMANCE => "performance" | USER => "user"
  end.

Definition severityName (s : ErrorSeverity) : string :=
  match s with
  | LOW => "low" | MEDIUM => "medium" | HIGH => "high" | CRITICAL => "critical"
  end.

(** A JavaScript error that is not a [DashboardError]: what a failed system
    call or a parser throws. [err_code] is [None] when the object has no
    [code]; [err_isSyntaxError] is [error instanceof SyntaxError]. *)
Record JsError := {
  err_name : string;
  err_message : string;
  err_code : option string;
  err_stack : string;
  err_isSyntaxError : bool
}.

(** The [details] object of a [DashboardError]. *)
Inductive Details :=
| NoDetails
| OriginalError (e : JsError)
| Normalized (originalError : string) (code : option string)
             (context : string) (stack : string)
| OtherDetails (payload : string).

Record DashboardError := {
  name : string;
  message : string;
  type : ErrorType;
  severity : ErrorSeverity;
  details : Details;
  timestamp : string;
  stack : string
}.

(** [new DashboardError(message, type, severity, details)] at clock [iso];
    of the captured stack trace the first line is kept. *)
Definition newDashboardError (msg : string) (t : ErrorType) (s : ErrorSeverity)
    (dt : Details) (iso : string) : DashboardError :=
  {| name := "DashboardError"; message := msg; type := t; severity := s;
     details := dt; timestamp := iso; stack := "DashboardError: " +:+ msg |}.

(** [new SystemError(message, details)]. *)
Definition newSystemError (msg : string) (dt : Details) (iso : string) : DashboardError :=
  {| name := "SystemError"; message := msg; type := SYSTEM; severity := HIGH;
     details := dt; timestamp := iso; stack := "SystemError: " +:+ msg |}.

(** [new DataError(message, details)]. *)
Definition newDataError (msg : string) (dt : Details) (iso : string) : DashboardError :=
  {| name := "DataError"; message := msg; type := DATA; severity := MEDIUM;
     details := dt; timestamp := iso; stack := "DataError: " +:+ msg |}.

(** Whatever reaches [handleError]: a typed failure or a plain error. *)
Inductive Thrown :=
| Typed (e : DashboardError)
| Plain (e : JsError).

Definition thrownMessage (t : Thrown) : string :=
  match t with
  | Typed e => message e
  | Plain e => err_message e
  end.

(** [a || b] on strings: the empty string is falsy. *)
Definition orElse (a b : string) : string :=
  if String.eqb a "" then b else a.

Definition codeIs (c : option string) (s : string) : bool :=
  match c with
  | Some c' => String.eqb c' s
  | None => false
  end.

(** [ErrorHandler.normalizeError(error, context)]. *)
Definition normalizeError (error : Thrown) (context : string) (iso : string)
    : DashboardError :=
  match error with
  | Typed e => e
  | Plain e =>
      let '(t, s) :=
        if codeIs (err_code e) "ENOENT" || codeIs (err_code e) "EACCES"
        then (SYSTEM, HIGH)
        else if codeIs (err_code e) "ENOTFOUND" || codeIs (err_code e) "ECONNREFUSED"
        then (NETWORK, MEDIUM)
        else if err_isSyntaxError e
        then (DATA, MEDIUM)
        else (SYSTEM, MEDIUM) in
      newDashboardError (orElse (err_message e) "Unknown error") t s
        (Normalized (err_name e) (err_code e) context (err_stack e)) iso
  end.

(** One record of the error log, as [logError] builds it. *)
Record LogEntry := {
  entry_timestamp : string;
  entry_type : ErrorType;
  entry_severity : ErrorSeverity;
  entry_message : string;
  entry_details : Details;
  entry_stack : string
}.

Record ErrorHandler := {
  errorLog : list LogEntry;
  maxLogSize : nat;
  errorCounts : gmap string nat;
  lastErrors : gmap string DashboardError
}.

(** The state the [ErrorHandler] constructor sets up. *)
Definition newErrorHandler : ErrorHandler :=
  {| errorLog := []; maxLogSize := 100; errorCounts := ∅; lastErrors := ∅ |}.

Definition toLogEntry (error : DashboardError) (iso : string) : LogEntry :=
  {| entry_timestamp := orElse (timestamp error) iso;
     entry_type := type error;
     entry_severity := severity error;
     entry_message := message error;
     entry_details := details error;
     entry_stack := stack error |}.

(** [ErrorHandler.logError(error)]: push, then shift once when the log is
    longer than [maxLogSize]. *)
Definition logError (error : DashboardError) (iso : string) (h : ErrorHandler)
    : ErrorHandler :=
  let pushed := errorLog h ++ [toLogEntry error iso] in
  let log' := if (maxLogSize h <? length pushed)%nat then drop 1 pushed else pushed in
  {| errorLog := log'; maxLogSize := maxLogSize h;
     errorCounts := errorCounts h; lastErrors := lastErrors h |}.

(** [logError] called for each error of a list in turn, each with the clock
    it would read. *)
Definition logErrors (es : list (DashboardError * string)) (h : ErrorHandler)
    : ErrorHandler :=
  fold_left (fun acc e => logError (fst e) (snd e) acc) es h.

(** The log entries a list of errors gives, in order. *)
Definition entriesOf (es : list (DashboardError * string)) : list LogEntry :=
  map (fun e => toLogEntry (fst e) (snd e)) es.

(** [ErrorHandler.updateErrorStats(error)]. *)
Definition updateErrorStats (error : DashboardError) (h : ErrorHandler)
    : ErrorHandler :=
  let key := typeName (type error) +:+ "_" +:+ severityName (severity error) in
  {| errorLog := errorLog h; maxLogSize := maxLogSize h;
     errorCounts := <[key := (default 0%nat (errorCounts h !! key) + 1)%nat]> (errorCounts h);
     lastErrors := <[typeName (type error) := error]> (lastErrors h) |}.

(** [ErrorHandler.clearErrorLog()]. *)
Definition clearErrorLog (h : ErrorHandler) : ErrorHandler :=
  {| errorLog := []; maxLogSize := maxLogSize h; errorCounts := ∅; lastErrors := ∅ |}.

(** ** Metric sources and readings (lib/system-info.js) *)

Inductive Source := CPU | Memory | Disk | Network.

(** The cache key each collector uses. *)
Definition cacheKey (s : Source) : string :=
  match s with
  | CPU => "cpu" | Memory => "memory" | Disk => "disk" | Network => "network"
  end.

(** One value per metric source. *)
Record PerSource (A : Type) := {
  forCPU : A;
  forMemory : A;
  forDisk : A;
  forNetwork : A
}.
Arguments forCPU {A} _.
Arguments forMemory {A} _.
Arguments forDisk {A} _.
Arguments forNetwork {A} _.

Definition pick {A : Type} (s : Source) (p : PerSource A) : A :=
  match s with
  | CPU => forCPU p | Memory => forMemory p
  | Disk => forDisk p | Network => forNetwork p
  end.

(** What the [systeminformation] queries return, restricted to the fields
    the collectors read. *)
Record RawCore := { core_load : Q }.
Record RawLoad := { currentLoad : Q; cpus : list RawCore }.
Record RawCpu := { cpu_model : string; cpu_speed : Q }.
Record RawMem := { mem_total : Q; mem_used : Q; mem_free : Q }.
Record RawFs := {
  fs : string; fs_size : Q; fs_used : Q; fs_available : Q; fs_use : Q;
  fs_mount : string
}.
Record RawNet := {
  iface : string; rx_bytes : Q; tx_bytes : Q; rx_sec : Q; tx_sec : Q
}.

(** The readings the collectors build. *)
Record CoreUsage := { core : nat; load : Q }.
Record CPUInfo := {
  usage : Q; cores : nat; model : string; speed : Q; coreUsage : list CoreUsage
}.
Record MemoryInfo := { total : Q; used : Q; free : Q; usagePercent : Q }.
Record DiskInfo := {
  filesystem : string; disk_size : Q; disk_used : Q; disk_available : Q;
  disk_usagePercent : Q; mount : string
}.
Record NetworkInfo := {
  interface : string; rxMB : Q; txMB : Q; rxRate : Q; txRate : Q
}.

Inductive Reading :=
| CPUData (c : CPUInfo)
| MemoryData (m : MemoryInfo)
| DiskData (l : list DiskInfo)
| NetworkData (l : list NetworkInfo).

(** The settled state of an awaited promise. *)
Inductive Outcome (A : Type) :=
| Fulfilled (a : A)
| Rejected (e : JsError).
Arguments Fulfilled {A} _.
Arguments Rejected {A} _.

Definition isRejected {A : Type} (o : Outcome A) : bool :=
  match o with
  | Fulfilled _ => false
  | Rejected _ => true
  end.

(** The operating system as one refresh cycle sees it: the outcome of each
    query the collectors may await. Malformed data makes the collector's
    [try] block throw just as a rejected query does, and is a [Rejected]. *)
Record OsQueries := {
  os_currentLoad : Outcome RawLoad;
  os_cpu : Outcome RawCpu;
  os_mem : Outcome RawMem;
  os_fsSize : Outcome (list RawFs);
  os_networkStats : Outcome (list RawNet)
}.

(** Whether the queries behind a source fail. *)
Definition queryFails (s : Source) (os : OsQueries) : bool :=
  match s with
  | CPU => isRejected (os_currentLoad os) || isRejected (os_cpu os)
  | Memory => isRejected (os_mem os)
  | Disk => isRejected (os_fsSize os)
  | Network => isRejected (os_networkStats os)
  end.

(** A cache entry; [cached_at] is its [timestamp] field. *)
Record CacheEntry := { data : Reading; cached_at : Z }.

Record SystemInfo := {
  cache : gmap string CacheEntry;
  cacheTimeout : Z
}.

(** [new SystemInfo()]. *)
Definition newSystemInfo : SystemInfo :=
  {| cache := ∅; cacheTimeout := 2000 |}.

Definition withCache (m : gmap string CacheEntry) (si : SystemInfo) : SystemInfo :=
  {| cache := m; cacheTimeout := cacheTimeout si |}.

(** [SystemInfo.isInCache(key)] with [Date.now() = now]. *)
Definition isInCache (key : string) (now : Z) (si : SystemInfo) : bool * SystemInfo :=
  match cache si !! key with
  | None => (false, si)
  | Some cached =>
      let isValid := now - cached_at cached <? cacheTimeout si in
      if negb isValid
      then (false, withCache (delete key (cache si)) si)
      else (true, si)
  end.

(** [SystemInfo.setCache(key, data)] with [Date.now() = now]. *)
Definition setCache (key : string) (result : Reading) (now : Z) (si : SystemInfo)
    : SystemInfo :=
  withCache (<[key := {| data := result; cached_at := now |}]> (cache si)) si.

(** [SystemInfo.clearExpiredCache()] with [Date.now() = now]. *)
Definition clearExpiredCache (now : Z) (si : SystemInfo) : SystemInfo :=
  withCache
    (filter (fun kv => (now - cached_at (snd kv) >=? cacheTimeout si) = false)
            (cache si))
    si.

(** [this.cache.clear()]. *)
Definition clearCache (si : SystemInfo) : SystemInfo := withCache ∅ si.

(** [SystemInfo.getCacheStats()]: size, keys and timeout. *)
Definition getCacheStats (si : SystemInfo) : nat * gset string * Z :=
  (size (cache si), dom (cache si), cacheTimeout si).

(** The read every collector starts with:
    [if (this.isInCache(key)) return this.cache.get(key).data]. [None] is a
    miss, after which the collector goes on to query the system. *)
Definition cacheLookup (key : string) (now : Z) (si : SystemInfo)
    : option Reading * SystemInfo :=
  let '(hit, si') := isInCache key now si in
  if hit then (data <$> cache si' !! key, si') else (None, si').

(** The safe defaults the collectors return from their [catch] blocks. *)
Definition defaultCPU : CPUInfo :=
  {| usage := 0; cores := 0; model := "Unknown"; speed := 0; coreUsage := [] |}.

Definition defaultMemory : MemoryInfo :=
  {| total := 0; used := 0; free := 0; usagePercent := 0 |}.

Definition safeDefault (s : Source) : Reading :=
  match s with
  | CPU => CPUData defaultCPU
  | Memory => MemoryData defaultMemory
  | Disk => DiskData []
  | Network => NetworkData []
  end.

(** [cpuLoad.cpus.map((core, index) => ...)], indices counted from [i]. *)
Fixpoint coreUsageFrom (i : nat) (l : list RawCore) : list CoreUsage :=
  match l with
  | [] => []
  | c :: l' => {| core := i; load := round2 (core_load c) |} :: coreUsageFrom (S i) l'
  end.

Definition cpuResult (cpuLoad : RawLoad) (cpuInfo : RawCpu) : CPUInfo :=
  {| usage := round2 (currentLoad cpuLoad);
     cores := length (cpus cpuLoad);
     model := cpu_model cpuInfo;
     speed := cpu_speed cpuInfo;
     coreUsage := coreUsageFrom 0 (cpus cpuLoad) |}.

Definition bytesToGB (bytes : Q) : Q := round2 (bytes / 1024 / 1024 / 1024)%Q.

Definition memoryResult (memInfo : RawMem) : MemoryInfo :=
  {| total := bytesToGB (mem_total memInfo);
     used := bytesToGB (mem_used memInfo);
     free := bytesToGB (mem_free memInfo);
     usagePercent := round2 (mem_used memInfo / mem_total memInfo * 100)%Q |}.

Definition isRealDisk (disk : RawFs) : bool :=
  match (0 ?= fs_size disk)%Q with
  | Lt => true
  | _ => false
  end.

Definition diskEntry (disk : RawFs) : DiskInfo :=
  {| filesystem := fs disk;
     disk_size := bytesToGB (fs_size disk);
     disk_used := bytesToGB (fs_used disk);
     disk_available := bytesToGB (fs_available disk);
     disk_usagePercent := round2 (fs_use disk);
     mount := fs_mount disk |}.

Definition diskResult (diskInfo : list RawFs) : list DiskInfo :=
  map diskEntry (List.filter isRealDisk diskInfo).

Definition networkEntry (net : RawNet) : NetworkInfo :=
  {| interface := iface net;
     rxMB := round2 (rx_bytes net / 1024 / 1024)%Q;
     txMB := round2 (tx_bytes net / 1024 / 1024)%Q;
     rxRate := round2 (rx_sec net / 1024)%Q;
     txRate := round2 (tx_sec net / 1024)%Q |}.

Definition networkResult (networkStats : list RawNet) : list NetworkInfo :=
  map networkEntry networkStats.

(** The [try { ... } catch { ... }] of a collector, entered on a cache miss:
    the reading built from the queries, or [None] when the [try] block
    throws. *)
Definition queryResult (s : Source) (os : OsQueries) : option Reading :=
  match s with
  | CPU =>
      match os_currentLoad os, os_cpu os with
      | Fulfilled cpuLoad, Fulfilled cpuInfo => Some (CPUData (cpuResult cpuLoad cpuInfo))
      | _, _ => None
      end
  | Memory =>
      match os_mem os with
      | Fulfilled memInfo => Some (MemoryData (memoryResult memInfo))
      | Rejected _ => None
      end
  | Disk =>
      match os_fsSize os with
      | Fulfilled diskInfo => Some (DiskData (diskResult diskInfo))
      | Rejected _ => None
      end
  | Network =>
      match os_networkStats os with
      | Fulfilled networkStats => Some (NetworkData (networkResult networkStats))
      | Rejected _ => None
      end
  end.

(** The part of a collector after the cache miss, run when its queries have
    settled: on success the reading is cached at [now] and returned; on
    failure the [catch] block returns the safe default and leaves the cache
    alone. The promise of the collector is fulfilled either way. *)
Definition collectFresh (s : Source) (now : Z) (os : OsQueries) (si : SystemInfo)
    : Outcome Reading * SystemInfo :=
  match queryResult s os with
  | Some result => (Fulfilled result, setCache (cacheKey s) result now si)
  | None => (Fulfilled (safeDefault s), si)
  end.

(** A whole collector: [getCPUInfo], [getMemoryInfo], [getDiskInfo] and
    [getNetworkInfo] are [collect] at their source. [lookupAt] is the clock
    [isInCache] reads, [storeAt] the clock [setCache] reads. *)
Definition collect (s : Source) (lookupAt storeAt : Z) (os : OsQueries)
    (si : SystemInfo) : Outcome Reading * SystemInfo :=
  match cacheLookup (cacheKey s) lookupAt si with
  | (Some cached, si') => (Fulfilled cached, si')
  | (None, si') => collectFresh s storeAt os si'
  end.

Definition getCPUInfo := collect CPU.
Definition getMemoryInfo := collect Memory.
Definition getDiskInfo := collect Disk.
Definition getNetworkInfo := collect Network.

(** ** The dashboard state (the main script) *)

(** Which callback a periodic timer runs: the one [startUpdateLoop] installs
    or the one [temporarilyReduceUpdateFrequency] installs. *)
Inductive Callback := UpdateLoop | ReducedLoop.

(** An armed [setInterval] timer. *)
Record Timer := { period : Z; callback : Callback }.

Record PerformanceStats := {
  totalUpdates : Z;
  averageUpdateTime : Z;
  errorCount : nat;
  cacheHitRate : Z;
  startTime : Z
}.

Record Config := {
  cfg_updateInterval : Z;
  maxRetries : Z;
  enableLogging : bool;
  theme : string
}.

(** What the event handler is asked to show. *)
Inductive Notice :=
| StatusMessage (text : string) (kind : string) (duration : Z)
| ModalDialog (title : string) (content : string).

(** The two [logger.debug] lines of [updateDisplay] that [loggingEnabled]
    gates. *)
Inductive DebugLine :=
| UpdateStarting (n : Z)
| UpdateCompleted (n : Z) (duration : Z).

(** The [CompleteDashboard] object once [initialize] has created its error
    handler. [eventHandler] tells whether the event handler exists yet;
    [notices] and [debugLines] are the output produced so far, newest last;
    [exitTimer] is the exit code of the [process.exit] that
    [handleCriticalError] schedules. *)
Record Dashboard := {
  systemInfo : SystemInfo;
  eventHandler : bool;
  errorHandler : ErrorHandler;
  isRunning : bool;
  loggingEnabled : bool;
  degradedMode : bool;
  updateInterval : option Timer;
  updateCount : Z;
  performanceStats : PerformanceStats;
  config : Config;
  notices : list Notice;
  debugLines : list DebugLine;
  exitTimer : option Z
}.

(** The constructor of [CompleteDashboard] at clock [now], followed by the
    [new ErrorHandler(this)] of [initialize]. *)
Definition newDashboard (now : Z) : Dashboard :=
  {| systemInfo := newSystemInfo;
     eventHandler := false;
     errorHandler := newErrorHandler;
     isRunning := false;
     loggingEnabled := false;
     degradedMode := false;
     updateInterval := None;
     updateCount := 0;
     performanceStats :=
       {| totalUpdates := 0; averageUpdateTime := 0; errorCount := 0;
          cacheHitRate := 0; startTime := now |};
     config :=
       {| cfg_updateInterval := 2000; maxRetries := 3; enableLogging := false;
          theme := "default" |};
     notices := [];
     debugLines := [];
     exitTimer := None |}.

(** Field updates. *)
Definition setSystemInfo (si : SystemInfo) (d : Dashboard) : Dashboard :=
  {| systemInfo := si; eventHandler := eventHandler d;
     errorHandler := errorHandler d; isRunning := isRunning d;
     loggingEnabled := loggingEnabled d; degradedMode := degradedMode d;
     updateInterval := updateInterval d; updateCount := updateCount d;
     performanceStats := performanceStats d; config := config d;
     notices := notices d; debugLines := debugLines d; exitTimer := exitTimer d |}.

Definition setEventHandler (b : bool) (d : Dashboard) : Dashboard :=
  {| systemInfo := systemInfo d; eventHandler := b;
     errorHandler := errorHandler d; isRunning := isRunning d;
     loggingEnabled := loggingEnabled d; degradedMode := degradedMode d;
     updateInterval := updateInterval d; updateCount := updateCount d;
     performanceStats := performanceStats d; config := config d;
     notices := notices d; debugLines := debugLines d; exitTimer := exitTimer d |}.

Definition setErrorHandler (h : ErrorHandler) (d : Dashboard) : Dashboard :=
  {| systemInfo := systemInfo d; eventHandler := eventHandler d;
     errorHandler := h; isRunning := isRunning d;
     loggingEnabled := loggingEnabled d; degradedMode := degradedMode d;
     updateInterval := updateInterval d; updateCount := updateCount d;
     performanceStats := performanceStats d; config := config d;
     notices := notices d; debugLines := debugLines d; exitTimer := exitTimer d |}.

Definition setIsRunning (b : bool) (d : Dashboard) : Dashboard :=
  {| systemInfo := systemInfo d; eventHandler := eventHandler d;
     errorHandler := errorHandler d; isRunning := b;
     loggingEnabled := loggingEnabled d; degradedMode := degradedMode d;
     updateInterval := updateInterval d; updateCount := updateCount d;
     performanceStats := performanceStats d; config := config d;
     notices := notices d; debugLines := debugLines d; exitTimer := exitTimer d |}.

Definition setLoggingEnabled (b : bool) (d : Dashboard) : Dashboard :=
  {| systemInfo := systemInfo d; eventHandler := eventHandler d;
     errorHandler := errorHandler d; isRunning := isRunning d;
     loggingEnabled := b; degradedMode := degradedMode d;
     updateInterval := updateInterval d; updateCount := updateCount d;
     performanceStats := performanceStats d; config := config d;
     notices := notices d; debugLines := debugLines d; exitTimer := exitTimer d |}.

Definition setDegradedMode (b : bool) (d : Dashboard) : Dashboard :=
  {| systemInfo := systemInfo d; eventHandler := eventHandler d;
     errorHandler := errorHandler d; isRunning := isRunning d;
     loggingEnabled := loggingEnabled d; degradedMode := b;
     updateInterval := updateInterval d; updateCount := updateCount d;
     performanceStats := performanceStats d; config := config d;
     notices := notices d; debugLines := debugLines d; exitTimer := exitTimer d |}.

Definition setUpdateInterval (t : option Timer) (d : Dashboard) : Dashboard :=
  {| systemInfo := systemInfo d; eventHandler := eventHandler d;
     errorHandler := errorHandler d; isRunning := isRunning d;
     loggingEnabled := loggingEnabled d; degradedMode := degradedMode d;
     updateInterval := t; updateCount := updateCount d;
     performanceStats := performanceStats d; config := config d;
     notices := notices d; debugLines := debugLines d; exitTimer := exitTimer d |}.

Definition setUpdateCount (n : Z) (d : Dashboard) : Dashboard :=
  {| systemInfo := systemInfo d; eventHandler := eventHandler d;
     errorHandler := errorHandler d; isRunning := isRunning d;
     loggingEnabled := loggingEnabled d; degradedMode := degradedMode d;
     updateInterval := updateInterval d; updateCount := n;
     performanceStats := performanceStats d; config := config d;
     notices := notices d; debugLines := debugLines d; exitTimer := exitTimer d |}.

Definition setPerformanceStats (p : PerformanceStats) (d : Dashboard) : Dashboard :=
  {| systemInfo := systemInfo d; eventHandler := eventHandler d;
     errorHandler := errorHandler d; isRunning := isRunning d;
     loggingEnabled := loggingEnabled d; degradedMode := degradedMode d;
     updateInterval := updateInterval d; updateCount := updateCount d;
     performanceStats := p; config := config d;
     notices := notices d; debugLines := debugLines d; exitTimer := exitTimer d |}.

Definition setNotices (l : list Notice) (d : Dashboard) : Dashboard :=
  {| systemInfo := systemInfo d; eventHandler := eventHandler d;
     errorHandler := errorHandler d; isRunning := isRunning d;
     loggingEnabled := loggingEnabled d; degradedMode := degradedMode d;
     updateInterval := updateInterval d; updateCount := updateCount d;
     performanceStats := performanceStats d; config := config d;
     notices := l; debugLines := debugLines d; exitTimer := exitTimer d |}.

Definition setDebugLines (l : list DebugLine) (d : Dashboard) : Dashboard :=
  {| systemInfo := systemInfo d; eventHandler := eventHandler d;
     errorHandler := errorHandler d; isRunning := isRunning d;
     loggingEnabled := loggingEnabled d; degradedMode := degradedMode d;
     updateInterval := updateInterval d; updateCount := updateCount d;
     performanceStats := performanceStats d; config := config d;
     notices := notices d; debugLines := l; exitTimer := exitTimer d |}.

Definition setExitTimer (c : option Z) (d : Dashboard) : Dashboard :=
  {| systemInfo := systemInfo d; eventHandler := eventHandler d;
     errorHandler := errorHandler d; isRunning := isRunning d;
     loggingEnabled := loggingEnabled d; degradedMode := degradedMode d;
     updateInterval := updateInterval d; updateCount := updateCount d;
     performanceStats := performanceStats d; config := config d;
     notices := notices d; debugLines := debugLines d; exitTimer := c |}.

(** The line feed of the dialog texts. *)
Definition newline : string := String (Ascii.ascii_of_nat 10) "".

(** [if (this.dashboard.eventHandler) this.dashboard.eventHandler.show...]. *)
Definition notify (n : Notice) (d : Dashboard) : Dashboard :=
  if eventHandler d then setNotices (notices d ++ [n]) d else d.

(** ** Recovery and escalation (lib/error-handler.js) *)

(** [ErrorHandler.temporarilyReduceUpdateFrequency()]: when a timer is
    armed it is cleared and a new one is armed with the reduced callback and
    the literal period of 4000 ms. *)
Definition temporarilyReduceUpdateFrequency (d : Dashboard) : Dashboard :=
  match updateInterval d with
  | Some _ => setUpdateInterval (Some {| period := 4000; callback := ReducedLoop |}) d
  | None => d
  end.

(** [ErrorHandler.enterDegradedMode(error)]. *)
Definition enterDegradedMode (error : DashboardError) (d : Dashboard) : Dashboard :=
  let d1 := setDegradedMode true d in
  let d2 := temporarilyReduceUpdateFrequency d1 in
  setLoggingEnabled false d2.

(** [ErrorHandler.recoverFromSystemError(error)]; the dashboard always has its
    [systemInfo], which the constructor creates. *)
Definition recoverFromSystemError (error : DashboardError) (d : Dashboard) : Dashboard :=
  let d1 := setSystemInfo (clearCache (systemInfo d)) d in
  temporarilyReduceUpdateFrequency d1.

(** [ErrorHandler.recoverFromDataError(error)]. *)
Definition recoverFromDataError (error : DashboardError) (d : Dashboard) : Dashboard :=
  setSystemInfo (clearCache (systemInfo d)) d.

(** [ErrorHandler.recoverFromNetworkError(error)]: only logs. *)
Definition recoverFromNetworkError (error : DashboardError) (d : Dashboard) : Dashboard := d.

(** [ErrorHandler.attemptRecovery(error)]. *)
Definition attemptRecovery (error : DashboardError) (d : Dashboard) : Dashboard :=
  match type error with
  | SYSTEM => recoverFromSystemError error d
  | DATA => recoverFromDataError error d
  | NETWORK => recoverFromNetworkError error d
  | _ => d
  end.

(** [ErrorHandler.handleLowSeverityError(error)]. *)
Definition handleLowSeverityError (error : DashboardError) (d : Dashboard) : Dashboard :=
  notify (StatusMessage ("Warning: " +:+ message error) "warning" 2000) d.

(** [ErrorHandler.handleMediumSeverityError(error)]. *)
Definition handleMediumSeverityError (error : DashboardError) (d : Dashboard) : Dashboard :=
  let d1 := notify (StatusMessage ("Error: " +:+ message error) "error" 3000) d in
  attemptRecovery error d1.

(** [ErrorHandler.handleHighSeverityError(error)]. *)
Definition handleHighSeverityError (error : DashboardError) (d : Dashboard) : Dashboard :=
  let d1 := enterDegradedMode error d in
  notify
    (ModalDialog "System Error"
       ("A serious error occurred:" +:+ newline +:+ newline +:+ message error
        +:+ newline +:+ newline +:+ "The application is running in degraded mode."))
    d1.

(** [ErrorHandler.handleCriticalError(title, error)]: the diagnostics go to
    the logger and a timer is set that exits with status 1. *)
Definition handleCriticalError (title : string) (error : DashboardError) (d : Dashboard)
    : Dashboard :=
  setExitTimer (Some 1) d.

(** [ErrorHandler.handleError(error, context)]. *)
Definition handleError (error : Thrown) (context : string) (iso : string)
    (d : Dashboard) : DashboardError * Dashboard :=
  let dashboardError := normalizeError error context iso in
  let d1 := setErrorHandler (logError dashboardError iso (errorHandler d)) d in
  let d2 :=
    match severity dashboardError with
    | LOW => handleLowSeverityError dashboardError d1
    | MEDIUM => handleMediumSeverityError dashboardError d1
    | HIGH => handleHighSeverityError dashboardError d1
    | CRITICAL => handleCriticalError "Critical Error" dashboardError d1
    end in
  let d3 := setErrorHandler (updateErrorStats dashboardError (errorHandler d2)) d2 in
  (dashboardError, d3).

(** [ErrorHandler.getErrorStats().totalErrors]. *)
Definition totalErrors (h : ErrorHandler) : nat := length (errorLog h).

(** ** The refresh cycle (the main script) *)

(** What the [catch] block of a [safeGet...Info] wrapper returns: [null] for
    CPU and memory, an empty array for disk and network. *)
Definition fallback (s : Source) : option Reading :=
  match s with
  | CPU | Memory => None
  | Disk => Some (DiskData [])
  | Network => Some (NetworkData [])
  end.

Definition failureMessage (s : Source) : string :=
  match s with
  | CPU => "CPU data collection failed: "
  | Memory => "Memory data collection failed: "
  | Disk => "Disk data collection failed: "
  | Network => "Network data collection failed: "
  end.

(** The [try { return await ... } catch (error) { ... }] of a
    [safeGet...Info] wrapper, given how the collector's promise settled.
    [None] is [null]. *)
Definition safeSettle (s : Source) (o : Outcome Reading) (iso : string)
    (d : Dashboard) : option Reading * Dashboard :=
  match o with
  | Fulfilled r => (Some r, d)
  | Rejected e =>
      let failure :=
        newDashboardError (failureMessage s +:+ err_message e) SYSTEM LOW
          (OriginalError e) iso in
      (fallback s, snd (handleError (Typed failure) "" iso d))
  end.

(** A whole wrapper: [safeGetCPUInfo], [safeGetMemoryInfo],
    [safeGetDiskInfo] and [safeGetNetworkInfo] are [safeGet] at their
    source. *)
Definition safeGet (s : Source) (lookupAt storeAt : Z) (os : OsQueries)
    (iso : string) (d : Dashboard) : option Reading * Dashboard :=
  let '(o, si') := collect s lookupAt storeAt os (systemInfo d) in
  safeSettle s o iso (setSystemInfo si' d).

(** The clock readings of the synchronous start of a cycle: the
    [startTime] of [updateDisplay] and the [Date.now()] of each collector's
    [isInCache]. *)
Record BeginClock := {
  startAt : Z;
  lookupAt : PerSource Z
}.

(** The clock readings of the rest of a cycle: each collector's [setCache],
    [clearExpiredCache], the end of [updateDisplay], the caller's
    [Date.now()] after rendering, and the time stamp an error would get. *)
Record ResumeClock := {
  storeAt : PerSource Z;
  sweepAt : Z;
  endAt : Z;
  renderedAt : Z;
  isoAt : string
}.

(** [if (this.loggingEnabled) logger.debug(...)] at the start of
    [updateDisplay] and at its end. *)
Definition logStarting (d : Dashboard) : Dashboard :=
  if loggingEnabled d
  then setDebugLines (debugLines d ++ [UpdateStarting (updateCount d + 1)]) d
  else d.

Definition logCompleted (duration : Z) (d : Dashboard) : Dashboard :=
  if loggingEnabled d
  then setDebugLines (debugLines d ++ [UpdateCompleted (updateCount d) duration]) d
  else d.

(** The cache read at the head of one collector call. *)
Definition lookupSource (s : Source) (b : BeginClock) (d : Dashboard)
    : option Reading * Dashboard :=
  let '(r, si') := cacheLookup (cacheKey s) (pick s (lookupAt b)) (systemInfo d) in
  (r, setSystemInfo si' d).

(** [updateDisplay] up to [await Promise.all(dataPromises)]: the four
    wrappers are called in turn and each runs to its first pending [await],
    that is through its cache read. The result tells, per source, the cached
    reading that was served, or [None] when the collector is waiting for the
    operating system. *)
Definition updateDisplayBegin (b : BeginClock) (d : Dashboard)
    : PerSource (option Reading) * Dashboard :=
  let d0 := logStarting d in
  let '(c, d1) := lookupSource CPU b d0 in
  let '(m, d2) := lookupSource Memory b d1 in
  let '(k, d3) := lookupSource Disk b d2 in
  let '(n, d4) := lookupSource Network b d3 in
  ({| forCPU := c; forMemory := m; forDisk := k; forNetwork := n |}, d4).

(** The rest of one wrapper call once its queries have settled. *)
Definition settleSource (s : Source) (r : ResumeClock) (os : OsQueries)
    (served : option Reading) (d : Dashboard) : option Reading * Dashboard :=
  match served with
  | Some reading => (Some reading, d)
  | None =>
      let '(o, si') := collectFresh s (pick s (storeAt r)) os (systemInfo d) in
      safeSettle s o (isoAt r) (setSystemInfo si' d)
  end.

(** [updateDisplay] from the moment [Promise.all] resolves: the four
    results [[cpuInfo; memoryInfo; diskInfo; networkInfo]], then the
    maintenance tasks. The collectors write disjoint cache keys, so the
    order in which their queries settled does not show. *)
Definition updateDisplayResume (started : Z) (r : ResumeClock) (os : OsQueries)
    (served : PerSource (option Reading)) (d : Dashboard)
    : list (option Reading) * Dashboard :=
  let '(cpuInfo, d1) := settleSource CPU r os (forCPU served) d in
  let '(memoryInfo, d2) := settleSource Memory r os (forMemory served) d1 in
  let '(diskInfo, d3) := settleSource Disk r os (forDisk served) d2 in
  let '(networkInfo, d4) := settleSource Network r os (forNetwork served) d3 in
  let d5 := setSystemInfo (clearExpiredCache (sweepAt r) (systemInfo d4)) d4 in
  let d6 := setUpdateCount (updateCount d5 + 1) d5 in
  let d7 := logCompleted (endAt r - started) d6 in
  ([cpuInfo; memoryInfo; diskInfo; networkInfo], d7).

(** [updateDisplay()] run from start to end with nothing in between. *)
Definition updateDisplay (b : BeginClock) (r : ResumeClock) (os : OsQueries)
    (d : Dashboard) : list (option Reading) * Dashboard :=
  let '(served, d1) := updateDisplayBegin b d in
  updateDisplayResume (startAt b) r os served d1.

(** [CompleteDashboard.updatePerformanceStats(updateTime)]. *)
Definition updatePerformanceStats (updateTime : Z) (d : Dashboard) : Dashboard :=
  let p := performanceStats d in
  let totalUpdates' := totalUpdates p + 1 in
  let totalTime := averageUpdateTime p * (totalUpdates' - 1) + updateTime in
  let average := Math_round (inject_Z totalTime / inject_Z totalUpdates')%Q in
  setPerformanceStats
    {| totalUpdates := totalUpdates';
       averageUpdateTime := average;
       errorCount := totalErrors (errorHandler d);
       cacheHitRate := if (0 <? size (cache (systemInfo d)))%nat then 85 else 0;
       startTime := startTime p |}
    d.

(** [updatePerformanceStats] for each duration of a list in turn. *)
Definition recordDurations (ts : list Z) (d : Dashboard) : Dashboard :=
  fold_left (fun acc t => updatePerformanceStats t acc) ts d.

(** The average after each cycle of a run. *)
Fixpoint averagesAfter (ts : list Z) (d : Dashboard) : list Z :=
  match ts with
  | [] => []
  | t :: ts' =>
      let d' := updatePerformanceStats t d in
      averageUpdateTime (performanceStats d') :: averagesAfter ts' d'
  end.

(** ** The event loop

    An [async] function runs until its first pending [await] and is resumed
    by a later turn of the event loop; in between, timers and key presses
    are served. A cycle that is waiting for its queries is kept in
    [inFlight] with what remains to be done when it completes. *)

(** What follows [await this.updateDisplay()] in each caller. *)
Inductive Continuation :=
| Initialize                 (* [startUpdateLoop], then the end of [initialize] *)
| TimedTick (tickAt : Z)     (* the callback of [startUpdateLoop] *)
| ReducedTick                (* the callback of [temporarilyReduceUpdateFrequency] *)
| Refresh.                   (* [EventHandler.handleRefresh] *)

Record Cycle := {
  served : PerSource (option Reading);
  started : Z;
  continuation : Continuation
}.

Record Runtime := {
  dashboard : Dashboard;
  inFlight : list Cycle
}.

Definition wasServed (o : option Reading) : bool :=
  match o with
  | Some _ => true
  | None => false
  end.

(** Whether no collector of a cycle is waiting for the operating system. *)
Definition allServed (p : PerSource (option Reading)) : bool :=
  wasServed (forCPU p) && wasServed (forMemory p)
  && wasServed (forDisk p) && wasServed (forNetwork p).

(** Query outcomes for a cycle that asks nothing: every collector was served
    from the cache, so none of them is read. *)
Definition unasked : OsQueries :=
  let e := {| err_name := "Error"; err_message := "not queried"; err_code := None;
              err_stack := ""; err_isSyntaxError := false |} in
  {| os_currentLoad := Rejected e; os_cpu := Rejected e; os_mem := Rejected e;
     os_fsSize := Rejected e; os_networkStats := Rejected e |}.

(** What each caller does after its [await this.updateDisplay()]. *)
Definition resumeCaller (k : Continuation) (r : ResumeClock) (d : Dashboard)
    : Dashboard :=
  match k with
  | Initialize =>
      let armed :=
        setUpdateInterval
          (Some {| period := cfg_updateInterval (config d); callback := UpdateLoop |}) d in
      setIsRunning true armed
  | TimedTick tickAt => updatePerformanceStats (renderedAt r - tickAt) d
  | ReducedTick => d
  | Refresh => notify (StatusMessage "Data refreshed successfully!" "success" 2000) d
  end.

(** The completion of a cycle: the rest of [updateDisplay], then the rest of
    its caller. *)
Definition completeCycle (c : Cycle) (r : ResumeClock) (os : OsQueries)
    (d : Dashboard) : Dashboard :=
  let '(_, d1) := updateDisplayResume (started c) r os (served c) d in
  resumeCaller (continuation c) r d1.

(** A call of [updateDisplay] by caller [k]: the synchronous start; then the
    cycle completes at once when every source was served from the cache, and
    stays in flight otherwise. *)
Definition launchCycle (k : Continuation) (b : BeginClock) (r : ResumeClock)
    (rt : Runtime) : Runtime :=
  let '(hits, d1) := updateDisplayBegin b (dashboard rt) in
  let c := {| served := hits; started := startAt b; continuation := k |} in
  if allServed hits
  then {| dashboard := completeCycle c r unasked d1; inFlight := inFlight rt |}
  else {| dashboard := d1; inFlight := inFlight rt ++ [c] |}.

(** The body of an interval callback: [if (this.isRunning) { ... }]. *)
Definition timerCallback (tickAt : Z) (b : BeginClock) (r : ResumeClock)
    (rt : Runtime) : Runtime :=
  match updateInterval (dashboard rt) with
  | None => rt
  | Some timer =>
      if isRunning (dashboard rt)
      then
        match callback timer with
        | UpdateLoop => launchCycle (TimedTick tickAt) b r rt
        | ReducedLoop => launchCycle ReducedTick b r rt
        end
      else rt
  end.

(** [EventHandler.handleRefresh()], bound to the refresh key once the event
    handler exists. *)
Definition handleRefresh (b : BeginClock) (r : ResumeClock) (rt : Runtime) : Runtime :=
  if eventHandler (dashboard rt)
  then
    let d1 := notify (StatusMessage "Refreshing data..." "info" 0) (dashboard rt) in
    let d2 := setSystemInfo (clearCache (systemInfo d1)) d1 in
    launchCycle Refresh b r {| dashboard := d2; inFlight := inFlight rt |}
  else rt.

(** What the event loop serves. *)
Inductive Event :=
| Startup (b : BeginClock) (r : ResumeClock)
    (* [initialize] reaches [startUpdateLoop] *)
| EventHandlerReady
    (* [setupEventHandling] has run *)
| TimerFires (tickAt : Z) (b : BeginClock) (r : ResumeClock)
    (* the armed interval timer fires *)
| QueriesSettle (i : nat) (os : OsQueries) (r : ResumeClock)
    (* the queries of the [i]-th cycle in flight have all settled *)
| RefreshKey (b : BeginClock) (r : ResumeClock)
    (* the refresh key is pressed *)
| ErrorReported (error : Thrown) (context : string) (iso : string).
    (* some handler passes an error to [handleError] *)

Definition step (rt : Runtime) (ev : Event) : Runtime :=
  match ev with
  | Startup b r => launchCycle Initialize b r rt
  | EventHandlerReady =>
      {| dashboard := setEventHandler true (dashboard rt); inFlight := inFlight rt |}
  | TimerFires tickAt b r => timerCallback tickAt b r rt
  | QueriesSettle i os r =>
      match inFlight rt !! i with
      | Some c =>
          {| dashboard := completeCycle c r os (dashboard rt);
             inFlight := delete i (inFlight rt) |}
      | None => rt
      end
  | RefreshKey b r => handleRefresh b r rt
  | ErrorReported error context iso =>
      {| dashboard := snd (handleError error context iso (dashboard rt));
         inFlight := inFlight rt |}
  end.

Definition run (evs : list Event) (rt : Runtime) : Runtime :=
  fold_left step evs rt.

(** The process right after the constructor and [new ErrorHandler(this)]. *)
Definition boot (now : Z) : Runtime :=
  {| dashboard := newDashboard now; inFlight := [] |}.

(** ** The cycle, source by source

    What one source contributes to a cycle, stated without the dashboard
    around it: the reading its wrapper resolves to and what its collector
    does to the cache. The properties below relate [updateDisplay] to
    these. *)

(** The reading a wrapper resolves to, given what the cache served. *)
Definition settleReading (s : Source) (os : OsQueries) (served : option Reading)
    : Reading :=
  match served with
  | Some reading => reading
  | None =>
      match queryResult s os with
      | Some result => result
      | None => safeDefault s
      end
  end.

(** What the collector does to the cache after its cache read. *)
Definition settleCache (s : Source) (r : ResumeClock) (os : OsQueries)
    (served : option Reading) (si : SystemInfo) : SystemInfo :=
  match served with
  | Some _ => si
  | None =>
      match queryResult s os with
      | Some result => setCache (cacheKey s) result (pick s (storeAt r)) si
      | None => si
      end
  end.

(** What the cache serves a source at the start of a cycle. *)
Definition servedFromCache (s : Source) (b : BeginClock) (si : SystemInfo)
    : option Reading :=
  fst (cacheLookup (cacheKey s) (pick s (lookupAt b)) si).

(** The reading of a source in a cycle that starts with cache [si]. *)
Definition sourceReading (s : Source) (b : BeginClock) (os : OsQueries)
    (si : SystemInfo) : Reading :=
  settleReading s os (servedFromCache s b si).

(** The position of a source in the array of results. *)
Definition resultIndex (s : Source) : nat :=
  match s with
  | CPU => 0 | Memory => 1 | Disk => 2 | Network => 3
  end.

(** What the sweep at [now] leaves of an entry. *)
Definition sweepEntry (now timeout : Z) (e : option CacheEntry) : option CacheEntry :=
  match e with
  | Some entry => if now - cached_at entry >=? timeout then None else Some entry
  | None => None
  end.

(** The classes of causes the classification rules name. *)
Definition isPermissionOrNotFound (e : JsError) : Prop :=
  err_code e = Some "ENOENT" \/ err_code e = Some "EACCES".

Definition isConnectivity (e : JsError) : Prop :=
  err_code e = Some "ENOTFOUND" \/ err_code e = Some "ECONNREFUSED".

Definition isMalformedData (e : JsError) : Prop :=
  err_isSyntaxError e = true.

(** The four cache reads at the start of a cycle, in the order of the
    calls. *)
Definition lookupAll (b : BeginClock) (si : SystemInfo)
    : PerSource (option Reading) * SystemInfo :=
  let '(c, s1) := cacheLookup (cacheKey CPU) (forCPU (lookupAt b)) si in
  let '(m, s2) := cacheLookup (cacheKey Memory) (forMemory (lookupAt b)) s1 in
  let '(k, s3) := cacheLookup (cacheKey Disk) (forDisk (lookupAt b)) s2 in
  let '(n, s4) := cacheLookup (cacheKey Network) (forNetwork (lookupAt b)) s3 in
  ({| forCPU := c; forMemory := m; forDisk := k; forNetwork := n |}, s4).

(** What the four collectors do to the cache once their queries settled. *)
Definition settleAll (r : ResumeClock) (os : OsQueries)
    (served : PerSource (option Reading)) (si : SystemInfo) : SystemInfo :=
  settleCache Network r os (forNetwork served)
    (settleCache Disk r os (forDisk served)
       (settleCache Memory r os (forMemory served)
          (settleCache CPU r os (forCPU served) si))).

(** ** Sample data

    Concrete clocks, query outcomes and errors on which the properties are
    exercised. *)

Definition everyAt (t : Z) : PerSource Z :=
  {| forCPU := t; forMemory := t; forDisk := t; forNetwork := t |}.

Definition beginAt (t : Z) : BeginClock :=
  {| startAt := t; lookupAt := everyAt t |}.

Definition resumeAt (t : Z) : ResumeClock :=
  {| storeAt := everyAt t; sweepAt := t; endAt := t; renderedAt := t;
     isoAt := "2024-01-01T00:00:00.000Z" |}.

(** An input/output failure of a system call. *)
Definition ioError : JsError :=
  {| err_name := "Error"; err_message := "EIO: i/o error"; err_code := Some "EIO";
     err_stack := "Error: EIO: i/o error"; err_isSyntaxError := false |}.

(** A parse failure. *)
Definition parseError : JsError :=
  {| err_name := "SyntaxError"; err_message := "Unexpected token";
     err_code := None; err_stack := "SyntaxError: Unexpected token";
     err_isSyntaxError := true |}.

(** A host on which every query succeeds: one core, 1 GiB of memory half
    used, one disk, one idle network interface. *)
Definition healthy : OsQueries :=
  {| os_currentLoad :=
       Fulfilled {| currentLoad := 25; cpus := [ {| core_load := 25 |} ] |};
     os_cpu := Fulfilled {| cpu_model := "Sample CPU"; cpu_speed := 3 |};
     os_mem :=
       Fulfilled {| mem_total := 1073741824; mem_used := 536870912;
                    mem_free := 536870912 |};
     os_fsSize :=
       Fulfilled [ {| fs := "/dev/sda1"; fs_size := 1073741824; fs_used := 0;
                      fs_available := 1073741824; fs_use := 0; fs_mount := "/" |} ];
     os_networkStats :=
       Fulfilled [ {| iface := "eth0"; rx_bytes := 1048576; tx_bytes := 0;
                      rx_sec := 0; tx_sec := 0 |} ] |}.

(** The same host with the disk query failing. *)
Definition diskDown : OsQueries :=
  {| os_currentLoad := os_currentLoad healthy; os_cpu := os_cpu healthy;
     os_mem := os_mem healthy; os_fsSize := Rejected ioError;
     os_networkStats := os_networkStats healthy |}.

(** The error the screen's ["error"] handler reports. *)
Definition screenError : Thrown :=
  Typed (newDashboardError "Screen error: write failed" UI HIGH NoDetails
           "2024-01-01T00:00:00.000Z").

(** [n] distinct errors, numbered from [i]. *)
Fixpoint numberedErrors (i n : nat) : list (DashboardError * string) :=
  match n with
  | O => []
  | S n' =>
      (newDashboardError (String (Ascii.ascii_of_nat i) "") SYSTEM LOW NoDetails
         "2024-01-01T00:00:00.000Z", "2024-01-01T00:00:00.000Z")
      :: numberedErrors (S i) n'
  end.

(** The dashboard once the update loop has started on the healthy host:
    booted at time 0, first cycle settled at time 100. *)
Definition started_up : Runtime :=
  run [EventHandlerReady; Startup (beginAt 0) (resumeAt 0);
       QueriesSettle 0 healthy (resumeAt 100)]
      (boot 0).

(** * Further operations of the engine

    The rest of the error handler, the system information object, the main
    script and the event handler, and the parts of the logger and of the
    widgets' formatting that the engine calls. *)

(** ** Error statistics (lib/error-handler.js) *)

#[global] Instance ErrorType_eq_dec : EqDecision ErrorType.
Proof. solve_decision. Defined.

#[global] Instance ErrorSeverity_eq_dec : EqDecision ErrorSeverity.
Proof. solve_decision. Defined.

(** The key of [errorCounts]: the template [${error.type}_${error.severity}]
    that [updateErrorStats] builds. *)
Definition statKey (t : ErrorType) (s : ErrorSeverity) : string :=
  typeName t +:+ "_" +:+ severityName s.

(** [this.errorLog.slice(-5)]. *)
Definition recentErrors (h : ErrorHandler) : list LogEntry :=
  drop (length (errorLog h) - 5) (errorLog h).

Record ErrorStats := {
  stats_totalErrors : nat;
  stats_errorCounts : gmap string nat;
  stats_recentErrors : list LogEntry;
  stats_lastErrorsByType : gmap string DashboardError
}.

(** [ErrorHandler.getErrorStats()]. *)
Definition getErrorStats (h : ErrorHandler) : ErrorStats :=
  {| stats_totalErrors := length (errorLog h);
     stats_errorCounts := errorCounts h;
     stats_recentErrors := recentErrors h;
     stats_lastErrorsByType := lastErrors h |}.

(** An error as it is passed to [handleError], with its context and the
    clock the call reads. *)
Record Report := {
  reported : Thrown;
  reportContext : string;
  reportedAt : string
}.

(** The [DashboardError] a report is normalized to. *)
Definition normalized (p : Report) : DashboardError :=
  normalizeError (reported p) (reportContext p) (reportedAt p).

(** [handleError] called for each report of a list in turn. *)
Definition handleErrors (ps : list Report) (d : Dashboard) : Dashboard :=
  fold_left
    (fun acc p => snd (handleError (reported p) (reportContext p) (reportedAt p) acc))
    ps d.

(** ** Validation and export *)

(** The rest of a collector call once its queries have settled, without the
    wrapper around it. *)
Definition settleCollector (s : Source) (r : ResumeClock) (os : OsQueries)
    (served : option Reading) (si : SystemInfo) : Outcome Reading * SystemInfo :=
  match served with
  | Some reading => (Fulfilled reading, si)
  | None => collectFresh s (pick s (storeAt r)) os si
  end.

Record Capabilities := {
  cap_cpu : bool;
  cap_memory : bool;
  cap_disk : bool;
  cap_network : bool
}.

(** [CompleteDashboard.validateSystemCapabilities()]: the four collectors
    are started together and awaited with [Promise.allSettled]; a capability
    is the [status === "fulfilled"] of its promise. The result is the
    capabilities, or the [DashboardError] the function throws. *)
Definition validateSystemCapabilities (b : BeginClock) (r : ResumeClock)
    (os : OsQueries) (iso : string) (d : Dashboard)
    : (Capabilities + DashboardError) * Dashboard :=
  let '(hits, s0) := lookupAll b (systemInfo d) in
  let '(o1, s1) := settleCollector CPU r os (forCPU hits) s0 in
  let '(o2, s2) := settleCollector Memory r os (forMemory hits) s1 in
  let '(o3, s3) := settleCollector Disk r os (forDisk hits) s2 in
  let '(o4, s4) := settleCollector Network r os (forNetwork hits) s3 in
  let capabilities :=
    {| cap_cpu := negb (isRejected o1); cap_memory := negb (isRejected o2);
       cap_disk := negb (isRejected o3); cap_network := negb (isRejected o4) |} in
  let d' := setSystemInfo s4 d in
  if negb (cap_cpu capabilities) && negb (cap_memory capabilities)
  then
    (inr (newDashboardError
            "Insufficient system access - cannot monitor CPU or Memory"
            SYSTEM CRITICAL (OtherDetails "capabilities") iso),
     d')
  else (inl capabilities, d').

(** The data [handleExportData] collects. *)
Record ExportData := {
  export_timestamp : string;
  export_cpu : Reading;
  export_memory : Reading;
  export_disk : Reading;
  export_network : Reading
}.

(** [this.showStatusMessage(...)] called by the event handler itself. *)
Definition showStatusMessage (text kind : string) (duration : Z) (d : Dashboard)
    : Dashboard :=
  setNotices (notices d ++ [StatusMessage text kind duration]) d.

(** [EventHandler.handleExportData()] run from start to end with nothing in
    between: the four collectors are awaited one after the other, each
    reading the cache at its [lookupAt] and storing at its [storeAt]; a
    rejected collector would take the [catch] block. [exportedAt] is the
    [Date.now()] of the file name. *)
Definition handleExportData (b : BeginClock) (r : ResumeClock) (os : OsQueries)
    (iso : string) (exportedAt : Z) (d : Dashboard)
    : option ExportData * Dashboard :=
  let d0 := showStatusMessage "Exporting data..." "info" 0 d in
  let '(o1, s1) :=
    collect CPU (forCPU (lookupAt b)) (forCPU (storeAt r)) os (systemInfo d0) in
  match o1 with
  | Rejected e =>
      (None, showStatusMessage ("Export failed: " +:+ err_message e) "error" 3000
               (setSystemInfo s1 d0))
  | Fulfilled cpu =>
  let '(o2, s2) :=
    collect Memory (forMemory (lookupAt b)) (forMemory (storeAt r)) os s1 in
  match o2 with
  | Rejected e =>
      (None, showStatusMessage ("Export failed: " +:+ err_message e) "error" 3000
               (setSystemInfo s2 d0))
  | Fulfilled memory =>
  let '(o3, s3) :=
    collect Disk (forDisk (lookupAt b)) (forDisk (storeAt r)) os s2 in
  match o3 with
  | Rejected e =>
      (None, showStatusMessage ("Export failed: " +:+ err_message e) "error" 3000
               (setSystemInfo s3 d0))
  | Fulfilled disk =>
  let '(o4, s4) :=
    collect Network (forNetwork (lookupAt b)) (forNetwork (storeAt r)) os s3 in
  match o4 with
  | Rejected e =>
      (None, showStatusMessage ("Export failed: " +:+ err_message e) "error" 3000
               (setSystemInfo s4 d0))
  | Fulfilled network =>
      let exportData :=
        {| export_timestamp := iso; export_cpu := cpu; export_memory := memory;
           export_disk := disk; export_network := network |} in
      let filename := "system-data-" +:+ pretty exportedAt +:+ ".json" in
      (Some exportData,
       showStatusMessage ("Data exported to " +:+ filename) "success" 3000
         (setSystemInfo s4 d0))
  end end end end.

(** [EventHandler.handleClearCache()]. *)
Definition handleClearCache (d : Dashboard) : Dashboard :=
  let cacheSize := size (cache (systemInfo d)) in
  showStatusMessage ("Cache cleared (" +:+ pretty cacheSize +:+ " entries)")
    "success" 2000
    (setSystemInfo (clearCache (systemInfo d)) d).

(** [EventHandler.handleToggleLogging()]. *)
Definition handleToggleLogging (d : Dashboard) : Dashboard :=
  let d1 := setLoggingEnabled (negb (loggingEnabled d)) d in
  showStatusMessage
    ("Logging " +:+ (if loggingEnabled d1 then "enabled" else "disabled"))
    (if loggingEnabled d1 then "success" else "warning") 2000 d1.

(** ** The logger (lib/logger.js) *)

Inductive LogLevel := LevelDebug | LevelInfo | LevelWarn | LevelError.

(** [this.levels]. *)
Definition levelRank (l : LogLevel) : Z :=
  match l with
  | LevelDebug => 0 | LevelInfo => 1 | LevelWarn => 2 | LevelError => 3
  end.

(** A [logEntry]; the buffer holds its rendering by [formatMessage], which
    this record stands for. *)
Record LogLine := {
  line_timestamp : string;
  line_level : LogLevel;
  line_message : string;
  line_meta : string;
  line_pid : Z
}.

(** The [Logger] object. [handedOver] lists the batches [flush] has passed
    to [fs.appendFile], oldest first. *)
Record Logger := {
  currentLevel : LogLevel;
  logBuffer : list LogLine;
  bufferSize : nat;
  handedOver : list (list LogLine)
}.

(** The state the constructor sets up. *)
Definition newLogger : Logger :=
  {| currentLevel := LevelDebug; logBuffer := []; bufferSize := 10;
     handedOver := [] |}.

(** [Logger.shouldLog(level)]. *)
Definition shouldLog (level : LogLevel) (lg : Logger) : bool :=
  levelRank level >=? levelRank (currentLevel lg).

(** [Logger.flush()] up to its [await]: an empty buffer returns at once;
    otherwise the buffer is copied, emptied, and the copy handed to
    [fs.appendFile]. *)
Definition flush (lg : Logger) : Logger :=
  match logBuffer lg with
  | [] => lg
  | messages =>
      {| currentLevel := currentLevel lg; logBuffer := [];
         bufferSize := bufferSize lg;
         handedOver := handedOver lg ++ [messages] |}
  end.

Definition isErrorLevel (level : LogLevel) : bool :=
  match level with
  | LevelError => true
  | _ => false
  end.

(** [Logger.log(level, message, meta)] at clock [iso] in process [pid]. *)
Definition log (level : LogLevel) (message meta iso : string) (pid : Z)
    (lg : Logger) : Logger :=
  if negb (shouldLog level lg) then lg
  else
    let logEntry :=
      {| line_timestamp := iso; line_level := level; line_message := message;
         line_meta := meta; line_pid := pid |} in
    let pushed :=
      {| currentLevel := currentLevel lg; logBuffer := logBuffer lg ++ [logEntry];
         bufferSize := bufferSize lg; handedOver := handedOver lg |} in
    if isErrorLevel level || (bufferSize pushed <=? length (logBuffer pushed))%nat
    then flush pushed
    else pushed.

(** What happens to the logger, one call at a time: a call of [log] from
    anywhere in the program, or a [flush] from the one-second timer. *)
Inductive LoggerCall :=
| CallLog (level : LogLevel) (message meta iso : string) (pid : Z)
| CallFlush.

Definition loggerStep (lg : Logger) (c : LoggerCall) : Logger :=
  match c with
  | CallLog level message meta iso pid => log level message meta iso pid lg
  | CallFlush => flush lg
  end.

Definition loggerRun (cs : list LoggerCall) (lg : Logger) : Logger :=
  fold_left loggerStep cs lg.

(** The lines a run of calls writes, in order: those of the [log] calls
    whose level passes [shouldLog]. The level never changes during such a
    run. *)
Definition acceptedLines (lg : Logger) (cs : list LoggerCall) : list LogLine :=
  omap
    (fun c =>
       match c with
       | CallLog level message meta iso pid =>
           if shouldLog level lg
           then Some {| line_timestamp := iso; line_level := level;
                        line_message := message; line_meta := meta;
                        line_pid := pid |}
           else None
       | CallFlush => None
       end)
    cs.

(** ** Formatting (lib/ui-components.js) *)

Record Theme := {
  theme_success : string;
  theme_warning : string;
  theme_error : string
}.

(** The theme of the constructor, as far as the progress bar uses it. *)
Definition defaultTheme : Theme :=
  {| theme_success := "green"; theme_warning := "yellow"; theme_error := "red" |}.

(** [Math.max(a, b)] and [Math.min(a, b)]. *)
Definition Math_max (a b : Q) : Q :=
  match (a ?= b)%Q with
  | Lt => b
  | _ => a
  end.

Definition Math_min (a b : Q) : Q :=
  match (a ?= b)%Q with
  | Gt => b
  | _ => a
  end.

(** [Math.min(100, Math.max(0, x))]. *)
Definition clampPercent (x : Q) : Q := Math_min 100 (Math_max 0 x).

(** [s.repeat(count)]: a negative count is a [RangeError], here [None]. *)
Definition repeatString (s : string) (count : Z) : option string :=
  if count <? 0 then None
  else Some (String.concat "" (replicate (Z.to_nat count) s)).

(** [x.toFixed(1)] for [x >= 0]: the nearest tenth, ties up. *)
Definition toFixed1 (x : Q) : string :=
  let tenths := Math_round (x * 10) in
  pretty (tenths / 10) +:+ "." +:+ pretty (tenths mod 10).

Definition exceeds (x : Q) (bound : Q) : bool :=
  match (bound ?= x)%Q with
  | Lt => true
  | _ => false
  end.

(** The colour of a bar: the traffic light of [createProgressBar]. *)
Definition barColor (theme : Theme) (percentage : Q) : string :=
  if exceeds percentage 80 then theme_error theme
  else if exceeds percentage 60 then theme_warning theme
  else theme_success theme.

(** [UIComponents.createProgressBar(value, max, width)]; [None] is the
    [RangeError] of a negative repeat count. *)
Definition createProgressBar (theme : Theme) (value max : Q) (width : Z)
    : option string :=
  let percentage := clampPercent (value / max * 100) in
  let filled := Math_round (percentage / 100 * inject_Z width) in
  let empty := width - filled in
  match repeatString "█" filled, repeatString "░" empty with
  | Some filledPart, Some emptyPart =>
      let color := barColor theme percentage in
      Some ("{" +:+ color +:+ "-fg}" +:+ filledPart +:+ emptyPart
            +:+ "{/" +:+ color +:+ "-fg} " +:+ toFixed1 percentage +:+ "%")
  | _, _ => None
  end.

Definition isActive (net : NetworkInfo) : bool :=
  exceeds (rxRate net) 0 || exceeds (txRate net) 0.

(** The interface [formatNetworkContent] shows:
    [networkInfo.find((net) => net.rxRate > 0 || net.txRate > 0) || networkInfo[0]];
    [None] is the [undefined] of an empty list, which the function returns
    before. *)
Definition activeInterface (networkInfo : list NetworkInfo) : option NetworkInfo :=
  match List.find isActive networkInfo with
  | Some net => Some net
  | None => head networkInfo
  end.

(** The cores [formatCPUContent] lists: [cpuInfo.coreUsage.slice(0, 3)]. *)
Definition topCores (cpuInfo : CPUInfo) : list CoreUsage :=
  take 3 (coreUsage cpuInfo).

(** ** Views used by the properties of the further operations *)

(** Whether an event hands an error of severity HIGH to [handleError]. *)
Definition reportsHigh (ev : Event) : bool :=
  match ev with
  | ErrorReported error context iso =>
      match severity (normalizeError error context iso) with
      | HIGH => true
      | _ => false
      end
  | _ => false
  end.

(** The armed timer after [temporarilyReduceUpdateFrequency]. *)
Definition reducedTimer (t : option Timer) : option Timer :=
  match t with
  | Some _ => Some {| period := 4000; callback := ReducedLoop |}
  | None => None
  end.

(** The log entries a list of reports gives, in order. *)
Definition reportEntries (ps : list Report) : list LogEntry :=
  map (fun p => toLogEntry (normalized p) (reportedAt p)) ps.

(** The part of the dashboard a refresh cycle has no business with. *)
Definition control (d : Dashboard)
    : ErrorHandler * bool * bool * bool * option Timer * option Z
      * PerformanceStats * Config * bool * list Notice :=
  (errorHandler d, isRunning d, degradedMode d, loggingEnabled d,
   updateInterval d, exitTimer d, performanceStats d, config d,
   eventHandler d, notices d).

(** The error handler and the mode flags: what only [handleError] writes. *)
Definition modes (d : Dashboard) : ErrorHandler * bool * bool * option Z :=
  (errorHandler d, degradedMode d, loggingEnabled d, exitTimer d).

Definition isErrorReport (ev : Event) : bool :=
  match ev with
  | ErrorReported _ _ _ => true
  | _ => false
  end.

(** What one collector, run from start to end, does to the cache. *)
Definition collectCache (x : Source) (b : BeginClock) (r : ResumeClock)
    (os : OsQueries) (si : SystemInfo) : SystemInfo :=
  settleCache x r os (servedFromCache x b si)
    (snd (cacheLookup (cacheKey x) (pick x (lookupAt b)) si)).

(** ** More sample data *)

Definition lowReport : Report :=
  {| reported :=
       Typed (newDashboardError "Widget update failed for cpu: bad content" UI LOW
                NoDetails "2024-01-01T00:00:02.000Z");
     reportContext := "";
     reportedAt := "2024-01-01T00:00:02.000Z" |}.

(** A failed system call without a code the classification knows: SYSTEM,
    MEDIUM. *)
Definition ioReport : Report :=
  {| reported := Plain ioError; reportContext := "reduced_frequency_update";
     reportedAt := "2024-01-01T00:00:03.000Z" |}.

Definition parseReport : Report :=
  {| reported := Plain parseError; reportContext := "";
     reportedAt := "2024-01-01T00:00:04.000Z" |}.

Definition sixReports : list Report :=
  [lowReport; ioReport; parseReport; lowReport; parseReport; ioReport].

(** The memory the healthy host reports. *)
Definition sampleMem : RawMem :=
  {| mem_total := 1073741824; mem_used := 536870912; mem_free := 536870912 |}.

Definition idleInterface : NetworkInfo :=
  {| interface := "lo"; rxMB := 1; txMB := 1; rxRate := 0; txRate := 0 |}.

Definition busyInterface : NetworkInfo :=
  {| interface := "eth0"; rxMB := 12; txMB := 3; rxRate := 125; txRate := 0 |}.

(** Twenty-five lines of level info. *)
Definition manyInfoCalls : list LoggerCall :=
  replicate 25 (CallLog LevelInfo "Update completed" "" "2024-01-01T00:00:00.000Z" 4242).

(** The dashboard of [started_up] after an error of type SYSTEM and severity
    MEDIUM: its timer is the reduced one. *)
Definition reduced_down : Runtime :=
  run [ErrorReported (Plain ioError) "" "2024-01-01T00:00:03.000Z"] started_up.

(** * Properties *)

(** ** The bounded error log *)

Section ErrorLog.

Implicit Types (h : ErrorHandler) (es : list (DashboardError * string)).

Lemma logError_maxLogSize error iso h :
  maxLogSize (logError error iso h) = maxLogSize h.
Proof. reflexivity. Qed.

Lemma logErrors_maxLogSize es h :
  maxLogSize (logErrors es h) = maxLogSize h.
Proof.
  revert h. induction es as [|e es IH]; intros h; [reflexivity|].
  unfold logErrors in *. cbn [fold_left]. rewrite IH. apply logError_maxLogSize.
Qed.

(** One insertion keeps the newest [maxLogSize] entries of what it is
    given plus the new entry. *)
Lemma logError_window error iso h :
  (length (errorLog h) <= maxLogSize h)%nat ->
  errorLog (logError error iso h)
  = drop (length (errorLog h) + 1 - maxLogSize h)
         (errorLog h ++ [toLogEntry error iso]).
Proof.
  intros Hbound. unfold logError. cbn [errorLog].
  rewrite length_app. cbn [length].
  destruct (Nat.ltb_spec (maxLogSize h) (length (errorLog h) + 1)) as [Hover|Hfit].
  - replace (length (errorLog h) + 1 - maxLogSize h)%nat with 1%nat by lia.
    reflexivity.
  - replace (length (errorLog h) + 1 - maxLogSize h)%nat with 0%nat by lia.
    reflexivity.
Qed.

Lemma logError_bounded error iso h :
  (length (errorLog h) <= maxLogSize h)%nat ->
  (length (errorLog (logError error iso h)) <= maxLogSize h)%nat.
Proof.
  intros Hbound. rewrite logError_window by assumption.
  rewrite length_drop, length_app. cbn [length]. lia.
Qed.

(** Any run of insertions keeps the newest [maxLogSize] entries, in the
    order of insertion. *)
Lemma logErrors_window es : forall h,
  (length (errorLog h) <= maxLogSize h)%nat ->
  errorLog (logErrors es h)
  = drop (length (errorLog h) + length es - maxLogSize h)
         (errorLog h ++ entriesOf es).
Proof.
  induction es as [|e es IH]; intros h Hbound.
  - cbn. rewrite app_nil_r.
    replace (length (errorLog h) + 0 - maxLogSize h)%nat with 0%nat by lia.
    reflexivity.
  - change (logErrors (e :: es) h) with (logErrors es (logError (fst e) (snd e) h)).
    pose proof (logError_bounded (fst e) (snd e) h Hbound) as Hnext.
    rewrite IH by (rewrite logError_maxLogSize; exact Hnext).
    rewrite logError_maxLogSize.
    rewrite logError_window by assumption.
    rewrite length_drop, length_app. cbn [length entriesOf map].
    fold (entriesOf es).
    set (l := errorLog h) in *. set (x := toLogEntry (fst e) (snd e)).
    set (m := maxLogSize h) in *.
    replace (l ++ x :: entriesOf es) with ((l ++ [x]) ++ entriesOf es)
      by (rewrite <- app_assoc; reflexivity).
    rewrite <- (drop_app_le (l ++ [x]) (entriesOf es) (length l + 1 - m))
      by (rewrite length_app; cbn; lia).
    rewrite drop_drop. f_equal. lia.
Qed.

End ErrorLog.

(** C5. For every [k > 0], after [maxLogSize + k] errors are inserted with
    [logError] into a log that is within its bound (the empty log of a new
    handler in particular), the log holds exactly [maxLogSize] entries, and
    they are the entries of the last [maxLogSize] errors in the order of
    insertion: the first [k] were dropped, oldest first. *)
Theorem errorLog_ring_bound (h : ErrorHandler)
    (es : list (DashboardError * string)) (k : nat)
    (Hk : (0 < k)%nat)
    (Hbound : (length (errorLog h) <= maxLogSize h)%nat)
    (Hcount : length es = (maxLogSize h + k)%nat) :
  length (errorLog (logErrors es h)) = maxLogSize h
  /\ errorLog (logErrors es h) = entriesOf (drop k es)
  /\ errorLog (logErrors es newErrorHandler)
     = entriesOf (drop (length es - maxLogSize newErrorHandler) es).
Proof.
  assert (Hwin : errorLog (logErrors es h) = entriesOf (drop k es)).
  { rewrite logErrors_window by assumption.
    rewrite drop_app_ge by lia.
    unfold entriesOf. rewrite <- fmap_drop. f_equal. f_equal. lia. }
  split; [|split].
  - rewrite Hwin. unfold entriesOf. rewrite length_map, length_drop. lia.
  - exact Hwin.
  - rewrite logErrors_window by (cbn; lia).
    cbn [errorLog newErrorHandler app length]. unfold entriesOf.
    rewrite <- fmap_drop. reflexivity.
Qed.

(** ** Classification *)

Lemma codeIs_true c s : codeIs c s = true <-> c = Some s.
Proof.
  destruct c as [c'|]; cbn.
  - rewrite String.eqb_eq. split; congruence.
  - split; congruence.
Qed.

Lemma permission_spec e :
  codeIs (err_code e) "ENOENT" || codeIs (err_code e) "EACCES" = true
  <-> isPermissionOrNotFound e.
Proof. unfold isPermissionOrNotFound. rewrite orb_true_iff, !codeIs_true. tauto. Qed.

Lemma connectivity_spec e :
  codeIs (err_code e) "ENOTFOUND" || codeIs (err_code e) "ECONNREFUSED" = true
  <-> isConnectivity e.
Proof. unfold isConnectivity. rewrite orb_true_iff, !codeIs_true. tauto. Qed.

(** C7. [normalizeError] classifies in priority order: a typed failure is
    returned as it is, so its type and severity are unchanged; otherwise a
    permission or not-found code gives SYSTEM/HIGH; else a connectivity code
    gives NETWORK/MEDIUM; else a syntax error gives DATA/MEDIUM; anything
    else gives SYSTEM/MEDIUM. *)
Theorem normalizeError_classification (context iso : string) :
  (forall e : DashboardError,
      normalizeError (Typed e) context iso = e)
  /\ (forall e : JsError,
      let n := normalizeError (Plain e) context iso in
      (isPermissionOrNotFound e -> type n = SYSTEM /\ severity n = HIGH)
      /\ (~ isPermissionOrNotFound e -> isConnectivity e ->
          type n = NETWORK /\ severity n = MEDIUM)
      /\ (~ isPermissionOrNotFound e -> ~ isConnectivity e -> isMalformedData e ->
          type n = DATA /\ severity n = MEDIUM)
      /\ (~ isPermissionOrNotFound e -> ~ isConnectivity e -> ~ isMalformedData e ->
          type n = SYSTEM /\ severity n = MEDIUM)).
Proof.
  split; [reflexivity|].
  intros e n. subst n. unfold normalizeError, isMalformedData.
  pose proof (permission_spec e) as Hp. pose proof (connectivity_spec e) as Hc.
  destruct (codeIs (err_code e) "ENOENT" || codeIs (err_code e) "EACCES");
    destruct (codeIs (err_code e) "ENOTFOUND" || codeIs (err_code e) "ECONNREFUSED");
    destruct (err_isSyntaxError e); cbn;
    repeat split; intros; try reflexivity;
    try (exfalso; intuition congruence).
Qed.

(** ** The cache *)

Section Cache.

Implicit Types (si : SystemInfo) (key : string) (now : Z).

Lemma isInCache_absent key now si :
  cache si !! key = None -> isInCache key now si = (false, si).
Proof. intros H. unfold isInCache. rewrite H. reflexivity. Qed.

Lemma isInCache_expired key now si entry :
  cache si !! key = Some entry ->
  now - cached_at entry >= cacheTimeout si ->
  isInCache key now si = (false, withCache (delete key (cache si)) si).
Proof.
  intros H Hage. unfold isInCache. rewrite H.
  destruct (Z.ltb_spec (now - cached_at entry) (cacheTimeout si)); [lia|reflexivity].
Qed.

Lemma isInCache_fresh key now si entry :
  cache si !! key = Some entry ->
  now - cached_at entry < cacheTimeout si ->
  isInCache key now si = (true, si).
Proof.
  intros H Hage. unfold isInCache. rewrite H.
  destruct (Z.ltb_spec (now - cached_at entry) (cacheTimeout si)); [reflexivity|lia].
Qed.

Lemma cacheLookup_absent key now si :
  cache si !! key = None -> cacheLookup key now si = (None, si).
Proof. intros H. unfold cacheLookup. rewrite isInCache_absent by assumption. reflexivity. Qed.

Lemma cacheLookup_expired key now si entry :
  cache si !! key = Some entry ->
  now - cached_at entry >= cacheTimeout si ->
  cacheLookup key now si = (None, withCache (delete key (cache si)) si).
Proof.
  intros H Hage. unfold cacheLookup.
  rewrite (isInCache_expired key now si entry) by assumption. reflexivity.
Qed.

Lemma cacheLookup_fresh key now si entry :
  cache si !! key = Some entry ->
  now - cached_at entry < cacheTimeout si ->
  cacheLookup key now si = (Some (data entry), si).
Proof.
  intros H Hage. unfold cacheLookup.
  rewrite (isInCache_fresh key now si entry) by assumption.
  rewrite H. reflexivity.
Qed.

Lemma setCache_lookup key result now si :
  cache (setCache key result now si) !! key
  = Some {| data := result; cached_at := now |}.
Proof. unfold setCache. cbn. apply lookup_insert_eq. Qed.

Lemma setCache_timeout key result now si :
  cacheTimeout (setCache key result now si) = cacheTimeout si.
Proof. reflexivity. Qed.

(** A read never changes the timeout, and never touches another key. *)
Lemma cacheLookup_timeout key now si :
  cacheTimeout (snd (cacheLookup key now si)) = cacheTimeout si.
Proof.
  unfold cacheLookup, isInCache.
  destruct (cache si !! key) as [entry|]; [|reflexivity].
  destruct (now - cached_at entry <? cacheTimeout si); reflexivity.
Qed.

Lemma cacheLookup_other key key' now si :
  key <> key' ->
  cache (snd (cacheLookup key now si)) !! key' = cache si !! key'.
Proof.
  intros Hne. unfold cacheLookup, isInCache.
  destruct (cache si !! key) as [entry|]; [|reflexivity].
  destruct (now - cached_at entry <? cacheTimeout si); cbn; [reflexivity|].
  apply lookup_delete_ne. assumption.
Qed.

(** What a read leaves under its own key. *)
Lemma cacheLookup_same key now si :
  cache (snd (cacheLookup key now si)) !! key
  = match fst (cacheLookup key now si) with
    | Some _ => cache si !! key
    | None => None
    end.
Proof.
  unfold cacheLookup, isInCache.
  destruct (cache si !! key) as [entry|] eqn:H; [|cbn; assumption].
  destruct (now - cached_at entry <? cacheTimeout si); cbn.
  - rewrite H. reflexivity.
  - apply lookup_delete_eq.
Qed.

(** A read serves exactly the entries younger than the timeout. *)
Lemma cacheLookup_served key now si reading :
  fst (cacheLookup key now si) = Some reading <->
  exists entry, cache si !! key = Some entry
                /\ now - cached_at entry < cacheTimeout si
                /\ data entry = reading.
Proof.
  unfold cacheLookup, isInCache.
  destruct (cache si !! key) as [entry|] eqn:H.
  - destruct (Z.ltb_spec (now - cached_at entry) (cacheTimeout si)); cbn.
    + rewrite H. cbn. split.
      * intros [= <-]. exists entry. auto.
      * intros (e' & [= <-] & _ & <-). reflexivity.
    + split; [discriminate|]. intros (e' & [= <-] & Hlt & _). lia.
  - cbn. split; [discriminate|]. intros (e' & [=] & _).
Qed.

Lemma clearExpiredCache_lookup now si key :
  cache (clearExpiredCache now si) !! key
  = match cache si !! key with
    | Some entry =>
        if now - cached_at entry >=? cacheTimeout si then None else Some entry
    | None => None
    end.
Proof.
  unfold clearExpiredCache. cbn [cache withCache].
  destruct (cache si !! key) as [entry|] eqn:H.
  - destruct (now - cached_at entry >=? cacheTimeout si) eqn:Hage.
    + apply map_lookup_filter_None. right. intros x Hx. cbn.
      rewrite H in Hx. injection Hx as <-. congruence.
    + apply map_lookup_filter_Some. split; [assumption|]. cbn. assumption.
  - apply map_lookup_filter_None. left. assumption.
Qed.

End Cache.

(** C1. A read of the cache returns absent whenever the entry under the key
    has reached the timeout ([now - timestamp >= cacheTimeout]), and removes
    that entry, with no sweep involved; a younger entry is served. The
    timeout of a new [SystemInfo] is 2000 ms, and with it a reading put under
    ["cpu"] at time 0 is returned at time 1999 and absent (and evicted) at
    time 2001. *)
Theorem cache_ttl_invariant (si : SystemInfo) (key : string) (now : Z)
    (entry : CacheEntry) (r1 : Reading)
    (Hentry : cache si !! key = Some entry) :
  (now - cached_at entry >= cacheTimeout si ->
     fst (cacheLookup key now si) = None
     /\ cache (snd (cacheLookup key now si)) !! key = None)
  /\ (now - cached_at entry < cacheTimeout si ->
     cacheLookup key now si = (Some (data entry), si))
  /\ cacheTimeout newSystemInfo = 2000
  /\ (let s := setCache "cpu" r1 0 newSystemInfo in
      fst (cacheLookup "cpu" 1999 s) = Some r1
      /\ fst (cacheLookup "cpu" 2001 s) = None
      /\ cache (snd (cacheLookup "cpu" 2001 s)) !! "cpu" = None).
Proof.
  split; [|split; [|split]].
  - intros Hage. rewrite (cacheLookup_expired key now si entry) by assumption.
    cbn. split; [reflexivity|]. apply lookup_delete_eq.
  - intros Hage. apply cacheLookup_fresh; assumption.
  - reflexivity.
  - intros s.
    assert (Hs : cache s !! "cpu" = Some {| data := r1; cached_at := 0 |})
      by apply setCache_lookup.
    split; [|split].
    + rewrite (cacheLookup_fresh "cpu" 1999 s _ Hs) by (cbn; lia). reflexivity.
    + rewrite (cacheLookup_expired "cpu" 2001 s _ Hs) by (cbn; lia). reflexivity.
    + rewrite (cacheLookup_expired "cpu" 2001 s _ Hs) by (cbn; lia).
      cbn. apply lookup_delete_eq.
Qed.

(** ** The running average *)

(** [Math.round] of a quotient of integers, in integer arithmetic. *)
Lemma Math_round_div (a n : Z) :
  0 < n ->
  Math_round (inject_Z a / inject_Z n)%Q = (2 * a + n) / (2 * n).
Proof.
  intros Hn. unfold Math_round.
  destruct n as [|p|p]; try lia.
  assert (Heq : (inject_Z a / inject_Z (Z.pos p) + (1 # 2) == (2 * a + Z.pos p) # (2 * p))%Q).
  { unfold Qeq, Qdiv, Qmult, Qinv, Qplus, inject_Z. cbn.
    rewrite !Pos2Z.inj_mul. ring. }
  rewrite (Qfloor_comp _ _ Heq). reflexivity.
Qed.

(** The rounded quotient is the nearest integer, ties going up. *)
Lemma Math_round_div_nearest (a n : Z) :
  0 < n ->
  let q := Math_round (inject_Z a / inject_Z n)%Q in
  2 * q * n - n <= 2 * a < 2 * q * n + n.
Proof.
  intros Hn q. subst q. rewrite Math_round_div by assumption.
  pose proof (Z.div_mod (2 * a + n) (2 * n) ltac:(lia)) as Hdm.
  pose proof (Z.mod_pos_bound (2 * a + n) (2 * n) ltac:(lia)) as Hmod.
  nia.
Qed.

Lemma averagesAfter_length ts : forall d, length (averagesAfter ts d) = length ts.
Proof. induction ts as [|t ts IH]; intros d; cbn; [reflexivity|]. rewrite IH. reflexivity. Qed.

(** C6, as the code has it. Each call of [updatePerformanceStats] counts the
    cycle and replaces the average by
    [Math.round((average * (n - 1) + t) / n)]: the exact running mean of the
    formula rounded to the nearest integer, ties up, so that it is within
    half a millisecond of [(average * (n - 1) + t) / n]. After cycles of 10,
    20 and 30 ms on a new dashboard the averages are 10, 15 and 20. *)
Theorem running_average_rounded (d : Dashboard) (t : Z) (now : Z)
    (Hcount : 0 <= totalUpdates (performanceStats d)) :
  let n := totalUpdates (performanceStats d) + 1 in
  let sum := averageUpdateTime (performanceStats d) * (n - 1) + t in
  let p' := performanceStats (updatePerformanceStats t d) in
  totalUpdates p' = n
  /\ averageUpdateTime p' = Math_round (inject_Z sum / inject_Z n)%Q
  /\ 2 * averageUpdateTime p' * n - n <= 2 * sum < 2 * averageUpdateTime p' * n + n
  /\ (sum mod n = 0 -> averageUpdateTime p' * n = sum)
  /\ averagesAfter [10; 20; 30] (newDashboard now) = [10; 15; 20].
Proof.
  intros n sum p'. subst p'.
  assert (Hn : 0 < n) by (subst n; lia).
  pose proof (Math_round_div_nearest sum n Hn) as Hnear. cbv zeta in Hnear.
  unfold updatePerformanceStats.
  cbn [performanceStats setPerformanceStats totalUpdates averageUpdateTime].
  fold n. fold sum.
  set (avg := Math_round (inject_Z sum / inject_Z n)%Q) in *.
  split; [reflexivity|]. split; [reflexivity|].
  split; [exact Hnear|]. split; [|reflexivity].
  intros Hexact.
  apply Z.mod_divide in Hexact; [|lia]. destruct Hexact as [q Hq].
  assert (Hq' : avg = q); [|rewrite Hq'; symmetry; exact Hq].
  rewrite Hq in Hnear. destruct Hnear as [Hlo Hhi].
  assert (2 * avg - 1 <= 2 * q) by (apply (Z.mul_le_mono_pos_r _ _ n Hn); lia).
  assert (2 * q < 2 * avg + 1) by (apply (Z.mul_lt_mono_pos_r n _ _ Hn); lia).
  lia.
Qed.

(** ** The refresh cycle *)

Section Cycle.

Implicit Types (d : Dashboard) (si : SystemInfo) (s x : Source)
  (b : BeginClock) (r : ResumeClock) (os : OsQueries).

Lemma setSystemInfo_id d : setSystemInfo (systemInfo d) d = d.
Proof. destruct d; reflexivity. Qed.

(** A collector's promise is always fulfilled: both branches of its
    [try]/[catch] return a reading. *)
Lemma collectFresh_spec s now os si :
  collectFresh s now os si
  = (Fulfilled (settleReading s os None),
     match queryResult s os with
     | Some result => setCache (cacheKey s) result now si
     | None => si
     end).
Proof.
  unfold collectFresh, settleReading. destruct (queryResult s os); reflexivity.
Qed.

Lemma settleSource_spec s r os served d :
  settleSource s r os served d
  = (Some (settleReading s os served),
     setSystemInfo (settleCache s r os served (systemInfo d)) d).
Proof.
  unfold settleSource, settleCache. destruct served as [reading|].
  - cbn. rewrite setSystemInfo_id. reflexivity.
  - rewrite collectFresh_spec. cbn. reflexivity.
Qed.

Lemma updateDisplayBegin_spec b d :
  updateDisplayBegin b d
  = (fst (lookupAll b (systemInfo d)),
     setSystemInfo (snd (lookupAll b (systemInfo d))) (logStarting d)).
Proof.
  unfold updateDisplayBegin, lookupAll, lookupSource.
  replace (systemInfo (logStarting d)) with (systemInfo d)
    by (unfold logStarting; destruct (loggingEnabled d); reflexivity).
  cbn [pick].
  destruct (cacheLookup (cacheKey CPU) (forCPU (lookupAt b)) (systemInfo d))
    as [c s1]. cbn [systemInfo setSystemInfo].
  destruct (cacheLookup (cacheKey Memory) (forMemory (lookupAt b)) s1)
    as [m s2]. cbn [systemInfo setSystemInfo].
  destruct (cacheLookup (cacheKey Disk) (forDisk (lookupAt b)) s2)
    as [k s3]. cbn [systemInfo setSystemInfo].
  destruct (cacheLookup (cacheKey Network) (forNetwork (lookupAt b)) s3)
    as [n s4]. cbn [systemInfo setSystemInfo].
  reflexivity.
Qed.

Lemma updateDisplayResume_spec started r os served d :
  updateDisplayResume started r os served d
  = ([Some (settleReading CPU os (forCPU served));
      Some (settleReading Memory os (forMemory served));
      Some (settleReading Disk os (forDisk served));
      Some (settleReading Network os (forNetwork served))],
     logCompleted (endAt r - started)
       (setUpdateCount (updateCount d + 1)
          (setSystemInfo
             (clearExpiredCache (sweepAt r) (settleAll r os served (systemInfo d)))
             d))).
Proof.
  unfold updateDisplayResume. rewrite !settleSource_spec.
  cbn [systemInfo setSystemInfo]. reflexivity.
Qed.

Lemma updateDisplay_spec b r os d :
  updateDisplay b r os d
  = updateDisplayResume (startAt b) r os (fst (lookupAll b (systemInfo d)))
      (setSystemInfo (snd (lookupAll b (systemInfo d))) (logStarting d)).
Proof. unfold updateDisplay. rewrite updateDisplayBegin_spec. reflexivity. Qed.

(** *** The cache through a cycle, key by key *)

Lemma cacheKey_inj s x : cacheKey s = cacheKey x -> s = x.
Proof. destruct s, x; cbn; intros H; try reflexivity; discriminate H. Qed.

(** What a read serves depends on the entry under its key and on the
    timeout only. *)
Lemma cacheLookup_fst_ext key now si si' :
  cache si !! key = cache si' !! key ->
  cacheTimeout si = cacheTimeout si' ->
  fst (cacheLookup key now si) = fst (cacheLookup key now si').
Proof.
  intros Hk Ht. unfold cacheLookup, isInCache. rewrite <- Hk, <- Ht.
  destruct (cache si !! key) as [entry|] eqn:H; [|reflexivity].
  destruct (now - cached_at entry <? cacheTimeout si); cbn; [|reflexivity].
  rewrite H, <- Hk. reflexivity.
Qed.

Lemma lookupAll_unfold b si :
  lookupAll b si
  = let s1 := snd (cacheLookup (cacheKey CPU) (forCPU (lookupAt b)) si) in
    let s2 := snd (cacheLookup (cacheKey Memory) (forMemory (lookupAt b)) s1) in
    let s3 := snd (cacheLookup (cacheKey Disk) (forDisk (lookupAt b)) s2) in
    let s4 := snd (cacheLookup (cacheKey Network) (forNetwork (lookupAt b)) s3) in
    ({| forCPU := fst (cacheLookup (cacheKey CPU) (forCPU (lookupAt b)) si);
        forMemory := fst (cacheLookup (cacheKey Memory) (forMemory (lookupAt b)) s1);
        forDisk := fst (cacheLookup (cacheKey Disk) (forDisk (lookupAt b)) s2);
        forNetwork := fst (cacheLookup (cacheKey Network) (forNetwork (lookupAt b)) s3) |},
     s4).
Proof.
  unfold lookupAll.
  destruct (cacheLookup (cacheKey CPU) (forCPU (lookupAt b)) si) as [c s1]. cbn [fst snd].
  destruct (cacheLookup (cacheKey Memory) (forMemory (lookupAt b)) s1) as [m s2]. cbn [fst snd].
  destruct (cacheLookup (cacheKey Disk) (forDisk (lookupAt b)) s2) as [k s3]. cbn [fst snd].
  destruct (cacheLookup (cacheKey Network) (forNetwork (lookupAt b)) s3) as [n s4].
  reflexivity.
Qed.

Lemma lookupAll_timeout b si :
  cacheTimeout (snd (lookupAll b si)) = cacheTimeout si.
Proof. rewrite lookupAll_unfold. cbn. rewrite !cacheLookup_timeout. reflexivity. Qed.

(** Each source is served what a read of the initial cache would serve
    it: the reads of the other sources touch other keys. *)
Lemma lookupAll_served b si x :
  pick x (fst (lookupAll b si)) = servedFromCache x b si.
Proof.
  rewrite lookupAll_unfold. unfold servedFromCache.
  destruct x; cbn [pick fst forCPU forMemory forDisk forNetwork];
    try reflexivity;
    apply cacheLookup_fst_ext;
    rewrite ?cacheLookup_timeout, ?cacheLookup_other by (cbn; discriminate);
    reflexivity.
Qed.

Lemma lookupAll_cache_source b si x :
  cache (snd (lookupAll b si)) !! cacheKey x
  = match servedFromCache x b si with
    | Some _ => cache si !! cacheKey x
    | None => None
    end.
Proof.
  rewrite <- lookupAll_served. rewrite lookupAll_unfold.
  destruct x; cbn [pick fst snd forCPU forMemory forDisk forNetwork];
    rewrite ?cacheLookup_other by (cbn; discriminate);
    rewrite cacheLookup_same;
    rewrite ?cacheLookup_other by (cbn; discriminate);
    reflexivity.
Qed.

Lemma lookupAll_cache_other b si key :
  (forall x, key <> cacheKey x) ->
  cache (snd (lookupAll b si)) !! key = cache si !! key.
Proof.
  intros Hother. rewrite lookupAll_unfold. cbn [snd].
  rewrite !cacheLookup_other by (intros Heq; eapply Hother; symmetry; exact Heq).
  reflexivity.
Qed.

Lemma settleCache_timeout s r os served si :
  cacheTimeout (settleCache s r os served si) = cacheTimeout si.
Proof.
  unfold settleCache. destruct served; [reflexivity|].
  destruct (queryResult s os); reflexivity.
Qed.

Lemma settleCache_other s r os served si key :
  key <> cacheKey s ->
  cache (settleCache s r os served si) !! key = cache si !! key.
Proof.
  intros Hne. unfold settleCache. destruct served; [reflexivity|].
  destruct (queryResult s os); [|reflexivity].
  unfold setCache. cbn. apply lookup_insert_ne. congruence.
Qed.

Lemma settleCache_same s r os served si :
  cache (settleCache s r os served si) !! cacheKey s
  = match served with
    | Some _ => cache si !! cacheKey s
    | None =>
        match queryResult s os with
        | Some result => Some {| data := result; cached_at := pick s (storeAt r) |}
        | None => cache si !! cacheKey s
        end
    end.
Proof.
  unfold settleCache. destruct served; [reflexivity|].
  destruct (queryResult s os); [|reflexivity].
  apply setCache_lookup.
Qed.

Lemma settleAll_timeout r os served si :
  cacheTimeout (settleAll r os served si) = cacheTimeout si.
Proof. unfold settleAll. rewrite !settleCache_timeout. reflexivity. Qed.

Lemma settleAll_cache_source r os served si x :
  cache (settleAll r os served si) !! cacheKey x
  = match pick x served with
    | Some _ => cache si !! cacheKey x
    | None =>
        match queryResult x os with
        | Some result => Some {| data := result; cached_at := pick x (storeAt r) |}
        | None => cache si !! cacheKey x
        end
    end.
Proof.
  unfold settleAll.
  destruct x; cbn [pick];
    rewrite ?settleCache_other by (cbn; discriminate);
    rewrite settleCache_same;
    rewrite ?settleCache_other by (cbn; discriminate);
    reflexivity.
Qed.

Lemma settleAll_cache_other r os served si key :
  (forall x, key <> cacheKey x) ->
  cache (settleAll r os served si) !! key = cache si !! key.
Proof.
  intros Hother. unfold settleAll.
  rewrite !settleCache_other by apply Hother. reflexivity.
Qed.

(** *** The cycle as a whole *)

Lemma logStarting_frame d :
  systemInfo (logStarting d) = systemInfo d
  /\ errorHandler (logStarting d) = errorHandler d
  /\ loggingEnabled (logStarting d) = loggingEnabled d
  /\ updateCount (logStarting d) = updateCount d.
Proof. unfold logStarting. destruct (loggingEnabled d) eqn:H; cbn; auto. Qed.

Lemma logCompleted_frame t d :
  systemInfo (logCompleted t d) = systemInfo d
  /\ errorHandler (logCompleted t d) = errorHandler d
  /\ loggingEnabled (logCompleted t d) = loggingEnabled d
  /\ updateCount (logCompleted t d) = updateCount d.
Proof. unfold logCompleted. destruct (loggingEnabled d) eqn:H; cbn; auto. Qed.

(** The cache a cycle leaves. *)
Lemma updateDisplay_systemInfo b r os d :
  systemInfo (snd (updateDisplay b r os d))
  = clearExpiredCache (sweepAt r)
      (settleAll r os (fst (lookupAll b (systemInfo d)))
         (snd (lookupAll b (systemInfo d)))).
Proof.
  rewrite updateDisplay_spec, updateDisplayResume_spec. cbn [snd].
  match goal with
  | |- systemInfo (logCompleted ?t ?d') = _ =>
      destruct (logCompleted_frame t d') as (-> & _)
  end.
  reflexivity.
Qed.

(** The four results of a cycle: each is the reading of its own source. *)
Lemma updateDisplay_results b r os d :
  fst (updateDisplay b r os d)
  = [Some (sourceReading CPU b os (systemInfo d));
     Some (sourceReading Memory b os (systemInfo d));
     Some (sourceReading Disk b os (systemInfo d));
     Some (sourceReading Network b os (systemInfo d))].
Proof.
  rewrite updateDisplay_spec, updateDisplayResume_spec. cbn [fst].
  unfold sourceReading.
  rewrite <- !lookupAll_served. reflexivity.
Qed.

Lemma updateDisplay_result b r os d x :
  fst (updateDisplay b r os d) !! resultIndex x
  = Some (Some (sourceReading x b os (systemInfo d))).
Proof. rewrite updateDisplay_results. destruct x; reflexivity. Qed.

(** A cycle reports no error: the [catch] blocks of the wrappers are never
    entered, since no collector rejects. *)
Lemma updateDisplay_errorHandler b r os d :
  errorHandler (snd (updateDisplay b r os d)) = errorHandler d.
Proof.
  rewrite updateDisplay_spec, updateDisplayResume_spec. cbn [snd].
  match goal with
  | |- errorHandler (logCompleted ?t ?d') = _ =>
      destruct (logCompleted_frame t d') as (_ & -> & _)
  end.
  cbn. apply logStarting_frame.
Qed.

Lemma updateDisplay_loggingEnabled b r os d :
  loggingEnabled (snd (updateDisplay b r os d)) = loggingEnabled d.
Proof.
  rewrite updateDisplay_spec, updateDisplayResume_spec. cbn [snd].
  match goal with
  | |- loggingEnabled (logCompleted ?t ?d') = _ =>
      destruct (logCompleted_frame t d') as (_ & _ & -> & _)
  end.
  cbn. apply logStarting_frame.
Qed.

(** With logging disabled a cycle writes no debug line; with logging
    enabled it writes its two. *)
Lemma updateDisplay_debugLines b r os d :
  debugLines (snd (updateDisplay b r os d))
  = if loggingEnabled d
    then debugLines d ++ [UpdateStarting (updateCount d + 1);
                          UpdateCompleted (updateCount d + 1) (endAt r - startAt b)]
    else debugLines d.
Proof.
  rewrite updateDisplay_spec, updateDisplayResume_spec. cbn [snd].
  unfold logCompleted, logStarting.
  destruct (loggingEnabled d) eqn:Hlog; cbn; rewrite ?Hlog; cbn.
  - rewrite <- app_assoc. reflexivity.
  - reflexivity.
Qed.

(** The entry a cycle leaves under the key of a source. *)
Lemma updateDisplay_cache_source b r os d x :
  cache (systemInfo (snd (updateDisplay b r os d))) !! cacheKey x
  = sweepEntry (sweepAt r) (cacheTimeout (systemInfo d))
      match servedFromCache x b (systemInfo d) with
      | Some _ => cache (systemInfo d) !! cacheKey x
      | None =>
          (fun result => {| data := result; cached_at := pick x (storeAt r) |})
            <$> queryResult x os
      end.
Proof.
  rewrite updateDisplay_systemInfo, clearExpiredCache_lookup.
  rewrite settleAll_timeout, lookupAll_timeout.
  rewrite settleAll_cache_source, lookupAll_served, lookupAll_cache_source.
  unfold sweepEntry.
  destruct (servedFromCache x b (systemInfo d)); [reflexivity|].
  destruct (queryResult x os); reflexivity.
Qed.

(** The entry a cycle leaves under any other key. *)
Lemma updateDisplay_cache_other b r os d key :
  (forall x, key <> cacheKey x) ->
  cache (systemInfo (snd (updateDisplay b r os d))) !! key
  = sweepEntry (sweepAt r) (cacheTimeout (systemInfo d))
      (cache (systemInfo d) !! key).
Proof.
  intros Hother.
  rewrite updateDisplay_systemInfo, clearExpiredCache_lookup.
  rewrite settleAll_timeout, lookupAll_timeout.
  rewrite settleAll_cache_other, lookupAll_cache_other by assumption.
  reflexivity.
Qed.

End Cycle.

(** A wrapper run from start to end is its cache read followed by its
    settling: the two phases [updateDisplay] is cut into. *)
Lemma safeGet_phases (s : Source) (b : BeginClock) (r : ResumeClock)
    (os : OsQueries) (d : Dashboard) :
  safeGet s (pick s (lookupAt b)) (pick s (storeAt r)) os (isoAt r) d
  = let '(reading, d1) := lookupSource s b d in settleSource s r os reading d1.
Proof.
  unfold safeGet, collect, lookupSource, settleSource.
  destruct (cacheLookup (cacheKey s) (pick s (lookupAt b)) (systemInfo d))
    as [[cached|] si']; cbn [systemInfo setSystemInfo].
  - reflexivity.
  - destruct (collectFresh s (pick s (storeAt r)) os si') as [o si'']. reflexivity.
Qed.

(** ** Escalation *)

Section Escalation.

Implicit Types (d : Dashboard) (error : Thrown) (context iso : string).

Lemma notify_frame n d :
  systemInfo (notify n d) = systemInfo d
  /\ errorHandler (notify n d) = errorHandler d
  /\ loggingEnabled (notify n d) = loggingEnabled d
  /\ degradedMode (notify n d) = degradedMode d
  /\ updateInterval (notify n d) = updateInterval d
  /\ config (notify n d) = config d.
Proof. unfold notify. destruct (eventHandler d); cbn; auto 10. Qed.

Lemma temporarilyReduceUpdateFrequency_interval d :
  updateInterval (temporarilyReduceUpdateFrequency d)
  = match updateInterval d with
    | Some _ => Some {| period := 4000; callback := ReducedLoop |}
    | None => None
    end.
Proof.
  unfold temporarilyReduceUpdateFrequency.
  destruct (updateInterval d) eqn:H; cbn; [reflexivity|assumption].
Qed.

(** What handling a HIGH error does to the flags and the timer. *)
Lemma handleError_high error context iso d :
  severity (normalizeError error context iso) = HIGH ->
  let d' := snd (handleError error context iso d) in
  degradedMode d' = true
  /\ loggingEnabled d' = false
  /\ updateInterval d'
     = match updateInterval d with
       | Some _ => Some {| period := 4000; callback := ReducedLoop |}
       | None => None
       end
  /\ config d' = config d
  /\ systemInfo d' = systemInfo d.
Proof.
  intros Hsev d'. subst d'. unfold handleError. rewrite Hsev. cbn [snd].
  unfold handleHighSeverityError, enterDegradedMode.
  cbn [degradedMode loggingEnabled updateInterval config systemInfo setErrorHandler].
  match goal with
  | |- context [notify ?n ?x] => destruct (notify_frame n x) as (Hs & _ & Hl & Hd & Hu & Hc)
  end.
  rewrite Hs, Hl, Hd, Hu, Hc.
  cbn [degradedMode loggingEnabled updateInterval config systemInfo setLoggingEnabled].
  unfold temporarilyReduceUpdateFrequency.
  cbn [updateInterval setDegradedMode setErrorHandler].
  destruct (updateInterval d) eqn:Hint; cbn; rewrite ?Hint; auto.
Qed.

(** What handling a MEDIUM error of type DATA does to the cache. *)
Lemma handleError_medium_data error context iso d :
  type (normalizeError error context iso) = DATA ->
  severity (normalizeError error context iso) = MEDIUM ->
  systemInfo (snd (handleError error context iso d))
  = clearCache (systemInfo d).
Proof.
  intros Hty Hsev. unfold handleError. rewrite Hsev. cbn [snd].
  unfold handleMediumSeverityError, attemptRecovery. rewrite Hty.
  unfold recoverFromDataError. cbn [systemInfo setErrorHandler setSystemInfo].
  match goal with
  | |- context [notify ?n ?x] => destruct (notify_frame n x) as (Hs & _)
  end.
  rewrite Hs. reflexivity.
Qed.

End Escalation.

(** C8. Handling an error that is classified as type DATA with severity
    MEDIUM clears the cache as its recovery action: whatever the cache held
    before, it is empty, of size 0, right after [handleError]. *)
Theorem data_error_clears_cache (d : Dashboard) (error : Thrown)
    (context iso : string)
    (Htype : type (normalizeError error context iso) = DATA)
    (Hseverity : severity (normalizeError error context iso) = MEDIUM) :
  let d' := snd (handleError error context iso d) in
  cache (systemInfo d') = ∅
  /\ size (cache (systemInfo d')) = 0%nat
  /\ fst (fst (getCacheStats (systemInfo d'))) = 0%nat.
Proof.
  intros d'. subst d'.
  rewrite handleError_medium_data by assumption.
  unfold getCacheStats, clearCache. cbn. rewrite map_size_empty. auto.
Qed.

(** C10. Handling an error of severity HIGH sets [loggingEnabled] to false,
    besides setting [degradedMode]; from then on a refresh cycle writes none
    of its per-update debug lines, which a cycle with logging enabled does
    write. *)
Theorem high_error_disables_logging (d : Dashboard) (error : Thrown)
    (context iso : string)
    (Hseverity : severity (normalizeError error context iso) = HIGH) :
  let d' := snd (handleError error context iso d) in
  loggingEnabled d' = false
  /\ degradedMode d' = true
  /\ (forall b r os,
        debugLines (snd (updateDisplay b r os d')) = debugLines d'
        /\ loggingEnabled (snd (updateDisplay b r os d')) = false)
  /\ (forall b r os,
        loggingEnabled d = true ->
        debugLines (snd (updateDisplay b r os d))
        = debugLines d ++ [UpdateStarting (updateCount d + 1);
                           UpdateCompleted (updateCount d + 1) (endAt r - startAt b)]).
Proof.
  intros d'.
  destruct (handleError_high error context iso d Hseverity) as (Hdeg & Hlog & _).
  fold d' in Hdeg, Hlog.
  split; [exact Hlog|]. split; [exact Hdeg|]. split.
  - intros b r os. rewrite updateDisplay_debugLines, updateDisplay_loggingEnabled.
    rewrite Hlog. auto.
  - intros b r os Hon. rewrite updateDisplay_debugLines, Hon. reflexivity.
Qed.

(** C3, as the code has it. Handling an error of severity HIGH sets
    [degradedMode]. When the periodic timer is armed it is replaced by one of
    period 4000 ms, twice the 2000 ms the update loop is armed with, and a
    second HIGH error leaves that period as it is: the reduction does not
    compound. When no timer is armed yet the guard of
    [temporarilyReduceUpdateFrequency] skips the reduction and no timer is
    armed afterwards either. *)
Theorem high_error_escalation (d : Dashboard) (error error2 : Thrown)
    (context iso context2 iso2 : string)
    (Hhigh : severity (normalizeError error context iso) = HIGH)
    (Hhigh2 : severity (normalizeError error2 context2 iso2) = HIGH) :
  let d1 := snd (handleError error context iso d) in
  let d2 := snd (handleError error2 context2 iso2 d1) in
  degradedMode d1 = true
  /\ degradedMode d2 = true
  /\ (forall t, updateInterval d = Some t ->
        updateInterval d1 = Some {| period := 4000; callback := ReducedLoop |}
        /\ updateInterval d2 = updateInterval d1
        /\ (period t = 2000 -> period <$> updateInterval d1 = Some (2 * period t)))
  /\ (updateInterval d = None ->
        updateInterval d1 = None /\ updateInterval d2 = None)
  /\ (forall now, cfg_updateInterval (config (newDashboard now)) = 2000).
Proof.
  intros d1 d2.
  destruct (handleError_high error context iso d Hhigh) as (Hdeg & _ & Hint & _).
  destruct (handleError_high error2 context2 iso2 d1 Hhigh2) as (Hdeg2 & _ & Hint2 & _).
  fold d1 in Hdeg, Hint. fold d2 in Hdeg2, Hint2.
  split; [exact Hdeg|]. split; [exact Hdeg2|]. split; [|split].
  - intros t Ht. rewrite Ht in Hint. rewrite Hint in Hint2.
    split; [exact Hint|]. split; [congruence|].
    intros Hper. rewrite Hint, Hper. reflexivity.
  - intros Hnone. rewrite Hnone in Hint. rewrite Hint in Hint2. auto.
  - reflexivity.
Qed.

(** ** Collectors *)

Lemma queryFails_spec (s : Source) (os : OsQueries) :
  queryFails s os = true <-> queryResult s os = None.
Proof.
  destruct s; cbn.
  - destruct (os_currentLoad os), (os_cpu os); cbn; split; congruence.
  - destruct (os_mem os); cbn; split; congruence.
  - destruct (os_fsSize os); cbn; split; congruence.
  - destruct (os_networkStats os); cbn; split; congruence.
Qed.

Lemma diskResult_no_real_disk (l : list RawFs) :
  (forall disk, In disk l -> isRealDisk disk = false) -> diskResult l = [].
Proof.
  intros Hnone. unfold diskResult.
  induction l as [|disk l IH]; [reflexivity|]. cbn.
  rewrite (Hnone disk) by (left; reflexivity).
  apply IH. intros disk' Hin. apply Hnone. right. assumption.
Qed.

(** C4, as the code has it. No collector ever raises: its promise is
    fulfilled whatever the queries do. On a cache miss with a failing query
    the [catch] block returns the safe default of the source (zeroed, or an
    empty list) and leaves the cache as the read left it. Absence of
    hardware is no error either: no disk with a positive size gives an empty
    disk reading, no interface an empty network reading. *)
Theorem collector_never_raises (s : Source) (lookupAt storeAt : Z)
    (os : OsQueries) (si : SystemInfo) :
  isRejected (fst (collect s lookupAt storeAt os si)) = false
  /\ (fst (cacheLookup (cacheKey s) lookupAt si) = None ->
      queryFails s os = true ->
      collect s lookupAt storeAt os si
      = (Fulfilled (safeDefault s), snd (cacheLookup (cacheKey s) lookupAt si)))
  /\ (forall disks,
      s = Disk ->
      fst (cacheLookup (cacheKey s) lookupAt si) = None ->
      os_fsSize os = Fulfilled disks ->
      (forall disk, In disk disks -> isRealDisk disk = false) ->
      fst (collect s lookupAt storeAt os si) = Fulfilled (DiskData []))
  /\ (s = Network ->
      fst (cacheLookup (cacheKey s) lookupAt si) = None ->
      os_networkStats os = Fulfilled [] ->
      fst (collect s lookupAt storeAt os si) = Fulfilled (NetworkData [])).
Proof.
  unfold collect.
  destruct (cacheLookup (cacheKey s) lookupAt si) as [[cached|] si'] eqn:Hread;
    cbn [fst snd].
  - repeat split; try reflexivity; intros; discriminate.
  - rewrite collectFresh_spec. cbn [fst]. split; [reflexivity|]. split; [|split].
    + intros _ Hfail. apply queryFails_spec in Hfail.
      unfold settleReading. rewrite Hfail. reflexivity.
    + intros disks -> _ Hos Hnone. unfold settleReading. cbn.
      rewrite Hos. rewrite diskResult_no_real_disk by assumption. reflexivity.
    + intros -> _ Hos. unfold settleReading. cbn. rewrite Hos. reflexivity.
Qed.

(** ** Failure isolation *)

Lemma sourceReading_own_queries (x : Source) (b : BeginClock) (os os2 : OsQueries)
    (si : SystemInfo) :
  queryResult x os2 = queryResult x os ->
  sourceReading x b os2 si = sourceReading x b os si.
Proof.
  intros Hsame. unfold sourceReading, settleReading. rewrite Hsame. reflexivity.
Qed.

Lemma source_key_cases (key : string) :
  (exists x, key = cacheKey x) \/ (forall x, key <> cacheKey x).
Proof.
  destruct (decide (key = cacheKey CPU)) as [->|Hc]; [left; exists CPU; reflexivity|].
  destruct (decide (key = cacheKey Memory)) as [->|Hm]; [left; exists Memory; reflexivity|].
  destruct (decide (key = cacheKey Disk)) as [->|Hd]; [left; exists Disk; reflexivity|].
  destruct (decide (key = cacheKey Network)) as [->|Hn]; [left; exists Network; reflexivity|].
  right. intros x. destruct x; assumption.
Qed.

(** C2, as the code has it. When the queries of exactly one source fail in
    a cycle that has to collect it, [updateDisplay] still resolves four
    results. The failed source's result is its safe default, not null, and
    no error reaches the error handler. Every other source has its normal
    reading, served from the cache or built from its own queries, the same
    reading as in a cycle [os2] where the failed source's queries behave
    differently. The failure evicts nothing: the cache entries of the other
    sources are those of the cycle [os2], and every entry that is younger
    than the timeout when the cycle reads and sweeps the cache is still
    there afterwards. *)
Theorem refresh_isolates_failure (d : Dashboard) (b : BeginClock) (r : ResumeClock)
    (os os2 : OsQueries) (s : Source)
    (Hfail : queryFails s os = true)
    (Hmiss : servedFromCache s b (systemInfo d) = None)
    (Hothers : forall x, x <> s -> queryFails x os = false)
    (Hsame : forall x, x <> s -> queryResult x os2 = queryResult x os) :
  let results := fst (updateDisplay b r os d) in
  let d' := snd (updateDisplay b r os d) in
  let results2 := fst (updateDisplay b r os2 d) in
  let d2 := snd (updateDisplay b r os2 d) in
  length results = 4%nat
  /\ results !! resultIndex s = Some (Some (safeDefault s))
  /\ (forall x, x <> s ->
        exists reading,
          results !! resultIndex x = Some (Some reading)
          /\ results2 !! resultIndex x = Some (Some reading)
          /\ (servedFromCache x b (systemInfo d) = Some reading
              \/ (servedFromCache x b (systemInfo d) = None
                  /\ queryResult x os = Some reading)))
  /\ errorHandler d' = errorHandler d
  /\ (forall x, x <> s ->
        cache (systemInfo d') !! cacheKey x = cache (systemInfo d2) !! cacheKey x)
  /\ (forall key entry,
        cache (systemInfo d) !! key = Some entry ->
        (forall x, key = cacheKey x ->
           pick x (lookupAt b) - cached_at entry < cacheTimeout (systemInfo d)) ->
        sweepAt r - cached_at entry < cacheTimeout (systemInfo d) ->
        cache (systemInfo d') !! key = Some entry).
Proof.
  intros results d' results2 d2. subst results d' results2 d2.
  split; [rewrite updateDisplay_results; reflexivity|].
  split.
  { rewrite updateDisplay_result. unfold sourceReading, settleReading.
    rewrite Hmiss. apply queryFails_spec in Hfail. rewrite Hfail. reflexivity. }
  split.
  { intros x Hx. exists (sourceReading x b os (systemInfo d)).
    rewrite !updateDisplay_result.
    rewrite (sourceReading_own_queries x b os os2) by (apply Hsame; assumption).
    split; [reflexivity|]. split; [reflexivity|].
    unfold sourceReading, settleReading.
    destruct (servedFromCache x b (systemInfo d)) as [cached|]; [left; reflexivity|].
    right. split; [reflexivity|].
    destruct (queryResult x os) as [result|] eqn:Hq; [reflexivity|].
    apply queryFails_spec in Hq. rewrite Hothers in Hq by assumption. discriminate. }
  split; [apply updateDisplay_errorHandler|].
  split.
  { intros x Hx. rewrite !updateDisplay_cache_source.
    rewrite (Hsame x Hx). reflexivity. }
  intros key entry Hentry Hread Hsweep.
  assert (Hkept : sweepEntry (sweepAt r) (cacheTimeout (systemInfo d)) (Some entry)
                  = Some entry).
  { unfold sweepEntry.
    destruct (Z.geb_spec (sweepAt r - cached_at entry) (cacheTimeout (systemInfo d)));
      [lia|reflexivity]. }
  destruct (source_key_cases key) as [[x ->]|Hnot].
  - rewrite updateDisplay_cache_source.
    assert (Hserved : servedFromCache x b (systemInfo d) = Some (data entry)).
    { unfold servedFromCache.
      rewrite (cacheLookup_fresh _ _ _ entry Hentry) by (apply Hread; reflexivity).
      reflexivity. }
    rewrite Hserved, Hentry. exact Hkept.
  - rewrite updateDisplay_cache_other.
    + rewrite Hentry. exact Hkept.
    + exact Hnot.
Qed.

(** ** The periodic timer *)

Lemma launchCycle_inFlight (k : Continuation) (b : BeginClock) (r : ResumeClock)
    (rt : Runtime) :
  inFlight (launchCycle k b r rt)
  = if allServed (fst (lookupAll b (systemInfo (dashboard rt))))
    then inFlight rt
    else inFlight rt
         ++ [{| served := fst (lookupAll b (systemInfo (dashboard rt)));
                started := startAt b; continuation := k |}].
Proof.
  unfold launchCycle. rewrite updateDisplayBegin_spec.
  destruct (allServed (fst (lookupAll b (systemInfo (dashboard rt))))); reflexivity.
Qed.

(** C9, as the code has it. The only guard of the interval callback is
    [isRunning]: a tick that finds it false does nothing, and a tick that
    finds it true starts a cycle however many cycles are still in flight.
    When some collector has to wait for the operating system the new cycle
    joins the ones in flight; when every source is served from the cache the
    cycle runs to its end within the tick. *)
Theorem tick_guarded_by_isRunning_only (rt : Runtime) (tickAt : Z)
    (b : BeginClock) (r : ResumeClock) :
  (isRunning (dashboard rt) = false -> step rt (TimerFires tickAt b r) = rt)
  /\ (forall timer,
        updateInterval (dashboard rt) = Some timer ->
        isRunning (dashboard rt) = true ->
        (allServed (fst (lookupAll b (systemInfo (dashboard rt)))) = false ->
           exists cycle,
             inFlight (step rt (TimerFires tickAt b r)) = inFlight rt ++ [cycle]
             /\ length (inFlight (step rt (TimerFires tickAt b r)))
                = S (length (inFlight rt)))
        /\ (allServed (fst (lookupAll b (systemInfo (dashboard rt)))) = true ->
           inFlight (step rt (TimerFires tickAt b r)) = inFlight rt
           /\ updateCount (dashboard (step rt (TimerFires tickAt b r)))
              = updateCount (dashboard rt) + 1)).
Proof.
  cbn [step]. unfold timerCallback. split.
  - intros Hstopped. rewrite Hstopped.
    destruct (updateInterval (dashboard rt)); reflexivity.
  - intros timer Htimer Hrunning. rewrite Htimer, Hrunning.
    split.
    + intros Hwait.
      destruct (callback timer); rewrite launchCycle_inFlight, Hwait;
        eexists; (split; [reflexivity|]); rewrite length_app; cbn; lia.
    + intros Hserved.
      destruct (callback timer); rewrite launchCycle_inFlight, Hserved;
        (split; [reflexivity|]);
        unfold launchCycle; rewrite updateDisplayBegin_spec, Hserved;
        cbn [dashboard]; unfold completeCycle; rewrite updateDisplayResume_spec;
        cbn [served started continuation]; unfold resumeCaller, updatePerformanceStats;
        cbn [updateCount setPerformanceStats];
        match goal with
        | |- updateCount (logCompleted ?t ?x) = _ =>
            destruct (logCompleted_frame t x) as (_ & _ & _ & ->)
        end;
        cbn [updateCount setUpdateCount setSystemInfo];
        destruct (logStarting_frame (dashboard rt)) as (_ & _ & _ & ->);
        reflexivity.
Qed.

(** * The properties on concrete runs *)

(** C1 on Scenario A: the reading put under ["cpu"] at time 0 is absent at
    time 2001 and was served at time 1999. *)
Lemma cache_ttl_invariant_scenario_A :
  cache (setCache "cpu" (CPUData defaultCPU) 0 newSystemInfo) !! "cpu"
  = Some {| data := CPUData defaultCPU; cached_at := 0 |}
  /\ fst (cacheLookup "cpu" 2001 (setCache "cpu" (CPUData defaultCPU) 0 newSystemInfo))
     = None
  /\ cacheLookup "cpu" 1999 (setCache "cpu" (CPUData defaultCPU) 0 newSystemInfo)
     = (Some (CPUData defaultCPU), setCache "cpu" (CPUData defaultCPU) 0 newSystemInfo).
Proof.
  assert (Hentry :
    cache (setCache "cpu" (CPUData defaultCPU) 0 newSystemInfo) !! "cpu"
    = Some {| data := CPUData defaultCPU; cached_at := 0 |})
    by (vm_compute; reflexivity).
  destruct (cache_ttl_invariant _ "cpu" 2001 _ (CPUData defaultCPU) Hentry)
    as (Hexpired & _).
  destruct (cache_ttl_invariant _ "cpu" 1999 _ (CPUData defaultCPU) Hentry)
    as (_ & Hfresh & _).
  split; [exact Hentry|]. split.
  - apply Hexpired. cbn. lia.
  - apply Hfresh. cbn. lia.
Defined.

(** C2 refuted as stated: with the disk query failing, the disk result of
    the cycle is the empty list, not null, and the error log stays empty. *)
Lemma failed_disk_result_is_not_null :
  queryFails Disk diskDown = true
  /\ fst (updateDisplay (beginAt 0) (resumeAt 100) diskDown (newDashboard 0))
       !! resultIndex Disk
     = Some (Some (DiskData []))
  /\ fst (updateDisplay (beginAt 0) (resumeAt 100) diskDown (newDashboard 0))
       !! resultIndex Disk
     <> Some None
  /\ errorLog (errorHandler
       (snd (updateDisplay (beginAt 0) (resumeAt 100) diskDown (newDashboard 0))))
     = [].
Proof.
  split; [reflexivity|]. split; [vm_compute; reflexivity|].
  split; [vm_compute; discriminate|]. vm_compute; reflexivity.
Qed.

(** C2 on a concrete cycle: the disk query fails, the other queries
    succeed. *)
Lemma refresh_isolates_failure_disk_down :
  queryFails Disk diskDown = true
  /\ servedFromCache Disk (beginAt 0) (systemInfo (newDashboard 0)) = None
  /\ fst (updateDisplay (beginAt 0) (resumeAt 100) diskDown (newDashboard 0))
       !! resultIndex Disk
     = Some (Some (safeDefault Disk))
  /\ errorHandler (snd (updateDisplay (beginAt 0) (resumeAt 100) diskDown (newDashboard 0)))
     = errorHandler (newDashboard 0).
Proof.
  assert (Hothers : forall x, x <> Disk -> queryFails x diskDown = false)
    by (intros x Hx; destruct x; try reflexivity; contradiction).
  assert (Hsame : forall x, x <> Disk -> queryResult x healthy = queryResult x diskDown)
    by (intros x Hx; destruct x; try reflexivity; contradiction).
  split; [reflexivity|]. split; [vm_compute; reflexivity|].
  pose proof (refresh_isolates_failure (newDashboard 0) (beginAt 0) (resumeAt 100)
                diskDown healthy Disk eq_refl eq_refl Hothers Hsame) as H.
  cbv zeta in H. destruct H as (_ & Hdisk & _ & Herr & _).
  split; assumption.
Defined.

(** C3 refuted as stated: a HIGH error handled before the update loop has
    armed its timer changes no cadence; the loop then starts in degraded
    mode at the configured 2000 ms. *)
Lemma high_error_before_loop_keeps_cadence :
  severity (normalizeError screenError "" "2024-01-01T00:00:00.000Z") = HIGH
  /\ updateInterval
       (snd (handleError screenError "" "2024-01-01T00:00:00.000Z" (newDashboard 0)))
     = None
  /\ degradedMode
       (dashboard
          (run [ErrorReported screenError "" "2024-01-01T00:00:00.000Z";
                Startup (beginAt 0) (resumeAt 0);
                QueriesSettle 0 healthy (resumeAt 100)]
               (boot 0)))
     = true
  /\ updateInterval
       (dashboard
          (run [ErrorReported screenError "" "2024-01-01T00:00:00.000Z";
                Startup (beginAt 0) (resumeAt 0);
                QueriesSettle 0 healthy (resumeAt 100)]
               (boot 0)))
     = Some {| period := 2000; callback := UpdateLoop |}
  /\ period <$> updateInterval
       (dashboard
          (run [ErrorReported screenError "" "2024-01-01T00:00:00.000Z";
                Startup (beginAt 0) (resumeAt 0);
                QueriesSettle 0 healthy (resumeAt 100)]
               (boot 0)))
     <> Some (2 * cfg_updateInterval (config (newDashboard 0))).
Proof.
  split; [reflexivity|]. split; [vm_compute; reflexivity|].
  split; [vm_compute; reflexivity|]. split; [vm_compute; reflexivity|].
  vm_compute. discriminate.
Qed.

(** C3 on a concrete run: two HIGH errors after the loop has started. *)
Lemma high_error_escalation_started_up :
  updateInterval (dashboard started_up)
  = Some {| period := 2000; callback := UpdateLoop |}
  /\ degradedMode (dashboard started_up) = false
  /\ period <$> updateInterval
       (snd (handleError screenError "" "2024-01-01T00:00:00.000Z"
               (dashboard started_up)))
     = Some 4000
  /\ updateInterval
       (snd (handleError (Plain {| err_name := "Error"; err_message := "no such file";
                                   err_code := Some "ENOENT"; err_stack := "";
                                   err_isSyntaxError := false |})
               "reduced_frequency_update" "2024-01-01T00:00:04.000Z"
               (snd (handleError screenError "" "2024-01-01T00:00:00.000Z"
                       (dashboard started_up)))))
     = Some {| period := 4000; callback := ReducedLoop |}.
Proof.
  assert (Harmed : updateInterval (dashboard started_up)
                   = Some {| period := 2000; callback := UpdateLoop |})
    by (vm_compute; reflexivity).
  pose proof (high_error_escalation (dashboard started_up) screenError
    (Plain {| err_name := "Error"; err_message := "no such file";
              err_code := Some "ENOENT"; err_stack := "";
              err_isSyntaxError := false |})
    "" "2024-01-01T00:00:00.000Z" "reduced_frequency_update"
    "2024-01-01T00:00:04.000Z" eq_refl eq_refl) as H.
  cbv zeta in H. destruct H as (_ & _ & Harm & _).
  destruct (Harm _ Harmed) as (H1 & H2 & H3).
  split; [exact Harmed|]. split; [vm_compute; reflexivity|].
  split; [apply H3; reflexivity|].
  rewrite H2. exact H1.
Defined.

(** C4 refuted as stated: the disk query fails and the collector raises
    nothing; it resolves to the empty reading. *)
Lemma failing_disk_query_raises_nothing :
  queryFails Disk diskDown = true
  /\ isRejected (fst (getDiskInfo 0 0 diskDown newSystemInfo)) = false
  /\ fst (getDiskInfo 0 0 diskDown newSystemInfo) = Fulfilled (DiskData [])
  /\ isRejected (fst (getDiskInfo 0 0 diskDown newSystemInfo))
     <> queryFails Disk diskDown.
Proof.
  split; [reflexivity|]. split; [vm_compute; reflexivity|].
  split; [vm_compute; reflexivity|]. vm_compute. discriminate.
Qed.

(** C5 on a concrete run: 103 errors into the log of a new handler. *)
Lemma errorLog_ring_bound_103 :
  (0 < 3)%nat
  /\ length (numberedErrors 0 103) = (maxLogSize newErrorHandler + 3)%nat
  /\ length (errorLog (logErrors (numberedErrors 0 103) newErrorHandler)) = 100%nat
  /\ errorLog (logErrors (numberedErrors 0 103) newErrorHandler)
     = entriesOf (numberedErrors 3 100).
Proof.
  assert (Hk : (0 < 3)%nat) by lia.
  assert (Hbound : (length (errorLog newErrorHandler) <= maxLogSize newErrorHandler)%nat)
    by (cbn; lia).
  assert (Hcount : length (numberedErrors 0 103) = (maxLogSize newErrorHandler + 3)%nat)
    by (vm_compute; reflexivity).
  destruct (errorLog_ring_bound newErrorHandler (numberedErrors 0 103) 3
              Hk Hbound Hcount) as (Hlen & Hlog & _).
  split; [exact Hk|]. split; [exact Hcount|].
  split; [exact Hlen|]. rewrite Hlog. vm_compute. reflexivity.
Defined.

(** C6 refuted as stated: after cycles of 10 and 11 ms the stored average
    is 11, not the mean 21/2 of the formula. *)
Lemma average_is_not_the_exact_mean :
  averagesAfter [10; 11] (newDashboard 0) = [10; 11]
  /\ ~ (inject_Z
          (averageUpdateTime
             (performanceStats (recordDurations [10; 11]%Z (newDashboard 0%Z))))
        == (inject_Z
              (averageUpdateTime
                 (performanceStats (recordDurations [10]%Z (newDashboard 0%Z))))
            * inject_Z (2 - 1)%Z + inject_Z 11%Z) / inject_Z 2%Z)%Q.
Proof.
  split; [vm_compute; reflexivity|].
  vm_compute. discriminate.
Qed.

(** C6 on a concrete run: the first cycle of a new dashboard. *)
Lemma running_average_rounded_first_cycle :
  0 <= totalUpdates (performanceStats (newDashboard 0))
  /\ averageUpdateTime (performanceStats (updatePerformanceStats 10 (newDashboard 0)))
     = 10
  /\ averagesAfter [10; 20; 30] (newDashboard 0) = [10; 15; 20].
Proof.
  assert (Hcount : 0 <= totalUpdates (performanceStats (newDashboard 0)))
    by (cbn; lia).
  pose proof (running_average_rounded (newDashboard 0) 10 0 Hcount) as H.
  cbv zeta in H. destruct H as (_ & Havg & _ & _ & Hrun).
  split; [exact Hcount|]. split; [rewrite Havg; vm_compute; reflexivity|exact Hrun].
Defined.

(** C8 on a concrete run: a parse error reported while the cache holds the
    four readings of the first cycle. *)
Lemma data_error_clears_cache_started_up :
  size (cache (systemInfo (dashboard started_up))) = 4%nat
  /\ type (normalizeError (Plain parseError) "" "2024-01-01T00:00:01.000Z") = DATA
  /\ severity (normalizeError (Plain parseError) "" "2024-01-01T00:00:01.000Z") = MEDIUM
  /\ size (cache (systemInfo
       (snd (handleError (Plain parseError) "" "2024-01-01T00:00:01.000Z"
               (dashboard started_up)))))
     = 0%nat.
Proof.
  split; [vm_compute; reflexivity|]. split; [reflexivity|]. split; [reflexivity|].
  apply (data_error_clears_cache (dashboard started_up) (Plain parseError) ""
           "2024-01-01T00:00:01.000Z" eq_refl eq_refl).
Defined.

(** C9 refuted as stated: two ticks whose queries have not settled leave two
    refresh cycles in progress. *)
Lemma ticks_overlap :
  isRunning (dashboard started_up) = true
  /\ length (inFlight started_up) = 0%nat
  /\ length (inFlight (run [TimerFires 2100 (beginAt 2100) (resumeAt 2100)] started_up))
     = 1%nat
  /\ length
       (inFlight
          (run [TimerFires 2100 (beginAt 2100) (resumeAt 2100);
                TimerFires 4100 (beginAt 4100) (resumeAt 4100)]
               started_up))
     = 2%nat
  /\ ~ (forall evs, (length (inFlight (run evs started_up)) <= 1)%nat).
Proof.
  split; [vm_compute; reflexivity|]. split; [vm_compute; reflexivity|].
  split; [vm_compute; reflexivity|].
  assert (Htwo :
    length
      (inFlight
         (run [TimerFires 2100 (beginAt 2100) (resumeAt 2100);
               TimerFires 4100 (beginAt 4100) (resumeAt 4100)]
              started_up))
    = 2%nat) by (vm_compute; reflexivity).
  split; [exact Htwo|].
  intros Hone.
  specialize (Hone [TimerFires 2100 (beginAt 2100) (resumeAt 2100);
                    TimerFires 4100 (beginAt 4100) (resumeAt 4100)]).
  rewrite Htwo in Hone. lia.
Qed.

(** C10 on a concrete run: logging switched on, then a HIGH error. *)
Lemma high_error_disables_logging_started_up :
  loggingEnabled (setLoggingEnabled true (dashboard started_up)) = true
  /\ severity (normalizeError screenError "" "2024-01-01T00:00:00.000Z") = HIGH
  /\ loggingEnabled
       (snd (handleError screenError "" "2024-01-01T00:00:00.000Z"
               (setLoggingEnabled true (dashboard started_up))))
     = false.
Proof.
  split; [reflexivity|]. split; [reflexivity|].
  apply (high_error_disables_logging (setLoggingEnabled true (dashboard started_up))
           screenError "" "2024-01-01T00:00:00.000Z" eq_refl).
Defined.

(** * Properties of the further operations *)

(** ** What [handleError] does, field by field *)

Lemma handleError_effect (error : Thrown) (context iso : string) (d : Dashboard) :
  let n := normalizeError error context iso in
  let d' := snd (handleError error context iso d) in
  fst (handleError error context iso d) = n
  /\ errorHandler d' = updateErrorStats n (logError n iso (errorHandler d))
  /\ degradedMode d'
     = match severity n with HIGH => true | _ => degradedMode d end
  /\ loggingEnabled d'
     = match severity n with HIGH => false | _ => loggingEnabled d end
  /\ exitTimer d'
     = match severity n with CRITICAL => Some 1 | _ => exitTimer d end
  /\ systemInfo d'
     = match severity n, type n with
       | MEDIUM, SYSTEM | MEDIUM, DATA => clearCache (systemInfo d)
       | _, _ => systemInfo d
       end
  /\ updateInterval d'
     = match severity n, type n with
       | HIGH, _ | MEDIUM, SYSTEM => reducedTimer (updateInterval d)
       | _, _ => updateInterval d
       end
  /\ isRunning d' = isRunning d
  /\ updateCount d' = updateCount d
  /\ performanceStats d' = performanceStats d
  /\ config d' = config d
  /\ eventHandler d' = eventHandler d
  /\ debugLines d' = debugLines d.
Proof.
  intros n d'. subst d'. unfold handleError. fold n. cbn [fst snd].
  split; [reflexivity|].
  unfold handleLowSeverityError, handleMediumSeverityError,
    handleHighSeverityError, handleCriticalError, attemptRecovery,
    recoverFromSystemError, recoverFromDataError, recoverFromNetworkError,
    enterDegradedMode, temporarilyReduceUpdateFrequency, notify, reducedTimer.
  destruct (severity n), (type n); cbn;
    destruct (eventHandler d) eqn:Hev; cbn;
    destruct (updateInterval d) eqn:Hint; cbn;
    repeat split; cbn; rewrite ?Hev, ?Hint; cbn; rewrite ?Hev, ?Hint; reflexivity.
Qed.

(** ** Error statistics *)

Lemma typeName_inj (t t' : ErrorType) : typeName t = typeName t' -> t = t'.
Proof. destruct t, t'; intros H; try reflexivity; discriminate H. Qed.

Lemma statKey_inj (t t' : ErrorType) (s s' : ErrorSeverity) :
  statKey t s = statKey t' s' -> t = t' /\ s = s'.
Proof.
  destruct t, t', s, s'; intros H; try (split; reflexivity); discriminate H.
Qed.

Lemma handleErrors_cons (p : Report) (ps : list Report) (d : Dashboard) :
  handleErrors (p :: ps) d
  = handleErrors ps (snd (handleError (reported p) (reportContext p) (reportedAt p) d)).
Proof. reflexivity. Qed.

Lemma handleErrors_snoc (ps : list Report) (p : Report) (d : Dashboard) :
  handleErrors (ps ++ [p]) d
  = snd (handleError (reported p) (reportContext p) (reportedAt p) (handleErrors ps d)).
Proof. unfold handleErrors. rewrite fold_left_app. reflexivity. Qed.

Lemma handleError_errorCounts (p : Report) (d : Dashboard) (t : ErrorType)
    (s : ErrorSeverity) :
  default 0%nat
    (errorCounts
       (errorHandler (snd (handleError (reported p) (reportContext p) (reportedAt p) d)))
     !! statKey t s)
  = (default 0%nat (errorCounts (errorHandler d) !! statKey t s)
     + if decide (type (normalized p) = t /\ severity (normalized p) = s)
       then 1 else 0)%nat.
Proof.
  destruct (handleError_effect (reported p) (reportContext p) (reportedAt p) d)
    as (_ & -> & _).
  fold (normalized p). unfold updateErrorStats. cbn [errorCounts logError].
  fold (statKey (type (normalized p)) (severity (normalized p))).
  destruct (decide (type (normalized p) = t /\ severity (normalized p) = s))
    as [[<- <-]|Hne].
  - rewrite lookup_insert_eq. cbn. lia.
  - rewrite lookup_insert_ne; [lia|].
    intros Hkey. apply statKey_inj in Hkey. tauto.
Qed.

(** X1. The counter of a type and severity counts the handled errors that
    were classified so. *)
Theorem errorCounts_count_by_kind (ps : list Report) (d : Dashboard)
    (t : ErrorType) (s : ErrorSeverity) :
  default 0%nat (errorCounts (errorHandler (handleErrors ps d)) !! statKey t s)
  = (default 0%nat (errorCounts (errorHandler d) !! statKey t s)
     + length (filter (fun p => type (normalized p) = t /\ severity (normalized p) = s)
                 ps))%nat.
Proof.
  revert d. induction ps as [|p ps IH]; intros d.
  - cbn. lia.
  - rewrite handleErrors_cons, IH, handleError_errorCounts, filter_cons.
    destruct (decide (type (normalized p) = t /\ severity (normalized p) = s));
      cbn [length]; lia.
Qed.

(** X2. [lastErrors] holds, for each type, the most recently handled error
    of that type, and keeps what it held for a type of which no error was
    handled. *)
Theorem lastErrors_most_recent (ps : list Report) (d : Dashboard) (t : ErrorType) :
  lastErrors (errorHandler (handleErrors ps d)) !! typeName t
  = match last (filter (fun p => type (normalized p) = t) ps) with
    | Some p => Some (normalized p)
    | None => lastErrors (errorHandler d) !! typeName t
    end.
Proof.
  induction ps as [|p ps IH] using rev_ind.
  - reflexivity.
  - rewrite handleErrors_snoc.
    destruct (handleError_effect (reported p) (reportContext p) (reportedAt p)
                (handleErrors ps d)) as (_ & -> & _).
    fold (normalized p). unfold updateErrorStats. cbn [lastErrors logError].
    rewrite filter_app, filter_cons, filter_nil.
    destruct (decide (type (normalized p) = t)) as [<-|Hne].
    + rewrite last_snoc. apply lookup_insert_eq.
    + rewrite app_nil_r, lookup_insert_ne by (intros H; apply typeName_inj in H; tauto).
      exact IH.
Qed.

(** ** The error log under [handleError] *)

Lemma handleErrors_errorLog (ps : list Report) (d : Dashboard) :
  errorLog (errorHandler (handleErrors ps d))
  = errorLog (logErrors (map (fun p => (normalized p, reportedAt p)) ps) (errorHandler d))
  /\ maxLogSize (errorHandler (handleErrors ps d)) = maxLogSize (errorHandler d).
Proof.
  induction ps as [|p ps IH] using rev_ind.
  - split; reflexivity.
  - rewrite handleErrors_snoc.
    destruct (handleError_effect (reported p) (reportContext p) (reportedAt p)
                (handleErrors ps d)) as (_ & -> & _).
    fold (normalized p). destruct IH as [IHlog IHmax].
    unfold updateErrorStats. cbn [errorLog maxLogSize].
    unfold logErrors. rewrite map_app, fold_left_app. cbn [map fold_left fst snd].
    fold (logErrors (map (fun p0 => (normalized p0, reportedAt p0)) ps) (errorHandler d)).
    unfold logError. cbn [errorLog maxLogSize].
    rewrite IHlog, IHmax, logErrors_maxLogSize. split; reflexivity.
Qed.

Lemma logErrors_length (es : list (DashboardError * string)) (h : ErrorHandler) :
  (length (errorLog h) <= maxLogSize h)%nat ->
  length (errorLog (logErrors es h))
  = Nat.min (length (errorLog h) + length es) (maxLogSize h).
Proof.
  intros Hbound. rewrite logErrors_window by assumption.
  rewrite length_drop, length_app. unfold entriesOf. rewrite length_map. lia.
Qed.

(** X3. What [getErrorStats] reports after a run of handled errors:
    [totalErrors] is the length of the log, so it stops growing at
    [maxLogSize]; [recentErrors] are the entries of the five errors handled
    last, oldest first. *)
Theorem getErrorStats_after_errors (ps : list Report) (d : Dashboard)
    (Hbound : (length (errorLog (errorHandler d)) <= maxLogSize (errorHandler d))%nat)
    (Hroom : (5 <= maxLogSize (errorHandler d))%nat)
    (Hmany : (5 <= length ps)%nat) :
  let stats := getErrorStats (errorHandler (handleErrors ps d)) in
  stats_totalErrors stats
  = Nat.min (length (errorLog (errorHandler d)) + length ps)
            (maxLogSize (errorHandler d))
  /\ stats_recentErrors stats = drop (length ps - 5) (reportEntries ps).
Proof.
  intros stats. subst stats. unfold getErrorStats, recentErrors.
  cbn [stats_totalErrors stats_recentErrors].
  destruct (handleErrors_errorLog ps d) as [-> _].
  set (es := map (fun p => (normalized p, reportedAt p)) ps).
  assert (Hes : length es = length ps) by (subst es; apply length_map).
  assert (Hentries : entriesOf es = reportEntries ps).
  { subst es. unfold entriesOf, reportEntries. rewrite map_map. reflexivity. }
  split.
  - rewrite logErrors_length, Hes by assumption. reflexivity.
  - rewrite logErrors_length by assumption.
    rewrite logErrors_window by assumption.
    rewrite drop_drop, Hes, Hentries.
    set (l := errorLog (errorHandler d)).
    assert (Hlen : length (reportEntries ps) = length ps)
      by (unfold reportEntries; apply length_map).
    replace (length l + length ps - maxLogSize (errorHandler d)
             + (Nat.min (length l + length ps) (maxLogSize (errorHandler d)) - 5))%nat
      with (length l + (length ps - 5))%nat by lia.
    rewrite drop_app_ge by lia. f_equal. lia.
Qed.

(** X4. The error just handled is the newest entry of the log, whatever
    the log held, as long as the log has room for one entry; and
    [handleError] returns the normalized error. *)
Theorem handled_error_is_newest_entry (d : Dashboard) (error : Thrown)
    (context iso : string)
    (Hroom : (0 < maxLogSize (errorHandler d))%nat) :
  let n := normalizeError error context iso in
  fst (handleError error context iso d) = n
  /\ last (errorLog (errorHandler (snd (handleError error context iso d))))
     = Some (toLogEntry n iso).
Proof.
  intros n.
  destruct (handleError_effect error context iso d) as (Hret & Heh & _).
  fold n in Hret, Heh. split; [exact Hret|]. rewrite Heh.
  unfold updateErrorStats, logError. cbn [errorLog maxLogSize].
  rewrite length_app. cbn [length].
  destruct (Nat.ltb_spec (maxLogSize (errorHandler d))
              (length (errorLog (errorHandler d)) + 1)).
  - destruct (errorLog (errorHandler d)) as [|x l] eqn:Hlog; [cbn in *; lia|].
    cbn. rewrite drop_0. apply last_snoc.
  - apply last_snoc.
Qed.

(** ** What the event loop leaves alone *)

Lemma logStarting_control (d : Dashboard) : control (logStarting d) = control d.
Proof. unfold logStarting. destruct (loggingEnabled d) eqn:H; reflexivity. Qed.

Lemma logCompleted_control (t : Z) (d : Dashboard) :
  control (logCompleted t d) = control d.
Proof. unfold logCompleted. destruct (loggingEnabled d) eqn:H; reflexivity. Qed.

Lemma updateDisplayBegin_control (b : BeginClock) (d : Dashboard) :
  control (snd (updateDisplayBegin b d)) = control d.
Proof.
  rewrite updateDisplayBegin_spec. cbn [snd].
  rewrite <- (logStarting_control d). reflexivity.
Qed.

Lemma updateDisplayResume_control (started : Z) (r : ResumeClock) (os : OsQueries)
    (hits : PerSource (option Reading)) (d : Dashboard) :
  control (snd (updateDisplayResume started r os hits d)) = control d.
Proof.
  rewrite updateDisplayResume_spec. cbn [snd].
  rewrite logCompleted_control. reflexivity.
Qed.

(** X5. A refresh cycle changes the cache, the update count and, with
    logging enabled, the debug lines, and nothing else: in particular it
    reports no error, shows no notice, and leaves the mode flags, the timer
    and the performance statistics alone, whatever the queries do. *)
Theorem updateDisplay_leaves_control_alone (b : BeginClock) (r : ResumeClock)
    (os : OsQueries) (d : Dashboard) :
  let d' := snd (updateDisplay b r os d) in
  errorHandler d' = errorHandler d
  /\ isRunning d' = isRunning d
  /\ degradedMode d' = degradedMode d
  /\ loggingEnabled d' = loggingEnabled d
  /\ updateInterval d' = updateInterval d
  /\ exitTimer d' = exitTimer d
  /\ performanceStats d' = performanceStats d
  /\ config d' = config d
  /\ notices d' = notices d
  /\ updateCount d' = updateCount d + 1
  /\ cacheTimeout (systemInfo d') = cacheTimeout (systemInfo d).
Proof.
  intros d'.
  assert (Hcontrol : control d' = control d).
  { subst d'. unfold updateDisplay.
    destruct (updateDisplayBegin b d) as [hits d1] eqn:Hbegin.
    rewrite updateDisplayResume_control.
    change d1 with (snd (hits, d1)). rewrite <- Hbegin.
    apply updateDisplayBegin_control. }
  unfold control in Hcontrol.
  injection Hcontrol as H1 H2 H3 H4 H5 H6 H7 H8 H9 H10.
  repeat (split; [assumption|]).
  split.
  - subst d'. rewrite updateDisplay_spec, updateDisplayResume_spec. cbn [snd].
    match goal with
    | |- updateCount (logCompleted ?t ?x) = _ =>
        destruct (logCompleted_frame t x) as (_ & _ & _ & ->)
    end.
    cbn [updateCount setUpdateCount setSystemInfo].
    destruct (logStarting_frame d) as (_ & _ & _ & ->). reflexivity.
  - subst d'. rewrite updateDisplay_systemInfo.
    unfold clearExpiredCache. cbn [cacheTimeout withCache].
    rewrite settleAll_timeout, lookupAll_timeout. reflexivity.
Qed.

Lemma control_modes (d d' : Dashboard) : control d' = control d -> modes d' = modes d.
Proof. unfold control, modes. intros H. injection H as -> _ -> -> _ -> _ _ _ _. reflexivity. Qed.

Lemma resumeCaller_modes (k : Continuation) (r : ResumeClock) (d : Dashboard) :
  modes (resumeCaller k r d) = modes d.
Proof.
  destruct k; cbn; try reflexivity.
  unfold notify. destruct (eventHandler d); reflexivity.
Qed.

Lemma completeCycle_modes (c : Cycle) (r : ResumeClock) (os : OsQueries)
    (d : Dashboard) :
  modes (completeCycle c r os d) = modes d.
Proof.
  unfold completeCycle.
  destruct (updateDisplayResume (started c) r os (served c) d) as [res d1] eqn:H.
  rewrite resumeCaller_modes. apply control_modes.
  change d1 with (snd (res, d1)). rewrite <- H. apply updateDisplayResume_control.
Qed.

Lemma launchCycle_modes (k : Continuation) (b : BeginClock) (r : ResumeClock)
    (rt : Runtime) :
  modes (dashboard (launchCycle k b r rt)) = modes (dashboard rt).
Proof.
  unfold launchCycle.
  destruct (updateDisplayBegin b (dashboard rt)) as [hits d1] eqn:H.
  assert (Hd1 : modes d1 = modes (dashboard rt)).
  { apply control_modes. change d1 with (snd (hits, d1)). rewrite <- H.
    apply updateDisplayBegin_control. }
  destruct (allServed hits); cbn [dashboard].
  - rewrite completeCycle_modes. exact Hd1.
  - exact Hd1.
Qed.

(** Only a reported error changes the error handler or the mode flags. *)
Lemma step_modes (rt : Runtime) (ev : Event) :
  isErrorReport ev = false ->
  modes (dashboard (step rt ev)) = modes (dashboard rt).
Proof.
  destruct ev as [b r| |tickAt b r|i os r|b r|error context iso]; cbn [isErrorReport step];
    intros Hev; try discriminate Hev.
  - apply launchCycle_modes.
  - reflexivity.
  - unfold timerCallback. destruct (updateInterval (dashboard rt)) as [timer|];
      [|reflexivity].
    destruct (isRunning (dashboard rt)); [|reflexivity].
    destruct (callback timer); apply launchCycle_modes.
  - destruct (inFlight rt !! i) as [c|]; [|reflexivity].
    cbn [dashboard]. apply completeCycle_modes.
  - unfold handleRefresh. destruct (eventHandler (dashboard rt)) eqn:Hh; [|reflexivity].
    rewrite launchCycle_modes. cbn [dashboard].
    unfold notify. rewrite Hh. reflexivity.
Qed.

Lemma run_snoc (evs : list Event) (ev : Event) (rt : Runtime) :
  run (evs ++ [ev]) rt = step (run evs rt) ev.
Proof. unfold run. rewrite fold_left_app. reflexivity. Qed.

(** X6. In every run of the event loop from the start of the process the
    error log stays within its capacity of 100 entries. *)
Theorem errorLog_bounded_in_every_run (now : Z) (evs : list Event) :
  let h := errorHandler (dashboard (run evs (boot now))) in
  (length (errorLog h) <= 100)%nat /\ maxLogSize h = 100%nat.
Proof.
  cbv zeta. induction evs as [|ev evs IH] using rev_ind.
  - cbn. split; [lia|reflexivity].
  - rewrite run_snoc. set (rt := run evs (boot now)) in *.
    destruct (isErrorReport ev) eqn:Hev.
    + destruct ev; try discriminate Hev. cbn [step dashboard].
      destruct (handleError_effect error context iso (dashboard rt))
        as (_ & -> & _).
      unfold updateErrorStats. cbn [errorLog maxLogSize].
      destruct IH as [IHlen IHmax]. split; [|exact IHmax].
      rewrite <- IHmax. apply logError_bounded. rewrite IHmax. exact IHlen.
    + pose proof (step_modes rt ev Hev) as Hmodes. unfold modes in Hmodes.
      injection Hmodes as -> _ _ _. exact IH.
Qed.

Lemma step_degradedMode (rt : Runtime) (ev : Event) :
  degradedMode (dashboard (step rt ev))
  = degradedMode (dashboard rt) || reportsHigh ev.
Proof.
  destruct (isErrorReport ev) eqn:Hev.
  - destruct ev; try discriminate Hev. cbn [step dashboard reportsHigh].
    destruct (handleError_effect error context iso (dashboard rt))
      as (_ & _ & -> & _).
    destruct (severity (normalizeError error context iso));
      rewrite ?orb_false_r, ?orb_true_r; reflexivity.
  - pose proof (step_modes rt ev Hev) as Hmodes. unfold modes in Hmodes.
    injection Hmodes as _ -> _ _.
    destruct ev; try discriminate Hev; cbn [reportsHigh];
      rewrite orb_false_r; reflexivity.
Qed.

(** X7. Degraded mode is entered by a reported error of severity HIGH and
    by nothing else, and nothing ever leaves it: after any run of events the
    dashboard is degraded exactly when it was before or a HIGH error was
    reported during the run. *)
Theorem degradedMode_set_by_high_never_cleared (evs : list Event) (rt : Runtime) :
  degradedMode (dashboard (run evs rt))
  = degradedMode (dashboard rt) || existsb reportsHigh evs.
Proof.
  induction evs as [|ev evs IH] using rev_ind.
  - cbn. rewrite orb_false_r. reflexivity.
  - rewrite run_snoc, step_degradedMode, IH, existsb_app. cbn [existsb].
    rewrite orb_false_r, orb_assoc. reflexivity.
Qed.

(** ** Dispatch by severity *)

(** X8. An error of severity LOW, and an error of severity MEDIUM whose
    type is neither SYSTEM nor DATA, is logged and counted and changes
    nothing else of the engine: not the cache, the timer, the mode flags or
    the exit timer. *)
Theorem minor_error_changes_no_engine_state (d : Dashboard) (error : Thrown)
    (context iso : string)
    (Hminor :
       severity (normalizeError error context iso) = LOW
       \/ (severity (normalizeError error context iso) = MEDIUM
           /\ type (normalizeError error context iso) <> SYSTEM
           /\ type (normalizeError error context iso) <> DATA)) :
  let d' := snd (handleError error context iso d) in
  systemInfo d' = systemInfo d
  /\ updateInterval d' = updateInterval d
  /\ degradedMode d' = degradedMode d
  /\ loggingEnabled d' = loggingEnabled d
  /\ exitTimer d' = exitTimer d
  /\ isRunning d' = isRunning d
  /\ updateCount d' = updateCount d
  /\ performanceStats d' = performanceStats d
  /\ errorHandler d' <> errorHandler d.
Proof.
  intros d'.
  destruct (handleError_effect error context iso d)
    as (_ & Heh & Hdeg & Hlog & Hexit & Hsi & Hint & Hrun & Hcount & Hperf & _).
  fold d' in Heh, Hdeg, Hlog, Hexit, Hsi, Hint, Hrun, Hcount, Hperf.
  assert (Hstats : errorHandler d' <> errorHandler d).
  { rewrite Heh. intros Heq.
    apply (f_equal (fun h => default 0%nat
             (errorCounts h !! statKey (type (normalizeError error context iso))
                                       (severity (normalizeError error context iso)))))
      in Heq.
    unfold updateErrorStats in Heq. cbn [errorCounts logError] in Heq.
    fold (statKey (type (normalizeError error context iso))
                  (severity (normalizeError error context iso))) in Heq.
    rewrite lookup_insert_eq in Heq. cbn in Heq. lia. }
  destruct Hminor as [Hlow|(Hmed & Hsys & Hdata)].
  - rewrite Hlow in *. repeat (split; [assumption|]). exact Hstats.
  - rewrite Hmed in *.
    destruct (type (normalizeError error context iso)); try contradiction;
      repeat (split; [assumption|]); exact Hstats.
Qed.

(** X9. An error of severity MEDIUM and type SYSTEM empties the cache and,
    when the periodic timer is armed, replaces it by the reduced one of
    4000 ms, as a HIGH error does, but it does not enter degraded mode and
    leaves logging as it is. *)
Theorem medium_system_error_recovery (d : Dashboard) (error : Thrown)
    (context iso : string)
    (Hseverity : severity (normalizeError error context iso) = MEDIUM)
    (Htype : type (normalizeError error context iso) = SYSTEM) :
  let d' := snd (handleError error context iso d) in
  cache (systemInfo d') = ∅
  /\ updateInterval d' = reducedTimer (updateInterval d)
  /\ degradedMode d' = degradedMode d
  /\ loggingEnabled d' = loggingEnabled d
  /\ exitTimer d' = exitTimer d.
Proof.
  intros d'.
  destruct (handleError_effect error context iso d)
    as (_ & _ & Hdeg & Hlog & Hexit & Hsi & Hint & _).
  fold d' in Hdeg, Hlog, Hexit, Hsi, Hint.
  rewrite Hseverity in *. rewrite Htype in *.
  rewrite Hsi. auto.
Qed.

(** X10. The exit timer is set, with exit status 1, by an error of severity
    CRITICAL and by no other; a CRITICAL error is logged and counted like
    any other and touches neither the cache nor the periodic timer nor the
    mode flags. *)
Theorem exit_only_on_critical (d : Dashboard) (error : Thrown)
    (context iso : string) :
  let n := normalizeError error context iso in
  let d' := snd (handleError error context iso d) in
  exitTimer d' = (if decide (severity n = CRITICAL) then Some 1 else exitTimer d)
  /\ errorHandler d' = updateErrorStats n (logError n iso (errorHandler d))
  /\ (severity n = CRITICAL ->
      systemInfo d' = systemInfo d
      /\ updateInterval d' = updateInterval d
      /\ isRunning d' = isRunning d
      /\ degradedMode d' = degradedMode d
      /\ loggingEnabled d' = loggingEnabled d).
Proof.
  intros n d'.
  destruct (handleError_effect error context iso d)
    as (_ & Heh & Hdeg & Hlog & Hexit & Hsi & Hint & Hrun & _).
  fold n d' in Heh, Hdeg, Hlog, Hexit, Hsi, Hint, Hrun.
  split; [|split; [exact Heh|]].
  - rewrite Hexit. destruct (severity n); reflexivity.
  - intros Hcrit. rewrite Hcrit in *. auto.
Qed.

(** ** The cache: sweeps and reads *)

Lemma cacheLookup_fst (key : string) (now : Z) (si : SystemInfo) :
  fst (cacheLookup key now si)
  = match cache si !! key with
    | Some entry =>
        if now - cached_at entry <? cacheTimeout si then Some (data entry) else None
    | None => None
    end.
Proof.
  unfold cacheLookup, isInCache.
  destruct (cache si !! key) as [entry|] eqn:H; [|reflexivity].
  destruct (now - cached_at entry <? cacheTimeout si); cbn; [|reflexivity].
  rewrite H. reflexivity.
Qed.

(** X11. The sweep is invisible to the reads that follow it: a read at the
    time of the sweep or later is served the same with and without the
    sweep. *)
Theorem sweep_invisible_to_later_reads (si : SystemInfo) (key : string)
    (now now' : Z)
    (Hlater : now <= now') :
  fst (cacheLookup key now' (clearExpiredCache now si))
  = fst (cacheLookup key now' si).
Proof.
  rewrite !cacheLookup_fst, clearExpiredCache_lookup.
  change (cacheTimeout (clearExpiredCache now si)) with (cacheTimeout si).
  destruct (cache si !! key) as [entry|]; [|reflexivity].
  destruct (Z.geb_spec (now - cached_at entry) (cacheTimeout si)); [|reflexivity].
  destruct (Z.ltb_spec (now' - cached_at entry) (cacheTimeout si)); [lia|reflexivity].
Qed.

Lemma SystemInfo_eq (si si' : SystemInfo) :
  cache si = cache si' -> cacheTimeout si = cacheTimeout si' -> si = si'.
Proof. destruct si, si'; cbn; intros -> ->; reflexivity. Qed.

(** X12. Two sweeps amount to the later one, in whichever order they run;
    in particular a sweep repeated at the same time changes nothing. *)
Theorem sweeps_compose_to_the_later (si : SystemInfo) (now now' : Z)
    (Hlater : now <= now') :
  clearExpiredCache now' (clearExpiredCache now si) = clearExpiredCache now' si
  /\ clearExpiredCache now (clearExpiredCache now' si) = clearExpiredCache now' si.
Proof.
  split; apply SystemInfo_eq; try reflexivity; apply map_eq; intros key;
    rewrite !clearExpiredCache_lookup;
    change (cacheTimeout (clearExpiredCache now si)) with (cacheTimeout si);
    change (cacheTimeout (clearExpiredCache now' si)) with (cacheTimeout si);
    destruct (cache si !! key) as [entry|]; try reflexivity;
    destruct (Z.geb_spec (now - cached_at entry) (cacheTimeout si));
    destruct (Z.geb_spec (now' - cached_at entry) (cacheTimeout si));
    try reflexivity; try lia;
    destruct (Z.geb_spec (now - cached_at entry) (cacheTimeout si));
    try reflexivity; lia.
Qed.

(** ** Collectors and the cache *)

Lemma collect_miss (s : Source) (lookupAt storeAt : Z) (os : OsQueries)
    (si : SystemInfo) :
  fst (cacheLookup (cacheKey s) lookupAt si) = None ->
  collect s lookupAt storeAt os si
  = collectFresh s storeAt os (snd (cacheLookup (cacheKey s) lookupAt si)).
Proof.
  intros Hmiss. unfold collect.
  destruct (cacheLookup (cacheKey s) lookupAt si) as [[cached|] si'];
    [discriminate Hmiss|reflexivity].
Qed.

(** X13. A reading a collector has fetched is served from the cache to
    every call that reads the cache less than the timeout after the fetch:
    the same reading comes back whatever the operating system would answer
    then, and the cache is left as it is. *)
Theorem collect_serves_cached_reading (s : Source) (lookupAt storeAt : Z)
    (lookupAt2 storeAt2 : Z) (os os2 : OsQueries) (si : SystemInfo)
    (reading : Reading)
    (Hmiss : fst (cacheLookup (cacheKey s) lookupAt si) = None)
    (Hquery : queryResult s os = Some reading)
    (Hfresh : lookupAt2 - storeAt < cacheTimeout si) :
  let si1 := snd (collect s lookupAt storeAt os si) in
  fst (collect s lookupAt storeAt os si) = Fulfilled reading
  /\ collect s lookupAt2 storeAt2 os2 si1 = (Fulfilled reading, si1).
Proof.
  intros si1. subst si1. rewrite collect_miss by assumption.
  unfold collectFresh. rewrite Hquery. cbn [fst snd]. split; [reflexivity|].
  set (si' := snd (cacheLookup (cacheKey s) lookupAt si)).
  assert (Htimeout : cacheTimeout si' = cacheTimeout si)
    by apply cacheLookup_timeout.
  unfold collect.
  rewrite (cacheLookup_fresh (cacheKey s) lookupAt2
             (setCache (cacheKey s) reading storeAt si')
             {| data := reading; cached_at := storeAt |}).
  - reflexivity.
  - apply setCache_lookup.
  - cbn [cached_at]. rewrite setCache_timeout, Htimeout. exact Hfresh.
Qed.

(** X14. A failed fetch is not cached: after a collector has fallen back to
    its safe default, its next call queries the operating system again, at
    once, and returns and caches what it answers then. *)
Theorem collect_retries_after_failure (s : Source) (lookupAt storeAt : Z)
    (lookupAt2 storeAt2 : Z) (os os2 : OsQueries) (si : SystemInfo)
    (reading : Reading)
    (Hmiss : fst (cacheLookup (cacheKey s) lookupAt si) = None)
    (Hfail : queryFails s os = true)
    (Hquery2 : queryResult s os2 = Some reading) :
  let si1 := snd (collect s lookupAt storeAt os si) in
  fst (collect s lookupAt storeAt os si) = Fulfilled (safeDefault s)
  /\ cache si1 !! cacheKey s = None
  /\ fst (collect s lookupAt2 storeAt2 os2 si1) = Fulfilled reading
  /\ cache (snd (collect s lookupAt2 storeAt2 os2 si1)) !! cacheKey s
     = Some {| data := reading; cached_at := storeAt2 |}.
Proof.
  intros si1. subst si1. rewrite collect_miss by assumption.
  apply queryFails_spec in Hfail.
  unfold collectFresh at 1 2 3 4. rewrite Hfail. cbn [fst snd].
  set (si' := snd (cacheLookup (cacheKey s) lookupAt si)).
  assert (Hgone : cache si' !! cacheKey s = None).
  { subst si'. rewrite cacheLookup_same, Hmiss. reflexivity. }
  split; [reflexivity|]. split; [exact Hgone|].
  rewrite collect_miss by (rewrite cacheLookup_absent by assumption; reflexivity).
  rewrite cacheLookup_absent by assumption. cbn [snd].
  unfold collectFresh. rewrite Hquery2. cbn [fst snd].
  split; [reflexivity|apply setCache_lookup].
Qed.

(** ** The numeric pipeline of the collectors *)

Lemma Math_round_bounds (y : Q) :
  (y - (1 # 2) < inject_Z (Math_round y) /\ inject_Z (Math_round y) <= y + (1 # 2))%Q.
Proof.
  unfold Math_round.
  pose proof (Qfloor_le (y + (1 # 2))) as Hle.
  pose proof (Qlt_floor (y + (1 # 2))) as Hlt.
  rewrite inject_Z_plus in Hlt. change (inject_Z 1) with 1%Q in Hlt.
  split; lra.
Qed.

(** X15. The two-decimal rounding of the collectors returns a whole number
    of hundredths that is within half a hundredth of its argument. *)
Theorem round2_accuracy (x : Q) :
  (x - (1 # 200) < round2 x)%Q
  /\ (round2 x <= x + (1 # 200))%Q
  /\ (round2 x * 100 == inject_Z (Math_round (x * 100)))%Q.
Proof.
  unfold round2.
  destruct (Math_round_bounds (x * 100)) as [Hlo Hhi].
  set (z := inject_Z (Math_round (x * 100))) in *.
  assert (Hdiv : (z / 100 == z * (1 # 100))%Q) by field.
  rewrite !Hdiv. split; [lra|]. split; [lra|]. field.
Qed.

Lemma round2_percent (x : Q) :
  (0 <= x)%Q -> (x <= 100)%Q -> (0 <= round2 x)%Q /\ (round2 x <= 100)%Q.
Proof.
  intros Hlo Hhi. unfold round2, Math_round.
  assert (H0 : 0 <= Qfloor (x * 100 + (1 # 2))).
  { change 0 with (Qfloor 0). apply Qfloor_resp_le. lra. }
  assert (H1 : Qfloor (x * 100 + (1 # 2)) <= 10000).
  { change 10000 with (Qfloor (10000 + (1 # 2))). apply Qfloor_resp_le. lra. }
  rewrite Zle_Qle in H0, H1.
  set (z := inject_Z (Qfloor (x * 100 + (1 # 2)))) in *.
  change (inject_Z 0) with 0%Q in H0. change (inject_Z 10000) with 10000%Q in H1.
  assert (Hdiv : (z / 100 == z * (1 # 100))%Q) by field.
  rewrite !Hdiv. split; lra.
Qed.

(** X16. The memory usage percentage is between 0 and 100 whenever the
    operating system reports a positive total and a used amount between 0
    and the total. *)
Theorem memory_usagePercent_bounded (memInfo : RawMem)
    (Htotal : (0 < mem_total memInfo)%Q)
    (Hused : (0 <= mem_used memInfo)%Q)
    (Hfits : (mem_used memInfo <= mem_total memInfo)%Q) :
  (0 <= usagePercent (memoryResult memInfo))%Q
  /\ (usagePercent (memoryResult memInfo) <= 100)%Q.
Proof.
  unfold memoryResult. cbn [usagePercent].
  assert (Hlo : (0 <= mem_used memInfo / mem_total memInfo)%Q).
  { apply Qle_shift_div_l; [assumption|lra]. }
  assert (Hhi : (mem_used memInfo / mem_total memInfo <= 1)%Q).
  { apply Qle_shift_div_r; [assumption|lra]. }
  apply round2_percent; lra.
Qed.

Lemma coreUsageFrom_spec (l : list RawCore) : forall i,
  length (coreUsageFrom i l) = length l
  /\ map core (coreUsageFrom i l) = seq i (length l)
  /\ map load (coreUsageFrom i l) = map (fun c => round2 (core_load c)) l.
Proof.
  induction l as [|c l IH]; intros i; cbn.
  - auto.
  - destruct (IH (S i)) as (-> & -> & ->). auto.
Qed.

(** X17. In a CPU reading [cores] is the number of per-core entries, the
    entries are numbered 0, 1, 2, ... in the order the operating system
    lists the cores, and each load is the rounded load of that core. *)
Theorem cpu_cores_numbered (cpuLoad : RawLoad) (cpuInfo : RawCpu) :
  let result := cpuResult cpuLoad cpuInfo in
  cores result = length (coreUsage result)
  /\ map core (coreUsage result) = seq 0 (cores result)
  /\ map load (coreUsage result)
     = map (fun c => round2 (core_load c)) (cpus cpuLoad).
Proof.
  cbv zeta. unfold cpuResult. cbn [cores coreUsage].
  destruct (coreUsageFrom_spec (cpus cpuLoad) 0) as (-> & -> & ->). auto.
Qed.

(** ** Refresh cycles and the cache *)

Lemma updateDisplay_timeout (b : BeginClock) (r : ResumeClock) (os : OsQueries)
    (d : Dashboard) :
  cacheTimeout (systemInfo (snd (updateDisplay b r os d)))
  = cacheTimeout (systemInfo d).
Proof.
  rewrite updateDisplay_systemInfo. unfold clearExpiredCache.
  cbn [cacheTimeout withCache]. rewrite settleAll_timeout, lookupAll_timeout.
  reflexivity.
Qed.

Lemma sweepEntry_Some (now timeout : Z) (e : option CacheEntry) (entry : CacheEntry) :
  sweepEntry now timeout e = Some entry <->
  e = Some entry /\ now - cached_at entry < timeout.
Proof.
  unfold sweepEntry. destruct e as [entry'|].
  - destruct (Z.geb_spec (now - cached_at entry') timeout); split.
    + discriminate.
    + intros [[= ->] Hlt]. lia.
    + intros [= ->]. auto.
    + intros [[= ->] _]. reflexivity.
  - split; [discriminate|]. intros [[=] _].
Qed.

(** X18. After a refresh cycle every entry of the cache is younger than the
    timeout at the time of the cycle's sweep, and it is either an entry the
    cache held before or the reading one source's queries returned in this
    cycle, stored under that source's key. *)
Theorem cache_after_cycle_is_swept (b : BeginClock) (r : ResumeClock)
    (os : OsQueries) (d : Dashboard) (key : string) (entry : CacheEntry)
    (Hentry : cache (systemInfo (snd (updateDisplay b r os d))) !! key = Some entry) :
  sweepAt r - cached_at entry < cacheTimeout (systemInfo d)
  /\ (cache (systemInfo d) !! key = Some entry
      \/ exists x result,
           key = cacheKey x
           /\ queryResult x os = Some result
           /\ entry = {| data := result; cached_at := pick x (storeAt r) |}).
Proof.
  destruct (source_key_cases key) as [[x ->]|Hother].
  - rewrite updateDisplay_cache_source in Hentry.
    apply sweepEntry_Some in Hentry. destruct Hentry as [Hwhere Hyoung].
    split; [exact Hyoung|].
    destruct (servedFromCache x b (systemInfo d)); [left; exact Hwhere|].
    destruct (queryResult x os) as [result|] eqn:Hq; [|discriminate Hwhere].
    right. exists x, result. cbn in Hwhere. injection Hwhere as <-. auto.
  - rewrite updateDisplay_cache_other in Hentry by assumption.
    apply sweepEntry_Some in Hentry. destruct Hentry as [Hwhere Hyoung]. auto.
Qed.

(** X19. A refresh cycle repeats the reading a source got in the cycle
    before, without regard to what the operating system would answer now,
    when it reads the cache less than the timeout after that reading was
    stored (and the reading survived the sweep of the cycle before). *)
Theorem cycle_repeats_reading_within_timeout (d : Dashboard)
    (b1 b2 : BeginClock) (r1 r2 : ResumeClock) (os1 os2 : OsQueries)
    (x : Source) (reading : Reading)
    (Hmiss : servedFromCache x b1 (systemInfo d) = None)
    (Hquery : queryResult x os1 = Some reading)
    (Hswept : sweepAt r1 - pick x (storeAt r1) < cacheTimeout (systemInfo d))
    (Hsoon : pick x (lookupAt b2) - pick x (storeAt r1) < cacheTimeout (systemInfo d)) :
  let d1 := snd (updateDisplay b1 r1 os1 d) in
  fst (updateDisplay b1 r1 os1 d) !! resultIndex x = Some (Some reading)
  /\ fst (updateDisplay b2 r2 os2 d1) !! resultIndex x = Some (Some reading).
Proof.
  intros d1. rewrite !updateDisplay_result. unfold sourceReading.
  rewrite Hmiss. unfold settleReading at 1. rewrite Hquery.
  split; [reflexivity|].
  assert (Hcached : cache (systemInfo d1) !! cacheKey x
                    = Some {| data := reading; cached_at := pick x (storeAt r1) |}).
  { subst d1. rewrite updateDisplay_cache_source, Hmiss, Hquery. cbn.
    destruct (Z.geb_spec (sweepAt r1 - pick x (storeAt r1))
                (cacheTimeout (systemInfo d))); [lia|reflexivity]. }
  unfold servedFromCache.
  rewrite (cacheLookup_fresh _ _ _ _ Hcached).
  - reflexivity.
  - cbn [cached_at]. subst d1. rewrite updateDisplay_timeout. exact Hsoon.
Qed.

(** ** Validation *)

Lemma settleCollector_spec (s : Source) (r : ResumeClock) (os : OsQueries)
    (hit : option Reading) (si : SystemInfo) :
  settleCollector s r os hit si
  = (Fulfilled (settleReading s os hit), settleCache s r os hit si).
Proof.
  unfold settleCollector, settleCache. destruct hit as [reading|]; [reflexivity|].
  apply collectFresh_spec.
Qed.

(** X20. The validation of the system capabilities cannot fail: since no
    collector rejects, it reports all four capabilities whatever the
    operating system answers, also when every query fails, and never throws
    its "Insufficient system access" error. Its only effect is on the
    cache, which it fills like the start of a refresh cycle. *)
Theorem validateSystemCapabilities_always_passes (b : BeginClock)
    (r : ResumeClock) (os : OsQueries) (iso : string) (d : Dashboard) :
  fst (validateSystemCapabilities b r os iso d)
  = inl {| cap_cpu := true; cap_memory := true; cap_disk := true;
           cap_network := true |}
  /\ snd (validateSystemCapabilities b r os iso d)
     = setSystemInfo
         (settleAll r os (fst (lookupAll b (systemInfo d)))
            (snd (lookupAll b (systemInfo d))))
         d.
Proof.
  unfold validateSystemCapabilities.
  destruct (lookupAll b (systemInfo d)) as [hits s0]. cbn [fst snd].
  rewrite !settleCollector_spec. cbn. split; reflexivity.
Qed.

(** ** Performance statistics *)

Lemma running_average_rounded_bounds (d : Dashboard) (t : Z) :
  0 <= totalUpdates (performanceStats d) ->
  let n := totalUpdates (performanceStats d) + 1 in
  let sum := averageUpdateTime (performanceStats d) * (n - 1) + t in
  let q := averageUpdateTime (performanceStats (updatePerformanceStats t d)) in
  totalUpdates (performanceStats (updatePerformanceStats t d)) = n
  /\ 2 * q * n - n <= 2 * sum < 2 * q * n + n.
Proof.
  intros Hcount n sum q. subst q.
  assert (Hn : 0 < n) by (subst n; lia).
  pose proof (Math_round_div_nearest sum n Hn) as Hnear. cbv zeta in Hnear.
  split; [reflexivity|exact Hnear].
Qed.

Lemma updatePerformanceStats_between (lo hi t : Z) (d : Dashboard) :
  0 <= totalUpdates (performanceStats d) ->
  lo <= t <= hi ->
  (0 < totalUpdates (performanceStats d) ->
   lo <= averageUpdateTime (performanceStats d) <= hi) ->
  let p := performanceStats (updatePerformanceStats t d) in
  totalUpdates p = totalUpdates (performanceStats d) + 1
  /\ lo <= averageUpdateTime p <= hi.
Proof.
  intros Hcount Ht Havg p. subst p.
  destruct (running_average_rounded_bounds d t Hcount) as (Htotal & Hnear).
  split; [exact Htotal|].
  set (n := totalUpdates (performanceStats d) + 1) in *.
  set (a := averageUpdateTime (performanceStats d)) in *.
  set (q := averageUpdateTime (performanceStats (updatePerformanceStats t d))) in *.
  assert (Hn : 0 < n) by (subst n; lia).
  destruct (Z.eq_dec n 1) as [Hone|Hmore].
  - rewrite Hone in Hnear. lia.
  - assert (Ha : lo <= a <= hi) by (apply Havg; subst n; lia).
    assert (Hsum_lo : lo * n <= a * (n - 1) + t) by nia.
    assert (Hsum_hi : a * (n - 1) + t <= hi * n) by nia.
    split.
    + assert (2 * lo * n < (2 * q + 1) * n) by nia.
      assert (2 * lo < 2 * q + 1) by (apply (Z.mul_lt_mono_pos_r n); lia).
      lia.
    + assert ((2 * q - 1) * n <= 2 * hi * n) by nia.
      assert (2 * q - 1 <= 2 * hi) by (apply (Z.mul_le_mono_pos_r _ _ n); lia).
      lia.
Qed.

Lemma recordDurations_between (lo hi : Z) (ts : list Z) : forall d,
  0 <= totalUpdates (performanceStats d) ->
  (0 < totalUpdates (performanceStats d) ->
   lo <= averageUpdateTime (performanceStats d) <= hi) ->
  Forall (fun t => lo <= t <= hi) ts ->
  let p := performanceStats (recordDurations ts d) in
  totalUpdates p = totalUpdates (performanceStats d) + Z.of_nat (length ts)
  /\ (0 < totalUpdates p -> lo <= averageUpdateTime p <= hi).
Proof.
  induction ts as [|t ts IH]; intros d Hcount Havg Hall.
  - cbn. split; [lia|exact Havg].
  - inversion Hall as [|t' ts' Ht Hrest]; subst.
    destruct (updatePerformanceStats_between lo hi t d Hcount Ht Havg)
      as [Hone Hbetween].
    change (recordDurations (t :: ts) d)
      with (recordDurations ts (updatePerformanceStats t d)).
    destruct (IH (updatePerformanceStats t d)) as [Htotal Hafter].
    + rewrite Hone. lia.
    + intros _. exact Hbetween.
    + exact Hrest.
    + cbv zeta. rewrite Htotal, Hone in *. split; [cbn [length]; lia|].
      intros Hpos. apply Hafter. lia.
Qed.

(** X21. The performance statistics count the timed cycles, and the stored
    average update time never leaves the range of the durations it was
    computed from: if every duration lies between [lo] and [hi], so does the
    average, rounding included. *)
Theorem average_stays_between_extremes (d : Dashboard) (ts : list Z) (lo hi : Z)
    (Hfresh : totalUpdates (performanceStats d) = 0)
    (Hsome : ts <> [])
    (Hrange : Forall (fun t => lo <= t <= hi) ts) :
  let p := performanceStats (recordDurations ts d) in
  totalUpdates p = Z.of_nat (length ts)
  /\ lo <= averageUpdateTime p <= hi.
Proof.
  intros p.
  destruct (recordDurations_between lo hi ts d) as [Htotal Hbetween].
  - lia.
  - lia.
  - exact Hrange.
  - fold p in Htotal, Hbetween. rewrite Hfresh in Htotal.
    split; [lia|]. apply Hbetween.
    destruct ts; [contradiction|]. cbn [length] in Htotal. lia.
Qed.

(** ** The reduced update loop *)

Lemma completeCycle_reduced (c : Cycle) (r : ResumeClock) (os : OsQueries)
    (d : Dashboard) :
  continuation c = ReducedTick ->
  control (completeCycle c r os d) = control d.
Proof.
  intros Hk. unfold completeCycle.
  destruct (updateDisplayResume (started c) r os (served c) d) as [res d1] eqn:H.
  rewrite Hk. cbn [resumeCaller].
  change d1 with (snd (res, d1)). rewrite <- H. apply updateDisplayResume_control.
Qed.

Lemma completeCycle_timed (c : Cycle) (r : ResumeClock) (os : OsQueries)
    (d : Dashboard) (tickAt : Z) :
  continuation c = TimedTick tickAt ->
  totalUpdates (performanceStats (completeCycle c r os d))
  = totalUpdates (performanceStats d) + 1.
Proof.
  intros Hk. unfold completeCycle.
  destruct (updateDisplayResume (started c) r os (served c) d) as [res d1] eqn:H.
  rewrite Hk. cbn [resumeCaller]. unfold updatePerformanceStats.
  cbn [performanceStats setPerformanceStats totalUpdates].
  pose proof (updateDisplayResume_control (started c) r os (served c) d) as Hc.
  rewrite H in Hc. cbn [snd] in Hc. unfold control in Hc.
  injection Hc as _ _ _ _ _ _ -> _ _ _. reflexivity.
Qed.

(** X22. Once the timer has been replaced by the reduced one, the periodic
    cycles no longer reach the performance statistics: a tick of the reduced
    timer leaves them as they are, the cycle it puts in flight leaves them
    as they are when it completes, while a cycle of the original update loop
    counts one more update when it completes. *)
Theorem reduced_loop_freezes_performanceStats (rt : Runtime) (tickAt : Z)
    (b : BeginClock) (r : ResumeClock) (timer : Timer)
    (Harmed : updateInterval (dashboard rt) = Some timer)
    (Hreduced : callback timer = ReducedLoop) :
  let rt' := step rt (TimerFires tickAt b r) in
  performanceStats (dashboard rt') = performanceStats (dashboard rt)
  /\ (inFlight rt' = inFlight rt
      \/ exists c, inFlight rt' = inFlight rt ++ [c] /\ continuation c = ReducedTick)
  /\ (forall c r' os d,
        continuation c = ReducedTick ->
        performanceStats (completeCycle c r' os d) = performanceStats d)
  /\ (forall c r' os d t,
        continuation c = TimedTick t ->
        totalUpdates (performanceStats (completeCycle c r' os d))
        = totalUpdates (performanceStats d) + 1).
Proof.
  intros rt'. subst rt'. cbn [step]. unfold timerCallback.
  rewrite Harmed, Hreduced.
  assert (Hlater : forall c r' os d,
            continuation c = ReducedTick ->
            performanceStats (completeCycle c r' os d) = performanceStats d).
  { intros c r' os d Hk. pose proof (completeCycle_reduced c r' os d Hk) as Hc.
    unfold control in Hc. injection Hc as _ _ _ _ _ _ -> _ _ _. reflexivity. }
  destruct (isRunning (dashboard rt)).
  - split; [|split; [|split]].
    + unfold launchCycle.
      destruct (updateDisplayBegin b (dashboard rt)) as [hits d1] eqn:Hbegin.
      pose proof (updateDisplayBegin_control b (dashboard rt)) as Hc.
      rewrite Hbegin in Hc. cbn [snd] in Hc.
      assert (Hperf : performanceStats d1 = performanceStats (dashboard rt)).
      { unfold control in Hc. injection Hc as _ _ _ _ _ _ -> _ _ _. reflexivity. }
      destruct (allServed hits); cbn [dashboard].
      * rewrite Hlater by reflexivity. exact Hperf.
      * exact Hperf.
    + rewrite launchCycle_inFlight.
      destruct (allServed (fst (lookupAll b (systemInfo (dashboard rt)))));
        [left; reflexivity|right; eexists; split; reflexivity].
    + exact Hlater.
    + intros c r' os d t Hk. apply (completeCycle_timed c r' os d t Hk).
  - split; [reflexivity|]. split; [left; reflexivity|]. split; [exact Hlater|].
    intros c r' os d t Hk. apply (completeCycle_timed c r' os d t Hk).
Qed.

(** ** Forced refresh *)

Lemma lookupAll_empty (b : BeginClock) (si : SystemInfo) :
  cache si = ∅ ->
  lookupAll b si
  = ({| forCPU := None; forMemory := None; forDisk := None; forNetwork := None |}, si).
Proof.
  intros Hempty. unfold lookupAll.
  rewrite !cacheLookup_absent by (rewrite Hempty; apply lookup_empty).
  reflexivity.
Qed.

(** X23. The refresh key bypasses the cache: it empties the cache and starts
    a cycle in which no source is served from the cache, however fresh the
    entries were, so that when the cycle completes every source shows what
    its queries returned, or its safe default when they failed. *)
Theorem refresh_bypasses_cache (rt : Runtime) (b : BeginClock) (r : ResumeClock)
    (Hready : eventHandler (dashboard rt) = true) :
  let rt' := step rt (RefreshKey b r) in
  cache (systemInfo (dashboard rt')) = ∅
  /\ exists c,
       inFlight rt' = inFlight rt ++ [c]
       /\ continuation c = Refresh
       /\ served c
          = {| forCPU := None; forMemory := None; forDisk := None; forNetwork := None |}
       /\ forall r' os d x,
            fst (updateDisplayResume (started c) r' os (served c) d) !! resultIndex x
            = Some (Some match queryResult x os with
                         | Some result => result
                         | None => safeDefault x
                         end).
Proof.
  intros rt'. subst rt'. cbn [step]. unfold handleRefresh. rewrite Hready.
  unfold launchCycle. rewrite updateDisplayBegin_spec. cbn [dashboard inFlight].
  cbn [systemInfo setSystemInfo].
  rewrite (lookupAll_empty b (clearCache (systemInfo (notify _ (dashboard rt)))))
    by reflexivity.
  cbn [fst snd allServed wasServed forCPU forMemory forDisk forNetwork andb dashboard
       inFlight systemInfo setSystemInfo].
  split; [reflexivity|].
  eexists. split; [reflexivity|]. split; [reflexivity|]. split; [reflexivity|].
  intros r' os d x. cbn [started served].
  rewrite updateDisplayResume_spec. cbn [fst].
  destruct x; reflexivity.
Qed.

(** ** Export *)

Lemma collect_spec (x : Source) (b : BeginClock) (r : ResumeClock)
    (os : OsQueries) (si : SystemInfo) :
  collect x (pick x (lookupAt b)) (pick x (storeAt r)) os si
  = (Fulfilled (sourceReading x b os si), collectCache x b r os si).
Proof.
  unfold collect, sourceReading, collectCache, servedFromCache, settleCache.
  destruct (cacheLookup (cacheKey x) (pick x (lookupAt b)) si) as [[cached|] si'];
    cbn [fst snd]; [reflexivity|].
  rewrite collectFresh_spec. reflexivity.
Qed.

Lemma collectCache_timeout (x : Source) (b : BeginClock) (r : ResumeClock)
    (os : OsQueries) (si : SystemInfo) :
  cacheTimeout (collectCache x b r os si) = cacheTimeout si.
Proof.
  unfold collectCache. rewrite settleCache_timeout. apply cacheLookup_timeout.
Qed.

Lemma collectCache_other (x : Source) (b : BeginClock) (r : ResumeClock)
    (os : OsQueries) (si : SystemInfo) (key : string) :
  key <> cacheKey x ->
  cache (collectCache x b r os si) !! key = cache si !! key.
Proof.
  intros Hne. unfold collectCache.
  rewrite settleCache_other by assumption.
  apply cacheLookup_other. congruence.
Qed.

Lemma collectCache_same (x : Source) (b : BeginClock) (r : ResumeClock)
    (os : OsQueries) (si : SystemInfo) :
  cache (collectCache x b r os si) !! cacheKey x
  = match servedFromCache x b si with
    | Some _ => cache si !! cacheKey x
    | None =>
        match queryResult x os with
        | Some result => Some {| data := result; cached_at := pick x (storeAt r) |}
        | None => None
        end
    end.
Proof.
  unfold collectCache. rewrite settleCache_same, cacheLookup_same.
  fold (servedFromCache x b si).
  destruct (servedFromCache x b si); [reflexivity|].
  destruct (queryResult x os); reflexivity.
Qed.

(** What a source reads depends on the entry under its key and on the
    timeout only. *)
Lemma sourceReading_ext (x : Source) (b : BeginClock) (os : OsQueries)
    (si si' : SystemInfo) :
  cache si !! cacheKey x = cache si' !! cacheKey x ->
  cacheTimeout si = cacheTimeout si' ->
  sourceReading x b os si = sourceReading x b os si'
  /\ servedFromCache x b si = servedFromCache x b si'.
Proof.
  intros Hk Ht. unfold sourceReading, servedFromCache.
  rewrite (cacheLookup_fst_ext _ _ si si' Hk Ht). split; reflexivity.
Qed.

Lemma collectCache_same_ext (x : Source) (b : BeginClock) (r : ResumeClock)
    (os : OsQueries) (s si : SystemInfo) :
  cache s !! cacheKey x = cache si !! cacheKey x ->
  cacheTimeout s = cacheTimeout si ->
  cache (collectCache x b r os s) !! cacheKey x
  = match servedFromCache x b si with
    | Some _ => cache si !! cacheKey x
    | None =>
        match queryResult x os with
        | Some result => Some {| data := result; cached_at := pick x (storeAt r) |}
        | None => None
        end
    end.
Proof.
  intros Hk Ht. rewrite collectCache_same.
  destruct (sourceReading_ext x b os s si Hk Ht) as [_ Hserved].
  rewrite Hserved, Hk. reflexivity.
Qed.

(** The four collectors run one after the other leave the cache the four
    run together leave. *)
Lemma collect_in_turn_cache (b : BeginClock) (r : ResumeClock) (os : OsQueries)
    (si : SystemInfo) :
  collectCache Network b r os
    (collectCache Disk b r os (collectCache Memory b r os (collectCache CPU b r os si)))
  = settleAll r os (fst (lookupAll b si)) (snd (lookupAll b si)).
Proof.
  apply SystemInfo_eq.
  - apply map_eq. intros key.
    destruct (source_key_cases key) as [[x ->]|Hother].
    + rewrite settleAll_cache_source, lookupAll_served, lookupAll_cache_source.
      destruct x;
        rewrite ?collectCache_other by (cbn; discriminate);
        rewrite (collectCache_same_ext _ b r os _ si)
          by (rewrite ?collectCache_other, ?collectCache_timeout by (cbn; discriminate);
              reflexivity);
        destruct (servedFromCache _ b si); try reflexivity;
        destruct (queryResult _ os); reflexivity.
    + rewrite settleAll_cache_other, lookupAll_cache_other by assumption.
      rewrite !collectCache_other by apply Hother. reflexivity.
  - rewrite !collectCache_timeout, settleAll_timeout, lookupAll_timeout. reflexivity.
Qed.

(** X24. Exporting never fails, and it collects by the same rules as a
    refresh cycle: awaited one after the other, the four collectors return
    the readings a cycle with the same clock readings and query outcomes
    shows, and leave the cache as that cycle leaves it before its sweep. *)
Theorem export_collects_like_a_cycle (b : BeginClock) (r : ResumeClock)
    (os : OsQueries) (iso : string) (exportedAt : Z) (d : Dashboard) :
  fst (handleExportData b r os iso exportedAt d)
  = Some {| export_timestamp := iso;
            export_cpu := sourceReading CPU b os (systemInfo d);
            export_memory := sourceReading Memory b os (systemInfo d);
            export_disk := sourceReading Disk b os (systemInfo d);
            export_network := sourceReading Network b os (systemInfo d) |}
  /\ map Some [sourceReading CPU b os (systemInfo d);
               sourceReading Memory b os (systemInfo d);
               sourceReading Disk b os (systemInfo d);
               sourceReading Network b os (systemInfo d)]
     = fst (updateDisplay b r os d)
  /\ systemInfo (snd (handleExportData b r os iso exportedAt d))
     = settleAll r os (fst (lookupAll b (systemInfo d)))
         (snd (lookupAll b (systemInfo d)))
  /\ systemInfo (snd (updateDisplay b r os d))
     = clearExpiredCache (sweepAt r)
         (systemInfo (snd (handleExportData b r os iso exportedAt d))).
Proof.
  assert (Hrun :
    handleExportData b r os iso exportedAt d
    = (Some {| export_timestamp := iso;
               export_cpu := sourceReading CPU b os (systemInfo d);
               export_memory := sourceReading Memory b os (systemInfo d);
               export_disk := sourceReading Disk b os (systemInfo d);
               export_network := sourceReading Network b os (systemInfo d) |},
       showStatusMessage
         ("Data exported to " +:+ ("system-data-" +:+ pretty exportedAt +:+ ".json"))
         "success" 3000
         (setSystemInfo
            (settleAll r os (fst (lookupAll b (systemInfo d)))
               (snd (lookupAll b (systemInfo d))))
            (showStatusMessage "Exporting data..." "info" 0 d)))).
  { unfold handleExportData.
    change (systemInfo (showStatusMessage "Exporting data..." "info" 0 d))
      with (systemInfo d).
    set (s1 := collectCache CPU b r os (systemInfo d)).
    set (s2 := collectCache Memory b r os s1).
    set (s3 := collectCache Disk b r os s2).
    pose proof (collect_spec CPU b r os (systemInfo d)) as H1.
    pose proof (collect_spec Memory b r os s1) as H2.
    pose proof (collect_spec Disk b r os s2) as H3.
    pose proof (collect_spec Network b r os s3) as H4.
    cbn [pick] in H1, H2, H3, H4. fold s1 in H1. fold s2 in H2. fold s3 in H3.
    rewrite H1. cbv beta iota. rewrite H2. cbv beta iota.
    rewrite H3. cbv beta iota. rewrite H4. cbv beta iota.
    subst s3 s2 s1. rewrite collect_in_turn_cache.
    set (s1 := collectCache CPU b r os (systemInfo d)).
    set (s2 := collectCache Memory b r os s1).
    set (s3 := collectCache Disk b r os s2).
    destruct (sourceReading_ext Memory b os s1 (systemInfo d)) as [-> _];
      [subst s1; rewrite collectCache_other by (cbn; discriminate); reflexivity
      |subst s1; rewrite collectCache_timeout; reflexivity|].
    destruct (sourceReading_ext Disk b os s2 (systemInfo d)) as [-> _];
      [subst s2 s1; rewrite !collectCache_other by (cbn; discriminate); reflexivity
      |subst s2 s1; rewrite !collectCache_timeout; reflexivity|].
    destruct (sourceReading_ext Network b os s3 (systemInfo d)) as [-> _];
      [subst s3 s2 s1; rewrite !collectCache_other by (cbn; discriminate); reflexivity
      |subst s3 s2 s1; rewrite !collectCache_timeout; reflexivity|].
    reflexivity. }
  rewrite Hrun. cbn [fst snd].
  split; [reflexivity|]. split; [rewrite updateDisplay_results; reflexivity|].
  split; [reflexivity|].
  rewrite updateDisplay_systemInfo. reflexivity.
Qed.

(** ** The logger *)

Lemma flush_spec (lg : Logger) :
  logBuffer (flush lg) = []
  /\ currentLevel (flush lg) = currentLevel lg
  /\ bufferSize (flush lg) = bufferSize lg
  /\ concat (handedOver (flush lg)) = concat (handedOver lg) ++ logBuffer lg.
Proof.
  unfold flush. destruct (logBuffer lg) as [|x l] eqn:H; cbn [logBuffer currentLevel
    bufferSize handedOver].
  - rewrite H, app_nil_r. auto.
  - rewrite concat_app. cbn. rewrite app_nil_r. auto.
Qed.

Lemma log_rejected (level : LogLevel) (message meta iso : string) (pid : Z)
    (lg : Logger) :
  shouldLog level lg = false -> log level message meta iso pid lg = lg.
Proof. intros H. unfold log. rewrite H. reflexivity. Qed.

Lemma log_accepted (level : LogLevel) (message meta iso : string) (pid : Z)
    (lg : Logger) :
  shouldLog level lg = true ->
  let line := {| line_timestamp := iso; line_level := level;
                 line_message := message; line_meta := meta; line_pid := pid |} in
  log level message meta iso pid lg
  = if isErrorLevel level || (bufferSize lg <=? length (logBuffer lg) + 1)%nat
    then {| currentLevel := currentLevel lg; logBuffer := [];
            bufferSize := bufferSize lg;
            handedOver := handedOver lg ++ [logBuffer lg ++ [line]] |}
    else {| currentLevel := currentLevel lg; logBuffer := logBuffer lg ++ [line];
            bufferSize := bufferSize lg; handedOver := handedOver lg |}.
Proof.
  intros H line. unfold log. rewrite H. cbn [negb bufferSize logBuffer].
  fold line. rewrite length_app. cbn [length].
  destruct (isErrorLevel level || (bufferSize lg <=? length (logBuffer lg) + 1)%nat);
    [|reflexivity].
  unfold flush. cbn [logBuffer currentLevel bufferSize handedOver].
  destruct (logBuffer lg ++ [line]) as [|x l] eqn:Hb; [|reflexivity].
  destruct (logBuffer lg); discriminate Hb.
Qed.

Lemma loggerStep_level (lg : Logger) (c : LoggerCall) :
  currentLevel (loggerStep lg c) = currentLevel lg
  /\ bufferSize (loggerStep lg c) = bufferSize lg.
Proof.
  destruct c as [level message meta iso pid|]; cbn [loggerStep].
  - destruct (shouldLog level lg) eqn:Hs.
    + rewrite log_accepted by assumption.
      destruct (isErrorLevel level || (bufferSize lg <=? length (logBuffer lg) + 1)%nat);
        auto.
    + rewrite log_rejected by assumption. auto.
  - destruct (flush_spec lg) as (_ & -> & -> & _). auto.
Qed.

Lemma loggerStep_conserves (lg : Logger) (c : LoggerCall) :
  concat (handedOver (loggerStep lg c)) ++ logBuffer (loggerStep lg c)
  = (concat (handedOver lg) ++ logBuffer lg) ++ acceptedLines lg [c].
Proof.
  destruct c as [level message meta iso pid|]; unfold acceptedLines;
    cbn [loggerStep omap list_omap].
  - destruct (shouldLog level lg) eqn:Hs.
    + rewrite log_accepted by assumption.
      destruct (isErrorLevel level || (bufferSize lg <=? length (logBuffer lg) + 1)%nat);
        cbn [handedOver logBuffer].
      * rewrite concat_app. cbn. rewrite !app_nil_r, app_assoc. reflexivity.
      * rewrite app_assoc. reflexivity.
    + rewrite log_rejected by assumption. rewrite app_nil_r. reflexivity.
  - destruct (flush_spec lg) as (-> & _ & _ & ->). rewrite !app_nil_r. reflexivity.
Qed.

Lemma acceptedLines_level (lg lg' : Logger) (cs : list LoggerCall) :
  currentLevel lg' = currentLevel lg -> acceptedLines lg' cs = acceptedLines lg cs.
Proof.
  intros Hlevel. unfold acceptedLines. f_equal.
  unfold shouldLog. rewrite Hlevel. reflexivity.
Qed.

(** X25. The logger loses, repeats or reorders no line: whatever calls of
    [log] and [flush] are made, the batches handed to the file followed by
    what is still buffered are the lines that were there before followed by
    the accepted lines, in the order of the calls. *)
Theorem logger_conserves_lines (cs : list LoggerCall) (lg : Logger) :
  concat (handedOver (loggerRun cs lg)) ++ logBuffer (loggerRun cs lg)
  = concat (handedOver lg) ++ logBuffer lg ++ acceptedLines lg cs.
Proof.
  revert lg. induction cs as [|c cs IH]; intros lg.
  - cbn. rewrite app_nil_r. reflexivity.
  - change (loggerRun (c :: cs) lg) with (loggerRun cs (loggerStep lg c)).
    rewrite IH, app_assoc, loggerStep_conserves.
    rewrite (acceptedLines_level lg (loggerStep lg c)) by apply loggerStep_level.
    change (c :: cs) with ([c] ++ cs).
    unfold acceptedLines at 3. rewrite omap_app. fold (acceptedLines lg [c]).
    fold (acceptedLines lg cs). rewrite <- !app_assoc. reflexivity.
Qed.

Lemma loggerStep_bounded (lg : Logger) (c : LoggerCall) :
  (length (logBuffer lg) < bufferSize lg)%nat ->
  Forall (fun batch => (0 < length batch <= bufferSize lg)%nat) (handedOver lg) ->
  (length (logBuffer (loggerStep lg c)) < bufferSize lg)%nat
  /\ Forall (fun batch => (0 < length batch <= bufferSize lg)%nat)
       (handedOver (loggerStep lg c)).
Proof.
  intros Hbuf Hbatches.
  destruct c as [level message meta iso pid|]; cbn [loggerStep].
  - destruct (shouldLog level lg) eqn:Hs.
    + rewrite log_accepted by assumption.
      destruct (isErrorLevel level) eqn:Herr; cbn [orb].
      * cbn [logBuffer handedOver length]. split; [lia|].
        apply Forall_app. split; [exact Hbatches|].
        constructor; [|constructor]. rewrite length_app. cbn. lia.
      * destruct (Nat.leb_spec (bufferSize lg) (length (logBuffer lg) + 1))
          as [Hfull|Hroom]; cbn [logBuffer handedOver length].
        -- split; [lia|]. apply Forall_app. split; [exact Hbatches|].
           constructor; [|constructor]. rewrite length_app. cbn. lia.
        -- rewrite length_app. cbn. split; [lia|exact Hbatches].
    + rewrite log_rejected by assumption. auto.
  - unfold flush. destruct (logBuffer lg) as [|x l] eqn:Hb.
    + rewrite Hb. cbn. split; [lia|exact Hbatches].
    + cbn [logBuffer handedOver length]. split; [lia|].
      apply Forall_app. split; [exact Hbatches|].
      constructor; [|constructor]. cbn [length] in *. lia.
Qed.

(** X26. The log buffer never fills up: after every call it holds fewer
    lines than [bufferSize], and every batch handed to the file holds at
    least one line and at most [bufferSize] lines. *)
Theorem logger_buffer_bounded (cs : list LoggerCall) (lg : Logger)
    (Hbuffer : (length (logBuffer lg) < bufferSize lg)%nat)
    (Hbatches :
       Forall (fun batch => (0 < length batch <= bufferSize lg)%nat) (handedOver lg)) :
  (length (logBuffer (loggerRun cs lg)) < bufferSize lg)%nat
  /\ Forall (fun batch => (0 < length batch <= bufferSize lg)%nat)
       (handedOver (loggerRun cs lg)).
Proof.
  revert lg Hbuffer Hbatches. induction cs as [|c cs IH]; intros lg Hbuffer Hbatches.
  - auto.
  - change (loggerRun (c :: cs) lg) with (loggerRun cs (loggerStep lg c)).
    destruct (loggerStep_bounded lg c Hbuffer Hbatches) as [Hb Hh].
    destruct (loggerStep_level lg c) as [_ Hsize].
    rewrite <- Hsize in Hb, Hh |- *.
    apply IH; assumption.
Qed.

(** X27. A line of level error is never left in the buffer: its [log] call
    hands it to the file at once, in one batch with everything that was
    buffered before it. *)
Theorem error_line_is_flushed_at_once (message meta iso : string) (pid : Z)
    (lg : Logger) :
  let line := {| line_timestamp := iso; line_level := LevelError;
                 line_message := message; line_meta := meta; line_pid := pid |} in
  let lg' := log LevelError message meta iso pid lg in
  logBuffer lg' = []
  /\ handedOver lg' = handedOver lg ++ [logBuffer lg ++ [line]].
Proof.
  intros line lg'. subst lg'.
  assert (Hshould : shouldLog LevelError lg = true).
  { unfold shouldLog. destruct (currentLevel lg); reflexivity. }
  rewrite log_accepted by assumption. cbn [isErrorLevel orb]. split; reflexivity.
Qed.

(** ** Formatting *)

Lemma find_first {A : Type} (f : A -> bool) (l : list A) (x : A) :
  List.find f l = Some x ->
  f x = true
  /\ exists before after,
       l = before ++ x :: after /\ forallb (fun y => negb (f y)) before = true.
Proof.
  induction l as [|y l IH]; cbn; [discriminate|].
  destruct (f y) eqn:Hy.
  - intros [= ->]. split; [exact Hy|]. exists [], l. auto.
  - intros Hfind. destruct (IH Hfind) as (Hx & before & after & -> & Hall).
    split; [exact Hx|]. exists (y :: before), after. cbn. rewrite Hy, Hall. auto.
Qed.

Lemma find_none_all {A : Type} (f : A -> bool) (l : list A) :
  List.find f l = None -> forallb (fun y => negb (f y)) l = true.
Proof.
  induction l as [|y l IH]; cbn; [reflexivity|].
  destruct (f y); [discriminate|]. exact IH.
Qed.

(** X28. The network widget shows the first interface that has a nonzero
    receive or transmit rate; when every interface is idle it shows the
    first interface of the list. *)
Theorem activeInterface_selection (networkInfo : list NetworkInfo)
    (Hsome : networkInfo <> []) :
  exists net,
    activeInterface networkInfo = Some net
    /\ ((isActive net = true
         /\ exists before after,
              networkInfo = before ++ net :: after
              /\ forallb (fun other => negb (isActive other)) before = true)
        \/ (forallb (fun other => negb (isActive other)) networkInfo = true
            /\ head networkInfo = Some net)).
Proof.
  unfold activeInterface.
  destruct (List.find isActive networkInfo) as [net|] eqn:Hfind.
  - exists net. split; [reflexivity|]. left. apply find_first. exact Hfind.
  - destruct networkInfo as [|first rest]; [contradiction|].
    exists first. split; [reflexivity|]. right.
    split; [apply find_none_all; exact Hfind|reflexivity].
Qed.

Lemma clampPercent_bounds (x : Q) :
  (0 <= clampPercent x)%Q /\ (clampPercent x <= 100)%Q.
Proof.
  unfold clampPercent, Math_min, Math_max.
  destruct (0 ?= x)%Q eqn:H0.
  - apply Qeq_alt in H0.
    destruct (100 ?= 0)%Q eqn:H1; try discriminate H1; split; lra.
  - apply Qlt_alt in H0.
    destruct (100 ?= x)%Q eqn:H1.
    + apply Qeq_alt in H1. split; lra.
    + split; lra.
    + apply Qgt_alt in H1. split; lra.
  - apply Qgt_alt in H0.
    destruct (100 ?= 0)%Q eqn:H1; try discriminate H1; split; lra.
Qed.

Lemma filled_cells_bounds (percentage : Q) (width : Z) :
  (0 <= percentage)%Q -> (percentage <= 100)%Q -> 0 <= width ->
  0 <= Math_round (percentage / 100 * inject_Z width) <= width.
Proof.
  intros Hlo Hhi Hwidth.
  set (u := (percentage / 100)%Q).
  assert (Hu : (u == percentage * (1 # 100))%Q) by (subst u; field).
  assert (Hu0 : (0 <= u)%Q) by (rewrite Hu; lra).
  assert (Hu1 : (u <= 1)%Q) by (rewrite Hu; lra).
  assert (Hw : (0 <= inject_Z width)%Q).
  { change 0%Q with (inject_Z 0). rewrite <- Zle_Qle. exact Hwidth. }
  assert (Hy0 : (0 <= u * inject_Z width)%Q) by (apply Qmult_le_0_compat; assumption).
  assert (Hy1 : (u * inject_Z width <= inject_Z width)%Q).
  { rewrite <- (Qmult_1_l (inject_Z width)) at 2.
    apply Qmult_le_compat_r; assumption. }
  destruct (Math_round_bounds (u * inject_Z width)) as [Hb0 Hb1].
  split.
  - assert (H : (inject_Z (-1) < inject_Z (Math_round (u * inject_Z width)))%Q).
    { change (inject_Z (-1)) with (-1)%Q. lra. }
    rewrite <- Zlt_Qlt in H. lia.
  - assert (H : (inject_Z (Math_round (u * inject_Z width)) < inject_Z (width + 1))%Q).
    { rewrite inject_Z_plus. change (inject_Z 1) with 1%Q. lra. }
    rewrite <- Zlt_Qlt in H. lia.
Qed.

(** X29. For a width that is not negative [createProgressBar] never throws
    and draws exactly [width] cells: the filled cells, between 0 and [width]
    of them, followed by the empty ones, whatever the value is, the
    percentage being cut to the range from 0 to 100 first. *)
Theorem createProgressBar_draws_width_cells (theme : Theme) (value max : Q)
    (width : Z)
    (Hmax : ~ (max == 0)%Q)
    (Hwidth : 0 <= width) :
  let percentage := clampPercent (value / max * 100) in
  let filled := Math_round (percentage / 100 * inject_Z width) in
  (0 <= percentage)%Q /\ (percentage <= 100)%Q
  /\ 0 <= filled <= width
  /\ createProgressBar theme value max width
     = Some ("{" +:+ barColor theme percentage +:+ "-fg}"
             +:+ String.concat "" (replicate (Z.to_nat filled) "█")
             +:+ String.concat "" (replicate (Z.to_nat (width - filled)) "░")
             +:+ "{/" +:+ barColor theme percentage +:+ "-fg} "
             +:+ toFixed1 percentage +:+ "%")
  /\ (Z.to_nat filled + Z.to_nat (width - filled))%nat = Z.to_nat width.
Proof.
  intros percentage filled.
  destruct (clampPercent_bounds (value / max * 100)) as [Hlo Hhi].
  fold percentage in Hlo, Hhi.
  pose proof (filled_cells_bounds percentage width Hlo Hhi Hwidth) as Hfilled.
  fold filled in Hfilled.
  split; [exact Hlo|]. split; [exact Hhi|]. split; [exact Hfilled|].
  split; [|lia].
  unfold createProgressBar. fold percentage. fold filled. unfold repeatString.
  destruct (Z.ltb_spec filled 0); [lia|].
  destruct (Z.ltb_spec (width - filled) 0); [lia|].
  reflexivity.
Qed.

(** X30. The "Top Cores" of the CPU widget are the first three cores in the
    order of the operating system, cores 0, 1 and 2, or all of them when
    there are fewer, not the three busiest. *)
Theorem topCores_are_the_first_three (cpuLoad : RawLoad) (cpuInfo : RawCpu) :
  map core (topCores (cpuResult cpuLoad cpuInfo))
  = seq 0 (Nat.min 3 (length (cpus cpuLoad)))
  /\ map load (topCores (cpuResult cpuLoad cpuInfo))
     = map (fun c => round2 (core_load c)) (take 3 (cpus cpuLoad)).
Proof.
  unfold topCores, cpuResult. cbn [coreUsage].
  destruct (coreUsageFrom_spec (cpus cpuLoad) 0) as (_ & Hidx & Hload).
  split.
  - rewrite <- firstn_map, Hidx. apply take_seq.
  - rewrite <- firstn_map, Hload. apply firstn_map.
Qed.

(** * The further properties on concrete runs *)

(** X3 on six reports handled by a new dashboard. *)
Lemma getErrorStats_after_six_reports :
  (5 <= length sixReports)%nat
  /\ stats_totalErrors (getErrorStats (errorHandler (handleErrors sixReports (newDashboard 0))))
     = 6%nat
  /\ stats_recentErrors (getErrorStats (errorHandler (handleErrors sixReports (newDashboard 0))))
     = reportEntries [ioReport; parseReport; lowReport; parseReport; ioReport].
Proof.
  assert (Hbound : (length (errorLog (errorHandler (newDashboard 0)))
                    <= maxLogSize (errorHandler (newDashboard 0)))%nat) by (cbn; lia).
  assert (Hroom : (5 <= maxLogSize (errorHandler (newDashboard 0)))%nat) by (cbn; lia).
  assert (Hmany : (5 <= length sixReports)%nat) by (cbn; lia).
  pose proof (getErrorStats_after_errors sixReports (newDashboard 0) Hbound Hroom Hmany)
    as H.
  cbv zeta in H. destruct H as [Htotal Hrecent].
  split; [exact Hmany|]. split; [rewrite Htotal; reflexivity|].
  rewrite Hrecent. reflexivity.
Defined.

(** X4 on a parse error handled by a new dashboard. *)
Lemma handled_parse_error_is_newest_entry :
  (0 < maxLogSize (errorHandler (newDashboard 0)))%nat
  /\ last (errorLog (errorHandler
       (snd (handleError (Plain parseError) "" "2024-01-01T00:00:04.000Z"
               (newDashboard 0)))))
     = Some (toLogEntry (normalized parseReport) "2024-01-01T00:00:04.000Z").
Proof.
  assert (Hroom : (0 < maxLogSize (errorHandler (newDashboard 0)))%nat) by (cbn; lia).
  split; [exact Hroom|].
  apply (handled_error_is_newest_entry (newDashboard 0) (Plain parseError) ""
           "2024-01-01T00:00:04.000Z" Hroom).
Defined.

(** X8 on a LOW error reported to the running dashboard. *)
Lemma low_error_changes_no_engine_state :
  severity (normalized lowReport) = LOW
  /\ systemInfo (snd (handleError (reported lowReport) "" "2024-01-01T00:00:02.000Z"
                        (dashboard started_up)))
     = systemInfo (dashboard started_up)
  /\ updateInterval (snd (handleError (reported lowReport) ""
                            "2024-01-01T00:00:02.000Z" (dashboard started_up)))
     = updateInterval (dashboard started_up).
Proof.
  assert (Hlow : severity (normalizeError (reported lowReport) ""
                             "2024-01-01T00:00:02.000Z") = LOW) by reflexivity.
  pose proof (minor_error_changes_no_engine_state (dashboard started_up)
                (reported lowReport) "" "2024-01-01T00:00:02.000Z" (or_introl Hlow)) as H.
  cbv zeta in H. destruct H as (Hsi & Hint & _).
  split; [reflexivity|]. split; assumption.
Defined.

(** X9 on a failed system call reported to the running dashboard. *)
Lemma io_error_clears_cache_and_reduces_timer :
  size (cache (systemInfo (dashboard started_up))) = 4%nat
  /\ cache (systemInfo (snd (handleError (Plain ioError) "" "2024-01-01T00:00:03.000Z"
                               (dashboard started_up))))
     = ∅
  /\ updateInterval (snd (handleError (Plain ioError) "" "2024-01-01T00:00:03.000Z"
                            (dashboard started_up)))
     = Some {| period := 4000; callback := ReducedLoop |}
  /\ degradedMode (snd (handleError (Plain ioError) "" "2024-01-01T00:00:03.000Z"
                          (dashboard started_up)))
     = false.
Proof.
  pose proof (medium_system_error_recovery (dashboard started_up) (Plain ioError) ""
                "2024-01-01T00:00:03.000Z" eq_refl eq_refl) as H.
  cbv zeta in H. destruct H as (Hcache & Hint & Hdeg & _).
  split; [vm_compute; reflexivity|]. split; [exact Hcache|].
  split; [rewrite Hint; vm_compute; reflexivity|].
  rewrite Hdeg. vm_compute. reflexivity.
Defined.

(** X11 on the cache of the running dashboard, swept at 2100 and read at
    2200; its entries were stored at 100. *)
Lemma sweep_invisible_at_2200 :
  2100 <= 2200
  /\ fst (cacheLookup "cpu" 2200
            (clearExpiredCache 2100 (systemInfo (dashboard started_up))))
     = fst (cacheLookup "cpu" 2200 (systemInfo (dashboard started_up))).
Proof.
  assert (Hlater : 2100 <= 2200) by lia.
  split; [exact Hlater|].
  apply (sweep_invisible_to_later_reads (systemInfo (dashboard started_up)) "cpu"
           2100 2200 Hlater).
Defined.

(** X12 on the cache of the running dashboard. *)
Lemma sweeps_at_1000_and_2100 :
  1000 <= 2100
  /\ clearExpiredCache 2100 (clearExpiredCache 1000 (systemInfo (dashboard started_up)))
     = clearExpiredCache 2100 (systemInfo (dashboard started_up)).
Proof.
  assert (Hlater : 1000 <= 2100) by lia.
  split; [exact Hlater|].
  apply (sweeps_compose_to_the_later (systemInfo (dashboard started_up)) 1000 2100 Hlater).
Defined.

(** X13 on the disk collector: fetched at 100 on the healthy host, called
    again at 1500 with the disk query failing. *)
Lemma disk_reading_served_from_cache :
  fst (cacheLookup (cacheKey Disk) 0 newSystemInfo) = None
  /\ 1500 - 100 < cacheTimeout newSystemInfo
  /\ fst (getDiskInfo 1500 1600 diskDown (snd (getDiskInfo 0 100 healthy newSystemInfo)))
     = fst (getDiskInfo 0 100 healthy newSystemInfo).
Proof.
  assert (Hmiss : fst (cacheLookup (cacheKey Disk) 0 newSystemInfo) = None)
    by (vm_compute; reflexivity).
  assert (Hfresh : 1500 - 100 < cacheTimeout newSystemInfo) by (cbn; lia).
  pose proof (collect_serves_cached_reading Disk 0 100 1500 1600 healthy diskDown
                newSystemInfo _ Hmiss eq_refl Hfresh) as H.
  cbv zeta in H. destruct H as [Hfirst Hsecond].
  split; [exact Hmiss|]. split; [exact Hfresh|].
  unfold getDiskInfo. rewrite Hsecond, Hfirst. reflexivity.
Defined.

(** X14 on the disk collector: the query fails at 0 and succeeds at 500. *)
Lemma disk_collector_retries_after_failure :
  queryFails Disk diskDown = true
  /\ fst (getDiskInfo 0 100 diskDown newSystemInfo) = Fulfilled (DiskData [])
  /\ fst (getDiskInfo 500 600 healthy (snd (getDiskInfo 0 100 diskDown newSystemInfo)))
     = fst (getDiskInfo 0 100 healthy newSystemInfo).
Proof.
  assert (Hmiss : fst (cacheLookup (cacheKey Disk) 0 newSystemInfo) = None)
    by (vm_compute; reflexivity).
  pose proof (collect_retries_after_failure Disk 0 100 500 600 diskDown healthy
                newSystemInfo _ Hmiss eq_refl eq_refl) as H.
  cbv zeta in H. destruct H as (Hdefault & _ & Hretry & _).
  split; [reflexivity|]. split; [exact Hdefault|].
  unfold getDiskInfo. rewrite Hretry. vm_compute. reflexivity.
Defined.

(** X16 on the memory of the healthy host: half used. *)
Lemma sample_memory_usagePercent_bounded :
  (0 < mem_total sampleMem)%Q
  /\ (0 <= usagePercent (memoryResult sampleMem))%Q
  /\ (usagePercent (memoryResult sampleMem) <= 100)%Q
  /\ (usagePercent (memoryResult sampleMem) == 50)%Q.
Proof.
  assert (Htotal : (0 < mem_total sampleMem)%Q) by reflexivity.
  assert (Hused : (0 <= mem_used sampleMem)%Q) by (unfold Qle; cbn; lia).
  assert (Hfits : (mem_used sampleMem <= mem_total sampleMem)%Q)
    by (unfold Qle; cbn; lia).
  destruct (memory_usagePercent_bounded sampleMem Htotal Hused Hfits) as [Hlo Hhi].
  split; [exact Htotal|]. split; [exact Hlo|]. split; [exact Hhi|].
  vm_compute. reflexivity.
Defined.

(** X18 on the first cycle of the process: the CPU entry it leaves. *)
Lemma first_cycle_cache_is_swept :
  cache (systemInfo (snd (updateDisplay (beginAt 0) (resumeAt 100) healthy
                            (newDashboard 0))))
    !! "cpu"
  = Some {| data := sourceReading CPU (beginAt 0) healthy newSystemInfo;
            cached_at := 100 |}
  /\ 100 - 100 < cacheTimeout (systemInfo (newDashboard 0)).
Proof.
  assert (Hentry :
    cache (systemInfo (snd (updateDisplay (beginAt 0) (resumeAt 100) healthy
                              (newDashboard 0))))
      !! "cpu"
    = Some {| data := sourceReading CPU (beginAt 0) healthy newSystemInfo;
              cached_at := 100 |}) by (vm_compute; reflexivity).
  split; [exact Hentry|].
  apply (cache_after_cycle_is_swept (beginAt 0) (resumeAt 100) healthy (newDashboard 0)
           "cpu" _ Hentry).
Defined.

(** X19 on two cycles: the disk is read at 100 and shown again by the cycle
    at 1500, in which the disk query fails. *)
Lemma second_cycle_repeats_disk_reading :
  servedFromCache Disk (beginAt 0) (systemInfo (newDashboard 0)) = None
  /\ fst (updateDisplay (beginAt 1500) (resumeAt 1600) diskDown
            (snd (updateDisplay (beginAt 0) (resumeAt 100) healthy (newDashboard 0))))
       !! resultIndex Disk
     = fst (updateDisplay (beginAt 0) (resumeAt 100) healthy (newDashboard 0))
         !! resultIndex Disk.
Proof.
  assert (Hmiss : servedFromCache Disk (beginAt 0) (systemInfo (newDashboard 0)) = None)
    by (vm_compute; reflexivity).
  assert (Hswept : sweepAt (resumeAt 100) - pick Disk (storeAt (resumeAt 100))
                   < cacheTimeout (systemInfo (newDashboard 0))) by (cbn; lia).
  assert (Hsoon : pick Disk (lookupAt (beginAt 1500)) - pick Disk (storeAt (resumeAt 100))
                  < cacheTimeout (systemInfo (newDashboard 0))) by (cbn; lia).
  pose proof (cycle_repeats_reading_within_timeout (newDashboard 0)
                (beginAt 0) (beginAt 1500) (resumeAt 100) (resumeAt 1600)
                healthy diskDown Disk _ Hmiss eq_refl Hswept Hsoon) as H.
  cbv zeta in H. destruct H as [Hfirst Hsecond].
  split; [exact Hmiss|]. rewrite Hsecond, Hfirst. reflexivity.
Defined.

(** X21 on cycles of 10, 11 and 12 ms. *)
Lemma average_of_10_11_12_between :
  totalUpdates (performanceStats (newDashboard 0)) = 0
  /\ totalUpdates (performanceStats (recordDurations [10; 11; 12] (newDashboard 0))) = 3
  /\ 10 <= averageUpdateTime
             (performanceStats (recordDurations [10; 11; 12] (newDashboard 0))) <= 12.
Proof.
  assert (Hfresh : totalUpdates (performanceStats (newDashboard 0)) = 0) by reflexivity.
  assert (Hsome : [10; 11; 12] <> @nil Z) by discriminate.
  assert (Hrange : Forall (fun t => 10 <= t <= 12) [10; 11; 12])
    by (repeat constructor; lia).
  pose proof (average_stays_between_extremes (newDashboard 0) [10; 11; 12] 10 12
                Hfresh Hsome Hrange) as H.
  cbv zeta in H. destruct H as [Htotal Hbetween].
  split; [exact Hfresh|]. split; [exact Htotal|exact Hbetween].
Defined.

(** X22 on the dashboard whose timer was reduced by a failed system call. *)
Lemma reduced_tick_keeps_performanceStats :
  updateInterval (dashboard reduced_down)
  = Some {| period := 4000; callback := ReducedLoop |}
  /\ performanceStats
       (dashboard (step reduced_down
                     (TimerFires 4100 (beginAt 4100) (resumeAt 4100))))
     = performanceStats (dashboard reduced_down).
Proof.
  assert (Harmed : updateInterval (dashboard reduced_down)
                   = Some {| period := 4000; callback := ReducedLoop |})
    by (vm_compute; reflexivity).
  pose proof (reduced_loop_freezes_performanceStats reduced_down 4100 (beginAt 4100)
                (resumeAt 4100) _ Harmed eq_refl) as H.
  cbv zeta in H. destruct H as [Hperf _].
  split; [exact Harmed|exact Hperf].
Defined.

(** X23 on the running dashboard, whose cache holds four fresh readings. *)
Lemma refresh_key_empties_cache :
  eventHandler (dashboard started_up) = true
  /\ size (cache (systemInfo (dashboard started_up))) = 4%nat
  /\ cache (systemInfo (dashboard (step started_up
                                     (RefreshKey (beginAt 500) (resumeAt 500)))))
     = ∅.
Proof.
  assert (Hready : eventHandler (dashboard started_up) = true)
    by (vm_compute; reflexivity).
  pose proof (refresh_bypasses_cache started_up (beginAt 500) (resumeAt 500) Hready) as H.
  cbv zeta in H. destruct H as [Hempty _].
  split; [exact Hready|]. split; [vm_compute; reflexivity|exact Hempty].
Defined.

(** X26 on twenty-five lines logged by a new logger. *)
Lemma logger_buffer_bounded_25_lines :
  (length (logBuffer newLogger) < bufferSize newLogger)%nat
  /\ (length (logBuffer (loggerRun manyInfoCalls newLogger)) < 10)%nat
  /\ map length (handedOver (loggerRun manyInfoCalls newLogger)) = [10; 10]%nat.
Proof.
  assert (Hbuffer : (length (logBuffer newLogger) < bufferSize newLogger)%nat)
    by (cbn; lia).
  assert (Hbatches : Forall (fun batch => (0 < length batch <= bufferSize newLogger)%nat)
                       (handedOver newLogger)) by constructor.
  destruct (logger_buffer_bounded manyInfoCalls newLogger Hbuffer Hbatches) as [Hb _].
  split; [exact Hbuffer|]. split; [exact Hb|]. vm_compute. reflexivity.
Defined.

(** X28 on an idle loopback interface listed before a busy one. *)
Lemma busy_interface_is_shown :
  [idleInterface; busyInterface] <> []
  /\ activeInterface [idleInterface; busyInterface] = Some busyInterface
  /\ activeInterface [idleInterface] = Some idleInterface.
Proof.
  assert (Hsome : [idleInterface; busyInterface] <> []) by discriminate.
  destruct (activeInterface_selection [idleInterface; busyInterface] Hsome)
    as (net & Hnet & _).
  split; [exact Hsome|]. split; [|reflexivity].
  rewrite Hnet. vm_compute in Hnet. injection Hnet as <-. reflexivity.
Defined.

(** X29 on a usage of 45.2 percent drawn twenty cells wide. *)
Lemma progress_bar_of_45_percent :
  ~ (100 == 0)%Q
  /\ 0 <= 20
  /\ createProgressBar defaultTheme (452 # 10) 100 20
     = Some "{green-fg}█████████░░░░░░░░░░░{/green-fg} 45.2%".
Proof.
  assert (Hmax : ~ (100 == 0)%Q) by (unfold Qeq; cbn; lia).
  assert (Hwidth : 0 <= 20) by lia.
  pose proof (createProgressBar_draws_width_cells defaultTheme (452 # 10) 100 20
                Hmax Hwidth) as H.
  cbv zeta in H. destruct H as (_ & _ & _ & Hbar & _).
  split; [exact Hmax|]. split; [exact Hwidth|].
  rewrite Hbar. vm_compute. reflexivity.
Defined.
